(** * Customer-support agent: the ticket pipeline and its failure policy

    A shallow embedding of the two revisions of the [CustomerSupportAgent]
    class that the repository carries,

    - the agent with the customer normaliser (module [Agent]), and
    - [n8n customer support agent.js] (module [N8n]), the revision that
      [server.js] loads, in its form with pipeline options,

    over a small model of the JavaScript values both work on (module [JS]).
    The external providers (document store, completion API, mail API, chat
    API) and the built-ins of the runtime ([JSON.parse], [JSON.stringify],
    [Buffer], [Date], [process.env], [URLSearchParams]) are the fields of a
    [Platform] record: every definition and every general theorem is
    parametric in it.  Calls to a provider are recorded in a trace of
    events.  [console] output is not modelled, but the text of a template
    literal passed to it is built, since building it can raise: the
    conversion of a value to a string is fallible (module [JS]). *)

From Stdlib Require Import ZArith List String Ascii Bool Lia.
From Stdlib Require Import DecimalString.
Import ListNotations.
Open Scope string_scope.
#[local] Set Warnings "-register-all".

(* ================================================================== *)
(** * JavaScript values *)
(* ================================================================== *)

Module JS.

(** The values a JSON body can carry, plus [undefined].  Numbers are kept
    to the integers: the code only tests them for truthiness and prints
    them.  A character of a [string] stands for one code unit of a
    JavaScript string; texts are kept to the code units below 256. *)
Inductive value : Type :=
| VUndefined
| VNull
| VBool (b : bool)
| VNum (z : Z)
| VStr (s : string)
| VArr (items : list value)
| VObj (fields : list (string * value)).

(** What a [throw] carries.  The runtime raises [TypeError]s; a provider
    rejects with an [ApiError]. *)
Inductive exn : Type :=
| TypeError (msg : string)
| ApiError (msg : string).

Inductive outcome (A : Type) : Type :=
| Return (a : A)
| Throw (e : exn).
Arguments Return {A} a.
Arguments Throw {A} e.

Definition obind {A B : Type} (m : outcome A) (k : A -> outcome B) : outcome B :=
  match m with
  | Return a => k a
  | Throw e => Throw e
  end.

Notation "'let?' x ':=' m 'in' k" := (obind m (fun x => k))
  (at level 10, x name, m at level 100, k at level 200).

(** ** Truthiness and [||] *)

Definition truthy (v : value) : bool :=
  match v with
  | VUndefined | VNull => false
  | VBool b => b
  | VNum z => negb (Z.eqb z 0)
  | VStr s => negb (String.eqb s "")
  | VArr _ | VObj _ => true
  end.

(** [a || b] on values already computed. *)
Definition jor (a b : value) : value := if truthy a then a else b.

(** [a || b] where either operand may raise; [b] is only consulted when
    [a] returned a falsy value. *)
Definition orElse (a b : outcome value) : outcome value :=
  let? x := a in if truthy x then Return x else b.

Notation "a '|||' b" := (orElse a b) (at level 50, left associativity).

Definition nullish (v : value) : bool :=
  match v with
  | VUndefined | VNull => true
  | _ => false
  end.

(** ** Property access *)

Fixpoint lookup (k : string) (fields : list (string * value)) : value :=
  match fields with
  | [] => VUndefined
  | (k', v) :: rest => if String.eqb k k' then v else lookup k rest
  end.

(** [o[k] = v] on the fields of an object: a key read again replaces the
    value it had and keeps its place. *)
Fixpoint setField (k : string) (v : value) (fields : list (string * value))
  : list (string * value) :=
  match fields with
  | [] => [(k, v)]
  | (k', v') :: rest =>
      if String.eqb k k' then (k, v) :: rest else (k', v') :: setField k v rest
  end.

(** [delete o[k]] on the fields of an object. *)
Fixpoint removeField (k : string) (fields : list (string * value))
  : list (string * value) :=
  match fields with
  | [] => []
  | (k', v') :: rest =>
      if String.eqb k k' then removeField k rest else (k', v') :: removeField k rest
  end.

(** [v?.k], for the keys this program reads (none of them names a built-in
    property of a string, a number, a boolean or an array). *)
Definition getOpt (v : value) (k : string) : value :=
  match v with
  | VObj fields => lookup k fields
  | _ => VUndefined
  end.

(** [v.k]: as [v?.k], but reading a property of [null] or [undefined]
    raises. *)
Definition get (v : value) (k : string) : outcome value :=
  match v with
  | VUndefined =>
      Throw (TypeError ("Cannot read properties of undefined (reading '" ++ k ++ "')"))
  | VNull =>
      Throw (TypeError ("Cannot read properties of null (reading '" ++ k ++ "')"))
  | _ => Return (getOpt v k)
  end.

(** [v?.[0]] *)
Definition getOpt0 (v : value) : value :=
  match v with
  | VArr items => nth 0 items VUndefined
  | VStr (String c _) => VStr (String c "")
  | VObj fields => lookup "0" fields
  | _ => VUndefined
  end.

(** ** Conversion to string: [v + ''], [`${v}`] and [v.toString()] *)

(** [Object.hasOwn(o, k)] on the fields of an object. *)
Fixpoint hasOwn (k : string) (fields : list (string * value)) : bool :=
  match fields with
  | [] => false
  | (k', _) :: rest => String.eqb k k' || hasOwn k rest
  end.

(** [Array.prototype.join] on strings already converted. *)
Fixpoint join (sep : string) (l : list string) : string :=
  match l with
  | [] => ""
  | [x] => x
  | x :: rest => x ++ sep ++ join sep rest
  end.

(** [f] on every entry in turn, up to the first one on which it raises. *)
Fixpoint traverse {A B : Type} (f : A -> outcome B) (l : list A) : outcome (list B) :=
  match l with
  | [] => Return []
  | x :: rest =>
      let? y := f x in
      let? ys := traverse f rest in
      Return (y :: ys)
  end.

(** A template literal: its literal parts and its substitutions, in the
    order of the text.  A substitution is the expression between the
    braces, which may raise when it is evaluated. *)
Inductive piece : Type :=
| Lit (s : string)
| Sub (v : outcome value).

Section Conversion.

(** [Number.prototype.toString] on the integers.  Every definition and
    every general theorem is parametric in it. *)
Variable num : Z -> string.

(** A number, a string, a boolean, [null] and [undefined] have a text; an
    array is joined with commas, [null] and [undefined] entries counting
    as empty.  A JSON object prints as ["[object Object]"] through
    [Object.prototype.toString], unless it has a key ["toString"] of its
    own: the value of that key is not callable, [valueOf] gives the object
    back, and the conversion raises. *)
Fixpoint toString (v : value) : outcome string :=
  match v with
  | VUndefined => Return "undefined"
  | VNull => Return "null"
  | VBool true => Return "true"
  | VBool false => Return "false"
  | VNum z => Return (num z)
  | VStr s => Return s
  | VArr items =>
      let? texts :=
        (fix each (l : list value) : outcome (list string) :=
           match l with
           | [] => Return []
           | x :: rest =>
               let? s := (if nullish x then Return "" else toString x) in
               let? ss := each rest in
               Return (s :: ss)
           end) items in
      Return (join "," texts)
  | VObj fields =>
      if hasOwn "toString" fields
      then Throw (TypeError "Cannot convert object to primitive value")
      else Return "[object Object]"
  end.

(** [items.join(sep)] *)
Definition joinValues (sep : string) (items : list value) : outcome string :=
  let? texts := traverse (fun x => if nullish x then Return "" else toString x) items in
  Return (join sep texts).

(** [v.toString()], the method call. *)
Definition callToString (v : value) : outcome string :=
  match v with
  | VUndefined =>
      Throw (TypeError "Cannot read properties of undefined (reading 'toString')")
  | VNull =>
      Throw (TypeError "Cannot read properties of null (reading 'toString')")
  | VObj fields =>
      if hasOwn "toString" fields
      then Throw (TypeError "toString is not a function")
      else Return "[object Object]"
  | _ => toString v
  end.

(** The text of a template literal: each substitution is evaluated and
    converted before the next one is looked at. *)
Fixpoint template (pieces : list piece) : outcome string :=
  match pieces with
  | [] => Return ""
  | Lit s :: rest =>
      let? r := template rest in
      Return (s ++ r)
  | Sub m :: rest =>
      let? v := m in
      let? s := toString v in
      let? r := template rest in
      Return (s ++ r)
  end.

End Conversion.

(** ** String methods *)

(** White space and line terminators among the code units below 256. *)
Definition is_space (c : ascii) : bool :=
  let n := nat_of_ascii c in
  ((9 <=? n)%nat && (n <=? 13)%nat) || (n =? 32)%nat || (n =? 160)%nat.

Fixpoint trimStart (s : string) : string :=
  match s with
  | String c rest => if is_space c then trimStart rest else s
  | EmptyString => EmptyString
  end.

Fixpoint rev_string (s acc : string) : string :=
  match s with
  | String c rest => rev_string rest (String c acc)
  | EmptyString => acc
  end.

Definition trim (s : string) : string :=
  rev_string (trimStart (rev_string (trimStart s) "")) "".

(** "Consists only of white space", said of the characters one by one. *)
Fixpoint allSpace (s : string) : bool :=
  match s with
  | String c rest => is_space c && allSpace rest
  | EmptyString => true
  end.

(** [s.slice(0, n)] on a string. *)
Fixpoint take (n : nat) (s : string) : string :=
  match n, s with
  | S n', String c rest => String c (take n' rest)
  | _, _ => EmptyString
  end.

(** [v.trim()]: only strings have the method. *)
Definition callTrim (v : value) : outcome string :=
  match v with
  | VStr s => Return (trim s)
  | VUndefined | VNull => Throw (TypeError "Cannot read properties of undefined (reading 'trim')")
  | _ => Throw (TypeError "trim is not a function")
  end.

(** [v.slice(0, n)]: strings and arrays have the method. *)
Definition callSlice (v : value) (n : nat) : outcome value :=
  match v with
  | VStr s => Return (VStr (take n s))
  | VArr items => Return (VArr (firstn n items))
  | VUndefined | VNull => Throw (TypeError "Cannot read properties of undefined (reading 'slice')")
  | _ => Throw (TypeError "slice is not a function")
  end.

(** [v.length] of a string or an array. *)
Definition jsLength (v : value) : nat :=
  match v with
  | VStr s => String.length s
  | VArr items => List.length items
  | _ => 0
  end.

(** [(v || []).map(f)]: only arrays have the method. *)
Definition callMap {A : Type} (v : value) (f : value -> outcome A) : outcome (list A) :=
  match v with
  | VArr items =>
      (fix go (l : list value) : outcome (list A) :=
         match l with
         | [] => Return []
         | x :: rest =>
             let? y := f x in
             let? ys := go rest in
             Return (y :: ys)
         end) items
  | VUndefined | VNull => Throw (TypeError "Cannot read properties of undefined (reading 'map')")
  | _ => Throw (TypeError "map is not a function")
  end.

(** [error?.message || error] *)
Definition errorText (e : exn) : string :=
  match e with
  | TypeError msg => if String.eqb msg "" then "TypeError" else msg
  | ApiError msg => if String.eqb msg "" then "Error" else msg
  end.

(** The values [for (const x of v)] visits: the items of an array, the
    characters of a string; nothing else a JSON body carries is iterable. *)
Fixpoint characters (s : string) : list value :=
  match s with
  | String c rest => VStr (String c "") :: characters rest
  | EmptyString => []
  end.

Definition iterate (v : value) : outcome (list value) :=
  match v with
  | VArr items => Return items
  | VStr s => Return (characters s)
  | _ => Throw (TypeError "parts is not iterable")
  end.

(** [v === s] for a string literal [s]. *)
Definition isText (v : value) (s : string) : bool :=
  match v with
  | VStr s' => String.eqb s' s
  | _ => false
  end.

End JS.

(* ================================================================== *)
(** * A reference [JSON.parse] *)
(* ================================================================== *)

(** The general theorems hold for every [JSON_parse] a [Platform] may
    supply.  Closed examples need one that runs: this recursive-descent
    parser accepts the JSON texts without string escapes and without
    fraction or exponent parts, and rejects every other text. *)
Module Json.
Import JS.

Definition dquote : ascii := "034"%char.

(** Reads [''] for the double quote, so that JSON texts can be written as
    plain literals. *)
Fixpoint q (s : string) : string :=
  match s with
  | String c rest => String (if Ascii.eqb c "'" then dquote else c) (q rest)
  | EmptyString => EmptyString
  end.

Definition json_ws (c : ascii) : bool :=
  let n := nat_of_ascii c in
  (n =? 32)%nat || (n =? 9)%nat || (n =? 10)%nat || (n =? 13)%nat.

Fixpoint skip_ws (s : string) : string :=
  match s with
  | String c rest => if json_ws c then skip_ws rest else s
  | EmptyString => EmptyString
  end.

(** [strip p s] is what follows [p] in [s], when [s] starts with [p]. *)
Fixpoint strip (p s : string) : option string :=
  match p, s with
  | EmptyString, _ => Some s
  | String a p', String b s' => if Ascii.eqb a b then strip p' s' else None
  | _, EmptyString => None
  end.

Fixpoint parse_chars (s : string) : option (string * string) :=
  match s with
  | EmptyString => None
  | String c rest =>
      if Ascii.eqb c dquote then Some ("", rest)
      else if Ascii.eqb c "\" then None
      else if (nat_of_ascii c <? 32)%nat then None
      else match parse_chars rest with
           | Some (str, rest') => Some (String c str, rest')
           | None => None
           end
  end.

Definition digit (c : ascii) : option Z :=
  let n := nat_of_ascii c in
  if ((48 <=? n) && (n <=? 57))%nat then Some (Z.of_nat (n - 48)) else None.

Fixpoint parse_digits (s : string) (acc : Z) : Z * string :=
  match s with
  | String c rest =>
      match digit c with
      | Some d => parse_digits rest (10 * acc + d)
      | None => (acc, s)
      end
  | EmptyString => (acc, s)
  end.

Definition parse_nat (s : string) : option (Z * string) :=
  match s with
  | String c rest =>
      match digit c with
      | Some 0%Z =>
          match rest with
          | String c' _ =>
              match digit c' with Some _ => None | None => Some (0%Z, rest) end
          | EmptyString => Some (0%Z, rest)
          end
      | Some d => Some (parse_digits rest d)
      | None => None
      end
  | EmptyString => None
  end.

Definition parse_number (s : string) : option (Z * string) :=
  let signed :=
    match s with
    | String "-" rest =>
        match parse_nat rest with
        | Some (z, rest') => Some (Z.opp z, rest')
        | None => None
        end
    | _ => parse_nat s
    end in
  match signed with
  | Some (z, String c rest) =>
      if Ascii.eqb c "." || Ascii.eqb c "e" || Ascii.eqb c "E" then None
      else Some (z, String c rest)
  | other => other
  end.

Definition objectOf (members : list (string * value)) : value :=
  VObj (fold_left (fun acc kv => setField (fst kv) (snd kv) acc) members []).

Fixpoint parse_value (fuel : nat) (s : string) : option (value * string) :=
  match fuel with
  | O => None
  | S fuel' =>
      match skip_ws s with
      | EmptyString => None
      | String c rest as s' =>
          if Ascii.eqb c "n" then option_map (pair VNull) (strip "null" s')
          else if Ascii.eqb c "t" then option_map (pair (VBool true)) (strip "true" s')
          else if Ascii.eqb c "f" then option_map (pair (VBool false)) (strip "false" s')
          else if Ascii.eqb c dquote then
            match parse_chars rest with
            | Some (str, rest') => Some (VStr str, rest')
            | None => None
            end
          else if Ascii.eqb c "[" then
            match skip_ws rest with
            | String "]" rest' => Some (VArr [], rest')
            | _ =>
                match parse_elements fuel' rest with
                | Some (items, rest') => Some (VArr items, rest')
                | None => None
                end
            end
          else if Ascii.eqb c "{" then
            match skip_ws rest with
            | String "}" rest' => Some (VObj [], rest')
            | _ =>
                match parse_members fuel' rest with
                | Some (members, rest') => Some (objectOf members, rest')
                | None => None
                end
            end
          else
            match parse_number s' with
            | Some (z, rest') => Some (VNum z, rest')
            | None => None
            end
      end
  end
with parse_elements (fuel : nat) (s : string) : option (list value * string) :=
  match fuel with
  | O => None
  | S fuel' =>
      match parse_value fuel' s with
      | Some (v, rest) =>
          match skip_ws rest with
          | String "," rest' =>
              match parse_elements fuel' rest' with
              | Some (vs, rest'') => Some (v :: vs, rest'')
              | None => None
              end
          | String "]" rest' => Some ([v], rest')
          | _ => None
          end
      | None => None
      end
  end
with parse_members (fuel : nat) (s : string) : option (list (string * value) * string) :=
  match fuel with
  | O => None
  | S fuel' =>
      match skip_ws s with
      | String c rest =>
          if Ascii.eqb c dquote then
            match parse_chars rest with
            | Some (k, rest1) =>
                match skip_ws rest1 with
                | String ":" rest2 =>
                    match parse_value fuel' rest2 with
                    | Some (v, rest3) =>
                        match skip_ws rest3 with
                        | String "," rest4 =>
                            match parse_members fuel' rest4 with
                            | Some (ms, rest5) => Some ((k, v) :: ms, rest5)
                            | None => None
                            end
                        | String "}" rest4 => Some ([(k, v)], rest4)
                        | _ => None
                        end
                    | None => None
                    end
                | _ => None
                end
            | None => None
            end
          else None
      | EmptyString => None
      end
  end.

(** [Some v] when the whole text is one JSON value, [None] where
    [JSON.parse] raises a [SyntaxError]. *)
Definition parse (s : string) : option value :=
  match parse_value (2 * String.length s + 2) s with
  | Some (v, rest) =>
      match skip_ws rest with
      | EmptyString => Some v
      | _ => None
      end
  | None => None
  end.

End Json.

(* ================================================================== *)
(** * Providers, events and the pipeline monad *)
(* ================================================================== *)

Module Effects.
Import JS.

(** A block of a chat message. *)
Inductive block : Type :=
| SectionBlock (text : string)
| ActionsBlock (buttons : list (string * string)).

(** One call to an external provider, with what the code passes. *)
Inductive event : Type :=
| DocAppend (documentId : value) (text : string)
| Completion (prompt : string)
| GmailSend (raw : string)
| SlackPost (channel : value) (thread_ts : option value) (text : string)
    (blocks : list block).

Definition trace := list event.

(** The runtime and the providers.  [URLSearchParams] and
    [encodeURIComponent] are given the texts their arguments were
    converted to.  [respond history call] is what the provider answers to
    [call] after the calls of [history]: the resolved value, or the
    rejection. *)
Record Platform : Type := {
  JSON_parse : string -> option value;
  JSON_stringify : value -> string;
  Number_toString : Z -> string;
  base64 : string -> string;
  toISOString : trace -> string;
  process_env : string -> option string;
  URLSearchParams : list (string * string) -> string;
  encodeURIComponent : string -> string;
  respond : trace -> event -> outcome value
}.

(** A computation reads the calls made so far and extends them. *)
Definition M (A : Type) : Type := trace -> outcome A * trace.

Definition ret {A : Type} (a : A) : M A := fun tr => (Return a, tr).

Definition throw {A : Type} (e : exn) : M A := fun tr => (Throw e, tr).

Definition bind {A B : Type} (m : M A) (k : A -> M B) : M B :=
  fun tr =>
    match m tr with
    | (Return a, tr') => k a tr'
    | (Throw e, tr') => (Throw e, tr')
    end.

(** [try { m } catch (e) { h e }] *)
Definition tryCatch {A : Type} (m : M A) (h : exn -> M A) : M A :=
  fun tr =>
    match m tr with
    | (Return a, tr') => (Return a, tr')
    | (Throw e, tr') => h e tr'
    end.

Definition lift {A : Type} (r : outcome A) : M A := fun tr => (r, tr).

(** [await provider(call)] *)
Definition call (P : Platform) (c : event) : M value :=
  fun tr => (respond P tr c, (tr ++ [c])%list).

(** [process.env.KEY]: a string, or [undefined] when the variable is not
    set. *)
Definition env (P : Platform) (key : string) : value :=
  match process_env P key with
  | Some s => VStr s
  | None => VUndefined
  end.

(** [new Date().toISOString()] *)
Definition now (P : Platform) : M string :=
  fun tr => (Return (toISOString P tr), tr).

Notation "'let!' x ':=' m 'in' k" := (bind m (fun x => k))
  (at level 10, x name, m at level 100, k at level 200).

Definition isSlackPost (e : event) : bool :=
  match e with
  | SlackPost _ _ _ _ => true
  | _ => false
  end.

Definition isGmailSend (e : event) : bool :=
  match e with
  | GmailSend _ => true
  | _ => false
  end.

Definition isCompletion (e : event) : bool :=
  match e with
  | Completion _ => true
  | _ => false
  end.

Definition count (p : event -> bool) (tr : trace) : nat :=
  List.length (filter p tr).

Definition nl : string := String "010"%char EmptyString.

End Effects.

(* ================================================================== *)
(** * Data model *)
(* ================================================================== *)

Module Data.
Import JS Effects.

Record Customer : Type := {
  name : value;
  email : value
}.

(** [opts] of [processTicket], after the defaults of its destructuring. *)
Record PipelineOptions : Type := {
  skipEmail : bool;
  skipAI : bool;
  draftText : value
}.

(** [processTicket(ticket)] with [opts = {}]. *)
Definition defaultOptions : PipelineOptions :=
  {| skipEmail := false; skipAI := false; draftText := VNull |}.

Record Flags : Type := {
  skip_email : bool;
  skip_ai : bool;
  has_draft : bool
}.

Record Summary : Type := {
  source : value;
  subject : value;
  customer : Customer;
  message_preview : string;
  response_preview : value;
  flags : Flags
}.

Record PipelineResult : Type := {
  ok : bool;
  ticketId : value;
  used_ai : bool;
  emailed : bool;
  summary : Summary;
  slack : value
}.

(** What the manual route reads of a request. *)
Record Request : Type := {
  body : value;
  headers : string -> value
}.

(** What the manual route answers: [res.status(200).json(result)] or
    [res.status(500).json({ ok, error })]. *)
Inductive HttpResponse : Type :=
| Json200 (result : PipelineResult)
| Json500 (ok : bool) (error : string).

(** [s.replace(/a/g, b)] for single characters. *)
Fixpoint replaceAll (a b : ascii) (s : string) : string :=
  match s with
  | String c rest => String (if Ascii.eqb c a then b else c) (replaceAll a b rest)
  | EmptyString => EmptyString
  end.

(** [ticket?.messages?.[0]?.body || ticket?.messages?.[0]?.text || ''] *)
Definition firstMessage (ticket : value) : value :=
  jor (jor (getOpt (getOpt0 (getOpt ticket "messages")) "body")
           (getOpt (getOpt0 (getOpt ticket "messages")) "text"))
      (VStr "").

(** What a webhook route answers: [res.status(code).send(text)]. *)
Inductive SendResponse : Type :=
| Send (status : nat) (text : string).

(** The three places where both revisions go through the messages of a
    ticket. *)
Section Messages.

Variable num : Z -> string.

(** [(ticket.messages || []).map((msg) => `- ${msg.body || msg.text ||
    'No content'}`).join('\n')] *)
Definition messageLines (ticket : value) : outcome value :=
  let? messages := get ticket "messages" in
  let? lines := callMap (jor messages (VArr [])) (fun msg =>
    template num
      [Lit "- "; Sub (get msg "body" ||| get msg "text" ||| Return (VStr "No content"))]) in
  Return (VStr (join nl lines)).

(** [(ticket.messages || []).map((msg) => msg.body || msg.text ||
    'No content').join('\n')] *)
Definition messageBodies (ticket : value) : outcome value :=
  let? messages := get ticket "messages" in
  let? lines := callMap (jor messages (VArr [])) (fun msg =>
    get msg "body" ||| get msg "text" ||| Return (VStr "No content")) in
  let? text := joinValues num nl lines in
  Return (VStr text).

(** [(ticket?.messages || []).map((m) => m.body || m.text).join(' ')] *)
Definition customerQuery (ticket : value) : outcome string :=
  let? queries := callMap (jor (getOpt ticket "messages") (VArr [])) (fun m =>
    get m "body" ||| get m "text") in
  joinValues num " " queries.

End Messages.

End Data.

(* ================================================================== *)
(** * The agent with the customer normaliser *)
(* ================================================================== *)

Module Agent.
Import JS Effects Data.

Section WithPlatform.

Variable P : Platform.

Abbreviation toString := (JS.toString (Number_toString P)).
Abbreviation template := (JS.template (Number_toString P)).
Abbreviation messageLines := (Data.messageLines (Number_toString P)).
Abbreviation messageBodies := (Data.messageBodies (Number_toString P)).
Abbreviation customerQuery := (Data.customerQuery (Number_toString P)).

(** ** Helper: normalize customer data (name + email) *)

(** The first half of [normalizeCustomer]: the object [c] the aliases are
    then read from. *)
Definition nestedCustomer (ticket : value) : outcome value :=
  let t := jor ticket (VObj []) in
  let? c := get t "customer" ||| get t "Customer" ||| Return (VObj []) in
  (* If customer comes as JSON string, try to parse it *)
  match c with
  | VStr s =>
      match JSON_parse P s with
      | Some parsed => Return parsed
      | None => Return (VObj [])
      end
  | _ => Return c
  end.

Definition normalizeCustomer (ticket : value) : outcome Customer :=
  let t := jor ticket (VObj []) in
  let? c := nestedCustomer ticket in
  let? name :=
    get c "name" |||
    get c "Name" |||
    get t "customer_name" |||
    get t "CustomerName" |||
    get t "Name" |||
    get t "name" |||
    Return (VStr "") in
  let? email :=
    get c "email" |||
    get c "Email" |||
    get t "customer_email" |||
    get t "CustomerEmail" |||
    get t "Email" |||
    get t "email" |||
    Return (VStr "") in
  Return {| name := jor name (VStr ""); email := jor email (VStr "") |}.

(** ** Google Docs *)

(** [content] of [storeTicketInDoc] *)
Definition content (ticket : value) (customer : Customer) (timestamp : string)
  : outcome string :=
  template
    [Lit (nl ++ "---" ++ nl ++ "Ticket ID: "); Sub (get ticket "id");
     Lit (nl ++ "Date: "); Sub (Return (VStr timestamp));
     Lit (nl ++ "Source: "); Sub (get ticket "source");
     Lit (nl ++ "Customer: "); Sub (Return (name customer));
     Lit " ("; Sub (Return (email customer));
     Lit (")" ++ nl ++ "Subject: "); Sub (get ticket "subject");
     Lit (nl ++ nl ++ "Messages:" ++ nl);
     Sub (messageLines ticket);
     Lit (nl ++ "---" ++ nl ++ nl)].

Definition storeTicketInDoc (ticket : value) (customer : Customer) : M unit :=
  let docId := env P "GOOGLE_DOC_ID" in
  if negb (truthy docId) then ret tt
  else
    let! timestamp := now P in
    let! content := lift (content ticket customer timestamp) in
    tryCatch
      (let! _ := call P (DocAppend docId content) in ret tt)
      (fun error => ret tt).

Definition getKnowledgeBaseContext (_ticket : value) : M value :=
  ret (VObj
    [("commonIssues", VArr
        [VStr "Account setup and onboarding";
         VStr "Feature usage and best practices";
         VStr "Integration troubleshooting";
         VStr "Billing and subscription questions"]);
     ("platformFeatures", VArr
        [VStr "User management";
         VStr "API documentation";
         VStr "Dashboard customization";
         VStr "Data export/import"])]).

(** ** OpenAI *)

(** [prompt] of [generateAIResponse] *)
Definition prompt (ticket : value) (customer : Customer) (context : value)
  : outcome string :=
  template
    [Lit ("You are a helpful customer support agent for our software platform." ++ nl ++ nl ++
          "Customer Information:" ++ nl ++
          "- Name: "); Sub (Return (name customer));
     Lit (nl ++ "- Email: "); Sub (Return (email customer));
     Lit (nl ++ "- Subject: "); Sub (get ticket "subject");
     Lit (nl ++ nl ++ "Customer Message:" ++ nl);
     Sub (messageBodies ticket);
     Lit (nl ++ nl ++ "Knowledge Base Context:" ++ nl);
     Sub (Return (VStr (JSON_stringify P context)));
     Lit (nl ++ nl ++
          "Please generate a helpful, professional response that:" ++ nl ++
          "1. Addresses the customer's specific question or concern" ++ nl ++
          "2. Provides step-by-step guidance when appropriate" ++ nl ++
          "3. References relevant platform features or documentation" ++ nl ++
          "4. Maintains a friendly, professional tone" ++ nl ++
          "5. Offers additional help if needed" ++ nl ++ nl ++
          "Response:")].

Definition generateAIResponse (ticket : value) (customer : Customer) (context : value)
  : M value :=
  let! prompt := lift (prompt ticket customer context) in
  tryCatch
    (let! completion := call P (Completion prompt) in
     let! choices := lift (get completion "choices") in
     let! response := lift (
       callTrim (jor (getOpt (getOpt (getOpt0 choices) "message") "content") (VStr ""))) in
     (* No generic fallback *)
     ret (VStr response))
    (fun error =>
       (* If the model fails, return empty so that NO automatic message is sent *)
       ret (VStr "")).

(** ** Gmail *)

(** [emailContent] of [sendGmailResponse] *)
Definition emailContent (ticket : value) (customer : Customer) (response : value)
  : outcome string :=
  template
    [Lit "To: "; Sub (Return (email customer));
     Lit (nl ++ "Subject: Re: "); Sub (get ticket "subject");
     Lit (nl ++ "Content-Type: text/plain; charset=utf-8" ++ nl ++ nl ++ "Hi ");
     Sub (Return (jor (name customer) (VStr "")));
     Lit ("," ++ nl ++ nl); Sub (Return response);
     Lit (nl ++ nl ++
          "Best regards," ++ nl ++
          "Customer Support Team" ++ nl ++ nl ++
          "---" ++ nl ++
          "This is an automated response. If you need further assistance, please reply to this email.")].

Definition sendGmailResponse (ticket : value) (customer : Customer) (response : value)
  : M unit :=
  tryCatch
    ((* If there is no response, no email is sent *)
     if negb (truthy response) then ret tt
     else
       let! trimmed := lift (callTrim response) in
       if negb (truthy (VStr trimmed)) then ret tt
       else
         let! emailContent := lift (emailContent ticket customer response) in
         let encodedEmail :=
           replaceAll "/" "_" (replaceAll "+" "-" (base64 P emailContent)) in
         let! _ := call P (GmailSend encodedEmail) in
         ret tt)
    (fun error => ret tt).

(** ** Slack *)

(** [customerMessage] of [notifySlackChannel]: the excerpt of the first
    message that the notification shows. *)
Definition customerMessage (ticket : value) : outcome string :=
  let? text := toString (firstMessage ticket) in
  Return (take 500 text).

(** [customerLine] and [emailLine] of [notifySlackChannel] *)
Definition customerLine (customer : Customer) : outcome string :=
  if truthy (name customer) then
    template [Lit "*Customer:* "; Sub (Return (name customer))]
  else if truthy (email customer) then
    template [Lit "*Customer:* "; Sub (Return (email customer))]
  else Return "*Customer:* Unknown customer".

Definition emailLine (customer : Customer) : outcome string :=
  if truthy (email customer) then
    template [Lit (nl ++ "*Email:* "); Sub (Return (email customer))]
  else Return "".

(** [message] of [notifySlackChannel]: the text and the blocks of the
    parent post. *)
Definition message (ticket : value) (customerLine emailLine : string) (error : option exn)
  : outcome (string * list block) :=
  match error with
  | Some err =>
      let? text :=
        template [Lit "🚨 Error processing ticket "; Sub (Return (getOpt ticket "id"))] in
      let? block :=
        template
          [Lit ("*Error Processing Ticket*" ++ nl ++ "*Ticket ID:* ");
           Sub (Return (getOpt ticket "id"));
           Lit nl; Sub (Return (VStr customerLine)); Sub (Return (VStr emailLine));
           Lit (nl ++ "*Subject:* "); Sub (Return (getOpt ticket "subject"));
           Lit (nl ++ "*Error:* "); Sub (Return (VStr (errorText err)))] in
      Return (text, [SectionBlock block])
  | None =>
      let? customerMessage := customerMessage ticket in
      let? text :=
        template
          [Lit "New support ticket";
           Sub (if truthy (getOpt ticket "id")
                then let? id := template [Lit " "; Sub (Return (getOpt ticket "id"))] in
                     Return (VStr id)
                else Return (VStr ""))] in
      let? block :=
        template
          [Lit ("*New Support Ticket*" ++ nl ++ "*Ticket ID:* ");
           Sub (Return (getOpt ticket "id"));
           Lit nl; Sub (Return (VStr customerLine)); Sub (Return (VStr emailLine));
           Lit (nl ++ "*Subject:* "); Sub (Return (getOpt ticket "subject"));
           Lit (nl ++ "*Source:* "); Sub (Return (getOpt ticket "source"))] in
      let? shown :=
        template
          [Lit ("*Customer Message:*" ++ nl);
           Sub (Return (jor (VStr customerMessage) (VStr "_No message body_")))] in
      Return (text, [SectionBlock block; SectionBlock shown])
  end.

(** [full] of [notifySlackChannel]: the text of the post in the thread. *)
Definition full (response : value) : outcome string :=
  template
    [Lit ("*Full AI Response:*" ++ nl ++ nl ++ "```" ++ nl);
     Sub (Return response);
     Lit (nl ++ "```")].

Definition notifySlackChannel (ticket : value) (customer : Customer) (response : value)
    (error : option exn) : M value :=
  let channelId := env P "SLACK_SUPPORT_CHANNEL_ID" in
  (* The Customer and Email lines *)
  let! customerLine := lift (customerLine customer) in
  let! emailLine := lift (emailLine customer) in
  tryCatch
    (let! message := lift (message ticket customerLine emailLine error) in
     (* Post parent message *)
     let! post := call P (SlackPost channelId None (fst message) (snd message)) in
     let! threadTs := lift (
       get post "ts" |||
       (let? m := get post "message" in Return (getOpt m "ts"))) in
     (* A non-empty AI response is published in the thread *)
     let! _ :=
       match error with
       | Some _ => ret tt
       | None =>
           if negb (truthy response) then ret tt
           else
             let! trimmed := lift (callTrim response) in
             if negb (truthy (VStr trimmed)) then ret tt
             else
               let! full := lift (full response) in
               let! _ := call P (SlackPost channelId (Some threadTs) full []) in
               ret tt
       end in
     ret (VObj [("channel", channelId); ("ts", threadTs)]))
    (fun err => ret VNull).

(** ** KB logging *)

Definition updateKnowledgeBase (ticket : value) (response : value) : M unit :=
  let! customer := lift (normalizeCustomer ticket) in
  let! timestamp := now P in
  let! customerQuery := lift (customerQuery ticket) in
  ret tt.

(** ** Core pipeline *)

(** Step 3 of [processTicket]: generate response (use draft if provided;
    if skipAI and no draft, response = ''). *)
Definition resolveResponse (ticket : value) (customer : Customer) (context : value)
    (opts : PipelineOptions) : M value :=
  if negb (truthy (draftText opts)) then
    if negb (skipAI opts) then generateAIResponse ticket customer context
    else ret (VStr "")
  else ret (draftText opts).

(** The [try] block of [processTicket]. *)
Definition pipelineSteps (ticket : value) (opts : PipelineOptions) : M PipelineResult :=
  let skipEmail := skipEmail opts in
  let skipAI := skipAI opts in
  let draftText := draftText opts in
  (* the text of the opening [console.log] *)
  let! _ := lift (template
    [Lit "Processing ticket "; Sub (Return (getOpt ticket "id"));
     Lit " from "; Sub (Return (getOpt ticket "source"))]) in
  let! customer := lift (normalizeCustomer ticket) in
  (* 1) Store ticket in Google Doc *)
  let! _ := storeTicketInDoc ticket customer in
  (* 2) Knowledge base context placeholder *)
  let! context := getKnowledgeBaseContext ticket in
  (* 3) Generate response *)
  let! aiResponse := resolveResponse ticket customer context opts in
  (* 4) Send email only if not skipped AND we actually have a response *)
  let! _ :=
    if negb skipEmail then sendGmailResponse ticket customer aiResponse
    else ret tt in
  (* 5) Always notify Slack (ticket info + optional full response in thread) *)
  let! slackInfo := notifySlackChannel ticket customer aiResponse None in
  (* 6) Update KB/logging placeholder *)
  let! _ := updateKnowledgeBase ticket aiResponse in
  let! emailed := lift (
    if negb skipEmail then
      if truthy aiResponse then
        let? trimmed := callTrim aiResponse in Return (truthy (VStr trimmed))
      else Return false
    else Return false) in
  let! message_preview := lift (
    let? text := toString (firstMessage ticket) in
    Return (take 180 text)) in
  let! response_preview := lift (callSlice (jor aiResponse (VStr "")) 180) in
  ret {| ok := true;
         ticketId := jor (getOpt ticket "id") VNull;
         used_ai := negb skipAI && negb (truthy draftText);
         emailed := emailed;
         summary :=
           {| source := jor (getOpt ticket "source") VNull;
              subject := jor (getOpt ticket "subject") VNull;
              customer := customer;
              message_preview := message_preview;
              response_preview := response_preview;
              flags := {| skip_email := skipEmail;
                          skip_ai := skipAI;
                          has_draft := truthy draftText |} |};
         slack := jor slackInfo VNull |}.

Definition processTicket (ticket : value) (opts : PipelineOptions) : M PipelineResult :=
  tryCatch
    (pipelineSteps ticket opts)
    (fun error =>
       let! _ :=
         tryCatch
           (let! customer := lift (normalizeCustomer ticket) in
            let! _ := notifySlackChannel ticket customer VNull (Some error) in
            ret tt)
           (fun _ => ret tt) in
       throw error).

(** ** Manual processing endpoint (supports flags and draft) *)

Definition postProcessTicket (req : Request) : M HttpResponse :=
  tryCatch
    (let body := jor (body req) (VObj []) in
     let! skip_email := lift (get body "skip_email") in
     let skipEmail :=
       match skip_email with VBool true => true | _ => false end ||
       match headers req "x-skip-email" with
       | VStr s => String.eqb s "1"
       | _ => false
       end in
     let! skip_ai := lift (get body "skip_ai") in
     let skipAI :=
       match skip_ai with VBool true => true | _ => false end ||
       match headers req "x-skip-ai" with
       | VStr s => String.eqb s "1"
       | _ => false
       end in
     let! draft := lift (get body "draft") in
     let draftText := jor (getOpt draft "text") VNull in
     let! response :=
       processTicket body
         {| skipEmail := skipEmail; skipAI := skipAI; draftText := draftText |} in
     ret (Json200 response))
    (fun error => ret (Json500 false (errorText error))).

(** ** Webhook handlers *)

Definition handleHelpScoutTicket (webhookData : value) : M PipelineResult :=
  let! ticket := lift (
    let? id := get webhookData "id" in
    let? subject := get webhookData "subject" in
    let? customer := get webhookData "customer" in
    let? threads := get webhookData "threads" in
    Return (VObj [("id", id);
                  ("subject", subject);
                  ("customer", VObj [("email", getOpt customer "email");
                                     ("name", getOpt customer "name")]);
                  ("messages", jor threads (VArr []));
                  ("source", VStr "helpscout")])) in
  processTicket ticket defaultOptions.

(** HelpScout webhook endpoint *)
Definition postWebhookHelpScout (req : Request) : M SendResponse :=
  tryCatch
    (let! _ := handleHelpScoutTicket (body req) in
     ret (Send 200 "OK"))
    (fun error => ret (Send 500 "Error processing ticket")).

(** ** Utils *)

(** [fromBase64 data] is [Buffer.from(data, 'base64').toString()]. *)
Definition extractEmailBody (fromBase64 : value -> outcome string) (payload : value)
  : outcome string :=
  if truthy (getOpt payload "parts") then
    let? parts := iterate (getOpt payload "parts") in
    (fix scan (l : list value) : outcome string :=
       match l with
       | [] => Return "No content available"
       | part :: rest =>
           let? mimeType := get part "mimeType" in
           if isText mimeType "text/plain" &&
              truthy (getOpt (getOpt part "body") "data")
           then fromBase64 (getOpt (getOpt part "body") "data")
           else scan rest
       end) parts
  else if truthy (getOpt (getOpt payload "body") "data") then
    fromBase64 (getOpt (getOpt payload "body") "data")
  else Return "No content available".

End WithPlatform.

End Agent.

(* ================================================================== *)
(** * The revision [n8n customer support agent.js] *)
(* ================================================================== *)

Module N8n.
Import JS Effects Data.

Section WithPlatform.

Variable P : Platform.

Abbreviation toString := (JS.toString (Number_toString P)).
Abbreviation callToString := (JS.callToString (Number_toString P)).
Abbreviation template := (JS.template (Number_toString P)).
Abbreviation messageLines := (Data.messageLines (Number_toString P)).
Abbreviation messageBodies := (Data.messageBodies (Number_toString P)).
Abbreviation customerQuery := (Data.customerQuery (Number_toString P)).

Definition fallbackSkipAI : string :=
  "Thanks for reaching out! Our team has received your request and will follow up shortly with details.".

Definition fallbackAI : string :=
  "Thank you for contacting our support team. We've received your inquiry and will respond shortly with a personalized solution.".

(** [content] of [storeTicketInDoc] *)
Definition content (ticket : value) (timestamp : string) : outcome string :=
  template
    [Lit (nl ++ "---" ++ nl ++ "Ticket ID: "); Sub (get ticket "id");
     Lit (nl ++ "Date: "); Sub (Return (VStr timestamp));
     Lit (nl ++ "Source: "); Sub (get ticket "source");
     Lit (nl ++ "Customer: ");
     Sub (let? customer := get ticket "customer" in Return (getOpt customer "name"));
     Lit " (";
     Sub (let? customer := get ticket "customer" in Return (getOpt customer "email"));
     Lit (")" ++ nl ++ "Subject: "); Sub (get ticket "subject");
     Lit (nl ++ nl ++ "Messages:" ++ nl);
     Sub (messageLines ticket);
     Lit (nl ++ "---" ++ nl ++ nl)].

Definition storeTicketInDoc (ticket : value) : M unit :=
  let docId := env P "GOOGLE_DOC_ID" in
  if negb (truthy docId) then ret tt
  else
    let! timestamp := now P in
    let! content := lift (content ticket timestamp) in
    tryCatch
      (let! _ := call P (DocAppend docId content) in ret tt)
      (fun error => ret tt).

Definition getKnowledgeBaseContext (_ticket : value) : M value :=
  ret (VObj
    [("commonIssues", VArr
        [VStr "Account setup and onboarding";
         VStr "Feature usage and best practices";
         VStr "Integration troubleshooting";
         VStr "Billing and subscription questions"]);
     ("platformFeatures", VArr
        [VStr "User management";
         VStr "API documentation";
         VStr "Dashboard customization";
         VStr "Data export/import"])]).

(** [prompt] of [generateAIResponse] *)
Definition prompt (ticket : value) (context : value) : outcome string :=
  template
    [Lit (nl ++
          "You are a helpful customer support agent for our software platform. " ++ nl ++ nl ++
          "Customer Information:" ++ nl ++
          "- Name: ");
     Sub (let? customer := get ticket "customer" in Return (getOpt customer "name"));
     Lit (nl ++ "- Email: ");
     Sub (let? customer := get ticket "customer" in Return (getOpt customer "email"));
     Lit (nl ++ "- Subject: "); Sub (get ticket "subject");
     Lit (nl ++ nl ++ "Customer Message:" ++ nl);
     Sub (messageBodies ticket);
     Lit (nl ++ nl ++ "Knowledge Base Context:" ++ nl);
     Sub (Return (VStr (JSON_stringify P context)));
     Lit (nl ++ nl ++
          "Please generate a helpful, professional response that:" ++ nl ++
          "1. Addresses the customer's specific question or concern" ++ nl ++
          "2. Provides step-by-step guidance when appropriate" ++ nl ++
          "3. References relevant platform features or documentation" ++ nl ++
          "4. Maintains a friendly, professional tone" ++ nl ++
          "5. Offers additional help if needed" ++ nl ++ nl ++
          "Response:")].

Definition generateAIResponse (ticket : value) (context : value) : M value :=
  let! prompt := lift (prompt ticket context) in
  tryCatch
    (let! completion := call P (Completion prompt) in
     let! choices := lift (get completion "choices") in
     let response :=
       jor (getOpt (getOpt (getOpt0 choices) "message") "content") (VStr "") in
     ret (jor response (VStr fallbackAI)))
    (fun error => ret (VStr fallbackAI)).

(** [emailContent] of [sendGmailResponse] *)
Definition emailContent (ticket : value) (response : value) : outcome string :=
  template
    [Lit "To: ";
     Sub (let? customer := get ticket "customer" in Return (getOpt customer "email"));
     Lit (nl ++ "Subject: Re: "); Sub (get ticket "subject");
     Lit (nl ++ "Content-Type: text/plain; charset=utf-8" ++ nl ++ nl ++ "Hi ");
     Sub (let? customer := get ticket "customer" in
          Return (jor (getOpt customer "name") (VStr "")));
     Lit ("," ++ nl ++ nl); Sub (Return response);
     Lit (nl ++ nl ++
          "Best regards," ++ nl ++
          "Customer Support Team" ++ nl ++ nl ++
          "---" ++ nl ++
          "This is an automated response. If you need further assistance, please reply to this email.")].

Definition sendGmailResponse (ticket : value) (response : value) : M unit :=
  tryCatch
    (let! emailContent := lift (emailContent ticket response) in
     let encodedEmail :=
       replaceAll "/" "_" (replaceAll "+" "-" (base64 P emailContent)) in
     let! _ := call P (GmailSend encodedEmail) in
     ret tt)
    (fun error => ret tt).

(** [preview] of [notifySlackChannel]: the first 200 characters of the
    response, and an ellipsis when there are more. *)
Definition preview (response : value) : outcome string :=
  let? head := callSlice (jor response (VStr "")) 200 in
  let? text := toString head in
  Return (text ++ (if (200 <? jsLength (jor response (VStr "")))%nat then "..." else "")).

(** [base.includes('?')] *)
Fixpoint includesQuestionMark (base : string) : bool :=
  match base with
  | String c rest => Ascii.eqb c "?" || includesQuestionMark rest
  | EmptyString => false
  end.

(** [customerMessageRaw] of [notifySlackChannel]: the customer's original
    message. *)
Definition customerMessageRaw (ticket : value) : value :=
  jor (firstMessage ticket) (VStr "").

(** [replyUrl] of [notifySlackChannel]: the URL of the reply form. *)
Definition replyUrl (ticket : value) : outcome (option string) :=
  let replyFormBase := env P "N8N_REPLY_FORM_URL" in
  if truthy replyFormBase then
    let? ticketId := callToString (jor (getOpt ticket "id") (VStr "")) in
    let? customerMessage := callSlice (customerMessageRaw ticket) 1000 in
    (* [new URLSearchParams] converts the value of each key *)
    let? name := toString (jor (getOpt (getOpt ticket "customer") "name") (VStr "")) in
    let? email := toString (jor (getOpt (getOpt ticket "customer") "email") (VStr "")) in
    let? subject := toString (jor (getOpt ticket "subject") (VStr "")) in
    let? source := toString (jor (getOpt ticket "source") (VStr "")) in
    let? customerMessage := toString customerMessage in
    let params :=
      URLSearchParams P
        [("ticketId", ticketId);
         ("name", name);
         ("email", email);
         ("subject", subject);
         ("source", source);
         ("customerMessage", customerMessage)] in
    let? url := template [Sub (Return replyFormBase); Lit "?"; Sub (Return (VStr params))] in
    Return (Some url)
  else Return None.

(** [conversationUrl] of [notifySlackChannel]: the URL to see the whole
    conversation. *)
Definition conversationUrl (ticket : value) : outcome (option string) :=
  let conversationBase := env P "N8N_CONVERSATION_URL" in
  match conversationBase with
  | VStr base =>
      if truthy conversationBase && truthy (getOpt ticket "id") then
        let sep := if includesQuestionMark base then "&" else "?" in
        let? url :=
          template
            [Sub (Return conversationBase); Sub (Return (VStr sep)); Lit "ticketId=";
             Sub (let? id := toString (getOpt ticket "id") in
                  Return (VStr (encodeURIComponent P id)))] in
        Return (Some url)
      else Return None
  | _ => Return None
  end.

(** [message] of [notifySlackChannel]: the text and the blocks of the
    parent post. *)
Definition message (ticket : value) (response : value) (error : option exn)
    (customerMessageShort : value) (replyUrl conversationUrl : option string)
  : outcome (string * list block) :=
  match error with
  | Some err =>
      let? text :=
        template [Lit "🚨 Error processing ticket "; Sub (Return (getOpt ticket "id"))] in
      let? block :=
        template
          [Lit ("*Error Processing Ticket*" ++ nl ++ "*ID:* ");
           Sub (Return (getOpt ticket "id"));
           Lit (nl ++ "*Customer:* ");
           Sub (Return (getOpt (getOpt ticket "customer") "name"));
           Lit " ("; Sub (Return (getOpt (getOpt ticket "customer") "email"));
           Lit (")" ++ nl ++ "*Subject:* "); Sub (Return (getOpt ticket "subject"));
           Lit (nl ++ "*Error:* "); Sub (Return (VStr (errorText err)))] in
      Return (text, [SectionBlock block])
  | None =>
      let? previewText := preview response in
      let? block :=
        template
          [Lit ("*New Support Ticket*" ++ nl ++ "*Ticket ID:* ");
           Sub (Return (getOpt ticket "id"));
           Lit (nl ++ "*Customer:* ");
           Sub (Return (getOpt (getOpt ticket "customer") "name"));
           Lit " ("; Sub (Return (getOpt (getOpt ticket "customer") "email"));
           Lit (")" ++ nl ++ "*Subject:* "); Sub (Return (getOpt ticket "subject"));
           Lit (nl ++ "*Source:* "); Sub (Return (getOpt ticket "source"))] in
      let? shown :=
        template
          [Lit ("*Customer Message:*" ++ nl);
           Sub (Return (jor customerMessageShort (VStr "_No message body_")))] in
      let? previewBlock :=
        if truthy response then
          let? text :=
            template [Lit ("*Response Preview:*" ++ nl); Sub (Return (VStr previewText))] in
          Return [SectionBlock text]
        else Return [] in
      let blocks := ([SectionBlock block; SectionBlock shown] ++ previewBlock)%list in
      (* Buttons *)
      let actionElements :=
        ((match replyUrl with Some url => [("Reply", url)] | None => [] end) ++
         (match conversationUrl with
          | Some url => [("Full Conversation", url)]
          | None => []
          end))%list in
      let blocks :=
        (blocks ++
         (if (0 <? List.length actionElements)%nat
          then [ActionsBlock actionElements] else []))%list in
      let? text :=
        template
          [Lit "New support ticket";
           Sub (if truthy (getOpt ticket "id")
                then let? id := template [Lit " "; Sub (Return (getOpt ticket "id"))] in
                     Return (VStr id)
                else Return (VStr ""))] in
      Return (text, blocks)
  end.

(** [full] of [notifySlackChannel]: the text of the post in the thread. *)
Definition full (response : value) : outcome string :=
  template
    [Lit ("*Full AI Response:*" ++ nl ++ nl ++ "```" ++ nl);
     Sub (Return response);
     Lit (nl ++ "```")].

(** Slack notification (Reply + Full Conversation) *)
Definition notifySlackChannel (ticket : value) (response : value) (error : option exn)
  : M value :=
  let channelId := env P "SLACK_SUPPORT_CHANNEL_ID" in
  let! customerMessageShort := lift (callSlice (customerMessageRaw ticket) 500) in
  let! replyUrl := lift (replyUrl ticket) in
  let! conversationUrl := lift (conversationUrl ticket) in
  tryCatch
    (let! message := lift (
       message ticket response error customerMessageShort replyUrl conversationUrl) in
     (* Post parent message *)
     let! post := call P (SlackPost channelId None (fst message) (snd message)) in
     let! threadTs := lift (
       get post "ts" |||
       (let? m := get post "message" in Return (getOpt m "ts"))) in
     (* If we have a full response, post it in the thread as well *)
     let! _ :=
       match error with
       | Some _ => ret tt
       | None =>
           if truthy response then
             let! full := lift (full response) in
             let! _ := call P (SlackPost channelId (Some threadTs) full []) in
             ret tt
           else ret tt
       end in
     ret (VObj [("channel", channelId); ("ts", threadTs)]))
    (fun err => ret VNull).

Definition updateKnowledgeBase (ticket : value) (response : value) : M unit :=
  let! timestamp := now P in
  let! customerQuery := lift (customerQuery ticket) in
  ret tt.

(** Step 3 of [processTicket]: generate response (use draft if provided;
    if skipAI and no draft, use fallback). *)
Definition resolveResponse (ticket : value) (context : value) (opts : PipelineOptions)
  : M value :=
  if negb (truthy (draftText opts)) then
    if negb (skipAI opts) then generateAIResponse ticket context
    else ret (VStr fallbackSkipAI)
  else ret (draftText opts).

(** The [try] block of [processTicket]. *)
Definition pipelineSteps (ticket : value) (opts : PipelineOptions) : M PipelineResult :=
  let skipEmail := skipEmail opts in
  let skipAI := skipAI opts in
  let draftText := draftText opts in
  (* the text of the opening [console.log] *)
  let! _ := lift (template
    [Lit "Processing ticket "; Sub (Return (getOpt ticket "id"));
     Lit " from "; Sub (Return (getOpt ticket "source"))]) in
  (* 1) Store ticket in Google Doc *)
  let! _ := storeTicketInDoc ticket in
  (* 2) Knowledge base context placeholder *)
  let! context := getKnowledgeBaseContext ticket in
  (* 3) Generate response *)
  let! aiResponse := resolveResponse ticket context opts in
  (* 4) Send email only if not skipped *)
  let! _ :=
    if negb skipEmail then sendGmailResponse ticket aiResponse
    else ret tt in
  (* 5) Always notify Slack (with preview + full response in thread) *)
  let! slackInfo := notifySlackChannel ticket aiResponse None in
  (* 6) Update KB/logging placeholder *)
  let! _ := updateKnowledgeBase ticket aiResponse in
  let! message_preview := lift (
    let? text := toString (firstMessage ticket) in
    Return (take 180 text)) in
  let! response_preview := lift (callSlice (jor aiResponse (VStr "")) 180) in
  ret {| ok := true;
         ticketId := jor (getOpt ticket "id") VNull;
         used_ai := negb skipAI && negb (truthy draftText);
         emailed := negb skipEmail;
         summary :=
           {| source := jor (getOpt ticket "source") VNull;
              subject := jor (getOpt ticket "subject") VNull;
              customer :=
                {| name := jor (getOpt (getOpt ticket "customer") "name") VNull;
                   email := jor (getOpt (getOpt ticket "customer") "email") VNull |};
              message_preview := message_preview;
              response_preview := response_preview;
              flags := {| skip_email := skipEmail;
                          skip_ai := skipAI;
                          has_draft := truthy draftText |} |};
         slack := jor slackInfo VNull |}.

Definition processTicket (ticket : value) (opts : PipelineOptions) : M PipelineResult :=
  tryCatch
    (pipelineSteps ticket opts)
    (fun error =>
       let! _ :=
         tryCatch
           (let! _ := notifySlackChannel ticket VNull (Some error) in ret tt)
           (fun _ => ret tt) in
       throw error).

End WithPlatform.

End N8n.

(* ================================================================== *)
(** * [server.js]: the chat test routes *)
(* ================================================================== *)

(** The stand-alone server posts to the chat over HTTP.  A request is
    recorded with what [fetch] is given; the answer of the runtime to it is
    the body [resp.json()] resolves to, or the rejection of either
    [await]. *)
Module Server.
Import JS.

Record Fetch : Type := {
  url : string;
  method : string;
  authorization : string;
  contentType : string;
  payload : string
}.

Record Runtime : Type := {
  process_env : string -> option string;
  JSON_stringify : value -> string;
  Number_toString : Z -> string;
  toISOString : list Fetch -> string;
  fetchJson : list Fetch -> Fetch -> outcome value
}.

Definition S (A : Type) : Type := list Fetch -> outcome A * list Fetch.

Definition ret {A : Type} (a : A) : S A := fun log => (Return a, log).

Definition throw {A : Type} (e : exn) : S A := fun log => (Throw e, log).

Definition bind {A B : Type} (m : S A) (k : A -> S B) : S B :=
  fun log =>
    match m log with
    | (Return a, log') => k a log'
    | (Throw e, log') => (Throw e, log')
    end.

Definition tryCatch {A : Type} (m : S A) (h : exn -> S A) : S A :=
  fun log =>
    match m log with
    | (Return a, log') => (Return a, log')
    | (Throw e, log') => h e log'
    end.

Definition lift {A : Type} (r : outcome A) : S A := fun log => (r, log).

Notation "'let!' x ':=' m 'in' k" := (bind m (fun x => k))
  (at level 10, x name, m at level 100, k at level 200).

(** [e.message] *)
Definition message (e : exn) : string :=
  match e with
  | TypeError msg => msg
  | ApiError msg => msg
  end.

(** What a route answers: [res.json(body)] with status 200, or
    [res.status(500).json(body)]. *)
Inductive JsonResponse : Type :=
| Json (status : nat) (body : value).

Section WithRuntime.

Variable R : Runtime.

Abbreviation template := (JS.template (Number_toString R)).

Definition env (key : string) : value :=
  match process_env R key with
  | Some s => VStr s
  | None => VUndefined
  end.

(** Posts a message to the chat.  [new Error(msg)] is [ApiError msg]. *)
Definition postToSlack (text : value) (channel : value) : S value :=
  let channel :=
    match channel with
    | VUndefined => env "SLACK_SUPPORT_CHANNEL_ID"
    | _ => channel
    end in
  let token := env "SLACK_BOT_TOKEN" in
  if negb (truthy token) || negb (truthy channel) then
    throw (ApiError "Missing SLACK_BOT_TOKEN or SLACK_SUPPORT_CHANNEL_ID")
  else
    let! authorization := lift (template [Lit "Bearer "; Sub (Return token)]) in
    let request :=
      {| url := "https://slack.com/api/chat.postMessage";
         method := "POST";
         authorization := authorization;
         contentType := "application/json; charset=utf-8";
         payload := JSON_stringify R (VObj [("channel", channel); ("text", text)]) |} in
    let! data := (fun log => (fetchJson R log request, (log ++ [request])%list)) in
    let! ok := lift (get data "ok") in
    if negb (truthy ok) then
      throw (ApiError ("Slack error: " ++ JSON_stringify R data))
    else ret data.

(** Quick test: sends a message to the support channel. *)
Definition postTestSlack (body : value) : S JsonResponse :=
  tryCatch
    (let! text := (fun log =>
        (Return (getOpt body "text") |||
           (let? alive :=
              template [Lit "Server alive ✅ "; Sub (Return (VStr (toISOString R log)))] in
            Return (VStr alive)),
         log)) in
     let! r := postToSlack text VUndefined in
     let! channel := lift (get r "channel") in
     let! ts := lift (
       get r "ts" ||| (let? m := get r "message" in Return (getOpt m "ts"))) in
     ret (Json 200 (VObj [("ok", VBool true); ("channel", channel); ("ts", ts)])))
    (fun e => ret (Json 500 (VObj [("ok", VBool false); ("error", VStr (message e))]))).

(** [const { key = fallback } = source]: the default replaces [undefined]
    only. *)
Definition withDefault (source : value) (key : string) (fallback : string) : value :=
  match getOpt source key with
  | VUndefined => VStr fallback
  | v => v
  end.

Definition postCmoCreate (body : value) : S JsonResponse :=
  tryCatch
    (let source := jor body (VObj []) in
     let taskType := withDefault source "taskType" "post" in
     let content := withDefault source "content" "(sin contenido)" in
     let! text := lift (template
       [Lit "New *"; Sub (Return taskType);
        Lit ("* received:" ++ String "010"%char ""); Sub (Return content)]) in
     let! _ := postToSlack (VStr text) VUndefined in
     ret (Json 200 (VObj [("ok", VBool true); ("received", body)])))
    (fun e => ret (Json 500 (VObj [("ok", VBool false); ("error", VStr (message e))]))).

End WithRuntime.

End Server.

(* ================================================================== *)
(** * A platform for closed examples *)
(* ================================================================== *)

Module Demo.
Import JS Effects Data.

(** The completion API answers [content]; the chat API answers a post
    stamped ["1700000000.000100"]; the other providers resolve to
    [undefined].  When [up] is false every provider rejects. *)
Definition respondWith (up : bool) (content : value) (_ : trace) (c : event)
  : outcome value :=
  if up then
    match c with
    | Completion _ =>
        Return (VObj [("choices", VArr [VObj [("message", VObj [("content", content)])]])])
    | SlackPost _ _ _ _ => Return (VObj [("ts", VStr "1700000000.000100")])
    | _ => Return VUndefined
    end
  else Throw (ApiError "service unavailable").

Definition getenv (k : string) : option string :=
  if String.eqb k "GOOGLE_DOC_ID" then Some "doc-1"
  else if String.eqb k "SLACK_SUPPORT_CHANNEL_ID" then Some "C1234567890"
  else None.

(** Integers in decimal digits, as JavaScript prints the ones below
    [1e21] in absolute value; the closed examples only print such. *)
Definition string_of_Z (z : Z) : string :=
  NilZero.string_of_int (Z.to_int z).

(** The encoders and [JSON.stringify] are stand-ins: no statement below
    depends on what they compute. *)
Definition platform (up : bool) (content : value) : Platform :=
  {| JSON_parse := Json.parse;
     JSON_stringify := fun _ => "{}";
     Number_toString := string_of_Z;
     base64 := fun s => s;
     toISOString := fun _ => "2024-01-01T00:00:00.000Z";
     process_env := getenv;
     URLSearchParams := fun params => join "&" (map snd params);
     encodeURIComponent := fun s => s;
     respond := respondWith up content |}.

(** The same platform without a document to append to. *)
Definition platformWithoutDoc (up : bool) (content : value) : Platform :=
  {| JSON_parse := Json.parse;
     JSON_stringify := fun _ => "{}";
     Number_toString := string_of_Z;
     base64 := fun s => s;
     toISOString := fun _ => "2024-01-01T00:00:00.000Z";
     process_env := fun k =>
       if String.eqb k "SLACK_SUPPORT_CHANNEL_ID" then Some "C1234567890" else None;
     URLSearchParams := fun params => join "&" (map snd params);
     encodeURIComponent := fun s => s;
     respond := respondWith up content |}.

Definition noHeaders (_ : string) : value := VUndefined.

End Demo.


(* ================================================================== *)
(** * The vocabulary of the specification *)
(* ================================================================== *)

Module Spec.
Import JS Effects Data.

(** The aliases of the customer name, in the order of precedence the
    specification gives: nested lowercase field, nested alternate-cased
    field, then the top-level snake_case, PascalCase, capitalized and
    lowercase fields.  [c] is the nested customer object. *)
Definition nameAliases (c ticket : value) : list value :=
  [getOpt c "name"; getOpt c "Name";
   getOpt ticket "customer_name"; getOpt ticket "CustomerName";
   getOpt ticket "Name"; getOpt ticket "name"].

Definition emailAliases (c ticket : value) : list value :=
  [getOpt c "email"; getOpt c "Email";
   getOpt ticket "customer_email"; getOpt ticket "CustomerEmail";
   getOpt ticket "Email"; getOpt ticket "email"].


(** The alias that wins: the first one that is present with a truthy
    value, and [''] when there is none. *)
Fixpoint firstPresent (aliases : list value) : value :=
  match aliases with
  | [] => VStr ""
  | a :: rest => if truthy a then a else firstPresent rest
  end.

(** [typeof v === 'object'] and [v] is not [null]. *)
Definition isObject (v : value) : bool :=
  match v with
  | VObj _ | VArr _ => true
  | _ => false
  end.

Definition isString (v : value) : bool :=
  match v with
  | VStr _ => true
  | _ => false
  end.

(** The [emailed] entry of the result, as [processTicket] computes it from
    the resolved response. *)
Definition emailedOf (skipEmail : bool) (aiResponse : value) : outcome bool :=
  if negb skipEmail then
    if truthy aiResponse then
      let? trimmed := callTrim aiResponse in Return (truthy (VStr trimmed))
    else Return false
  else Return false.

(** What the manual route passes to [processTicket]. *)
Definition routeBody (req : Request) : value := jor (body req) (VObj []).

Definition flagSet (field header : value) : bool :=
  match field with VBool true => true | _ => false end ||
  match header with VStr s => String.eqb s "1" | _ => false end.

Definition routeOptions (req : Request) : PipelineOptions :=
  {| skipEmail := flagSet (getOpt (routeBody req) "skip_email") (headers req "x-skip-email");
     skipAI := flagSet (getOpt (routeBody req) "skip_ai") (headers req "x-skip-ai");
     draftText := jor (getOpt (getOpt (routeBody req) "draft") "text") VNull |}.

(** The response preview of a chat notification, for a response text:
    its first 200 characters, and an ellipsis when it has more. *)
Definition chatPreviewOf (s : string) : string :=
  take 200 s ++ (if (200 <? String.length s)%nat then "..." else "").

(** The customer message a chat notification shows: the excerpt, or a
    placeholder when the excerpt is empty. *)
Definition excerptShown (excerpt : string) : string :=
  if String.eqb excerpt "" then "_No message body_" else excerpt.

(** Two tickets that differ at most in their [draft] field. *)
Definition sameButDraft (fields1 fields2 : list (string * value)) : Prop :=
  forall k, k <> "draft" -> lookup k fields1 = lookup k fields2.

(** A text of [n] copies of one character. *)
Fixpoint padding (n : nat) (c : ascii) : string :=
  match n with
  | O => EmptyString
  | S n' => String c (padding n' c)
  end.

(** The ticket of the end-to-end scenarios. *)
Definition scenarioTicket : value :=
  VObj [("id", VStr "T1");
        ("subject", VStr "Help");
        ("customer", VObj [("name", VStr "Ana"); ("email", VStr "a@x.com")]);
        ("messages", VArr [VObj [("body", VStr "Can't log in")]])].

End Spec.

(* ================================================================== *)
(** * Vocabulary for the behaviour of the steps *)
(* ================================================================== *)

Module Props.
Import JS Effects Data.

Definition isDocAppend (e : event) : bool :=
  match e with
  | DocAppend _ _ => true
  | _ => false
  end.

(** The place of a provider in the pipeline: document store, completion
    API, mail API, chat API. *)
Definition stage (e : event) : nat :=
  match e with
  | DocAppend _ _ => 0
  | Completion _ => 1
  | GmailSend _ => 2
  | SlackPost _ _ _ _ => 3
  end.

(** No call is followed by a call of an earlier stage. *)
Fixpoint ordered (l : list event) : bool :=
  match l with
  | [] => true
  | e :: rest => forallb (fun e' => (stage e <=? stage e')%nat) rest && ordered rest
  end.

(** No call, or one call of the kind [p]. *)
Definition one (p : event -> bool) (l : list event) : Prop :=
  l = [] \/ exists e, l = [e] /\ p e = true.

(** The calls a computation adds to the trace satisfy [Q]. *)
Definition Emits {A : Type} (m : M A) (Q : list event -> Prop) : Prop :=
  forall tr, exists new, snd (m tr) = (tr ++ new)%list /\ Q new.

(** A draft text as the pipeline options document it: absent or a text. *)
Definition textOrNone (v : value) : bool :=
  match v with
  | VStr _ => true
  | _ => negb (truthy v)
  end.

(** A response the mail and the chat thread accept: a text with a
    character that is not white space. *)
Definition nonBlankText (v : value) : bool :=
  match v with
  | VStr s => negb (allSpace s)
  | _ => false
  end.

(** A value that has a text: the conversion to string meets no object
    with a key ["toString"] of its own. *)
Fixpoint printable (v : value) : bool :=
  match v with
  | VArr items => forallb printable items
  | VObj fields => negb (hasOwn "toString" fields)
  | _ => true
  end.

(** Whether an expression returns. *)
Definition returns {A : Type} (m : outcome A) : bool :=
  match m with
  | Return _ => true
  | Throw _ => false
  end.

(** A piece of a template literal that can be built: a literal part, or
    a substitution that is evaluated to a value with a text. *)
Definition pieceBuilds (p : piece) : bool :=
  match p with
  | Lit _ => true
  | Sub (Return v) => printable v
  | Sub (Throw _) => false
  end.

(** What a message contributes to the texts of the pipeline:
    [msg.body || msg.text]. *)
Definition messageText (msg : value) : value :=
  jor (getOpt msg "body") (getOpt msg "text").

(** Messages the steps can list: no messages, or an array whose entries
    are not [null] and carry a body (or text) that has a text. *)
Definition printableMessages (v : value) : bool :=
  match v with
  | VArr items => forallb (fun msg => negb (nullish msg) && printable (messageText msg)) items
  | _ => negb (truthy v)
  end.

(** A ticket every text of the pipeline can be built from. *)
Definition printableTicket (ticket : value) : bool :=
  printable (getOpt ticket "id") &&
  printable (getOpt ticket "source") &&
  printable (getOpt ticket "subject") &&
  printableMessages (getOpt ticket "messages").

Definition printableCustomer (c : Customer) : bool :=
  printable (name c) && printable (email c).

(** The name and the email address of the nested customer of a ticket
    have a text. *)
Definition printableNested (ticket : value) : bool :=
  printable (getOpt (getOpt ticket "customer") "name") &&
  printable (getOpt (getOpt ticket "customer") "email").


(** A part of a mail payload that [extractEmailBody] accepts. *)
Definition plainPart (part : value) : bool :=
  isText (getOpt part "mimeType") "text/plain" &&
  truthy (getOpt (getOpt part "body") "data").

(** The ticket a HelpScout webhook payload is turned into. *)
Definition helpScoutTicket (webhookData : value) : value :=
  VObj [("id", getOpt webhookData "id");
        ("subject", getOpt webhookData "subject");
        ("customer",
         VObj [("email", getOpt (getOpt webhookData "customer") "email");
               ("name", getOpt (getOpt webhookData "customer") "name")]);
        ("messages", jor (getOpt webhookData "threads") (VArr []));
        ("source", VStr "helpscout")].

(** A value with a [slice] method: a text or an array. *)
Definition sliceable (v : value) : bool :=
  match v with
  | VStr _ | VArr _ => true
  | _ => false
  end.

(** No leading and no trailing white space. *)
Definition headNotSpace (s : string) : bool :=
  match s with
  | String c _ => negb (is_space c)
  | EmptyString => true
  end.

Fixpoint lastNotSpace (s : string) : bool :=
  match s with
  | EmptyString => true
  | String c EmptyString => negb (is_space c)
  | String _ rest => lastNotSpace rest
  end.

End Props.

(** A runtime for closed examples of [server.js]. *)
Module DemoServer.
Import JS.

Definition getenv (withToken : bool) (k : string) : option string :=
  if String.eqb k "SLACK_BOT_TOKEN" then (if withToken then Some "xoxb-test" else None)
  else if String.eqb k "SLACK_SUPPORT_CHANNEL_ID" then Some "C1234567890"
  else None.

(** The chat answers [answer] to every request. *)
Definition runtime (withToken : bool) (answer : outcome value) : Server.Runtime :=
  {| Server.process_env := getenv withToken;
     Server.JSON_stringify := fun _ => "{}";
     Server.Number_toString := Demo.string_of_Z;
     Server.toISOString := fun _ => "2024-01-01T00:00:00.000Z";
     Server.fetchJson := fun _ _ => answer |}.

End DemoServer.

(** Vocabulary for the behaviour of [server.js]. *)
Module ServerProps.
Import JS.

(** The text of a variable of the environment: its value, or
    ["undefined"] when it is not set. *)
Definition envText (R : Server.Runtime) (key : string) : string :=
  match Server.process_env R key with
  | Some s => s
  | None => "undefined"
  end.

(** The request [postToSlack] makes. *)
Definition requestOf (R : Server.Runtime) (text channel : value) : Server.Fetch :=
  {| Server.url := "https://slack.com/api/chat.postMessage";
     Server.method := "POST";
     Server.authorization := ("Bearer " ++ envText R "SLACK_BOT_TOKEN")%string;
     Server.contentType := "application/json; charset=utf-8";
     Server.payload :=
       Server.JSON_stringify R (VObj [("channel", channel); ("text", text)]) |}.

(** The channel [postToSlack] posts to: the one given, or the support
    channel of the environment. *)
Definition channelOf (R : Server.Runtime) (channel : value) : value :=
  match channel with
  | VUndefined => Server.env R "SLACK_SUPPORT_CHANNEL_ID"
  | _ => channel
  end.

Definition missing : exn :=
  ApiError "Missing SLACK_BOT_TOKEN or SLACK_SUPPORT_CHANNEL_ID".

End ServerProps.

(* ================================================================== *)
(** * Facts about the value model *)
(* ================================================================== *)

Module JSFacts.
Import JS Effects Data Props.

Lemma lookup_setField_same (k : string) (v : value) (fields : list (string * value)) :
  lookup k (setField k v fields) = v.
Proof.
  induction fields as [|[k' v'] rest IH]; simpl.
  - now rewrite String.eqb_refl.
  - destruct (String.eqb k k') eqn:E; simpl.
    + now rewrite String.eqb_refl.
    + now rewrite E.
Qed.

Lemma lookup_setField_other (k k0 : string) (v : value) (fields : list (string * value)) :
  k0 <> k -> lookup k0 (setField k v fields) = lookup k0 fields.
Proof.
  intros Hne.
  induction fields as [|[k' v'] rest IH]; simpl.
  - apply String.eqb_neq in Hne. now rewrite Hne.
  - destruct (String.eqb k k') eqn:E; simpl.
    + apply String.eqb_eq in E. subst k'.
      apply String.eqb_neq in Hne. now rewrite Hne.
    + now rewrite IH.
Qed.

Lemma lookup_removeField_same (k : string) (fields : list (string * value)) :
  lookup k (removeField k fields) = VUndefined.
Proof.
  induction fields as [|[k' v'] rest IH]; simpl; [reflexivity|].
  destruct (String.eqb k k') eqn:E; simpl; [assumption|].
  now rewrite E.
Qed.

Lemma lookup_removeField_other (k k0 : string) (fields : list (string * value)) :
  k0 <> k -> lookup k0 (removeField k fields) = lookup k0 fields.
Proof.
  intros Hne.
  induction fields as [|[k' v'] rest IH]; simpl; [reflexivity|].
  destruct (String.eqb k k') eqn:E; simpl.
  - apply String.eqb_eq in E. subst k'.
    apply String.eqb_neq in Hne. now rewrite Hne.
  - now rewrite IH.
Qed.

Lemma truthy_VStr (s : string) : truthy (VStr s) = false <-> s = "".
Proof.
  simpl. destruct (String.eqb s "") eqn:E.
  - apply String.eqb_eq in E. now split.
  - apply String.eqb_neq in E. split; [discriminate|contradiction].
Qed.

Lemma jor_falsy (a b : value) : truthy a = false -> jor a b = b.
Proof. intros H. unfold jor. now rewrite H. Qed.

Lemma jor_truthy (a b : value) : truthy a = true -> jor a b = a.
Proof. intros H. unfold jor. now rewrite H. Qed.


Lemma orElse_Return_truthy (v : value) (b : outcome value) :
  truthy v = true -> Return v ||| b = Return v.
Proof. intros H. unfold orElse. simpl. now rewrite H. Qed.

Lemma orElse_Return_falsy (v : value) (b : outcome value) :
  truthy v = false -> Return v ||| b = b.
Proof. intros H. unfold orElse. simpl. now rewrite H. Qed.

Lemma get_not_nullish (v : value) (k : string) :
  nullish v = false -> get v k = Return (getOpt v k).
Proof. destruct v; simpl; intros H; try discriminate; reflexivity. Qed.

Lemma truthy_not_nullish (v : value) : truthy v = true -> nullish v = false.
Proof. destruct v; simpl; intros H; try discriminate; reflexivity. Qed.

Lemma length_take (n : nat) (s : string) : String.length (take n s) <= n.
Proof.
  revert s. induction n as [|n IH]; intros s; simpl; [lia|].
  destruct s as [|c rest]; simpl; [lia|].
  specialize (IH rest). lia.
Qed.

Lemma take_all (n : nat) (s : string) : String.length s <= n -> take n s = s.
Proof.
  revert s. induction n as [|n IH]; intros s H.
  - destruct s; simpl in *; [reflexivity|lia].
  - destruct s as [|c rest]; simpl in *; [reflexivity|].
    f_equal. apply IH. lia.
Qed.

Lemma length_take_exact (n : nat) (s : string) :
  n <= String.length s -> String.length (take n s) = n.
Proof.
  revert s. induction n as [|n IH]; intros s H; simpl; [reflexivity|].
  destruct s as [|c rest]; simpl in *; [lia|].
  f_equal. apply IH. lia.
Qed.

Lemma length_append (s1 s2 : string) :
  String.length (s1 ++ s2) = String.length s1 + String.length s2.
Proof. induction s1 as [|c s1 IH]; simpl; [reflexivity|]. now rewrite IH. Qed.

Lemma trimStart_allSpace (s : string) : allSpace s = true -> trimStart s = "".
Proof.
  induction s as [|c rest IH]; simpl; [reflexivity|].
  intros H. apply andb_prop in H as [Hc Hrest].
  rewrite Hc. auto.
Qed.

Lemma trim_allSpace (s : string) : allSpace s = true -> trim s = "".
Proof. intros H. unfold trim. now rewrite (trimStart_allSpace s H). Qed.

Lemma trimStart_nonempty (s : string) :
  allSpace s = false -> trimStart s <> "".
Proof.
  induction s as [|c rest IH]; simpl; [discriminate|].
  destruct (is_space c); simpl; [exact IH|discriminate].
Qed.

Lemma allSpace_rev_string (s acc : string) :
  allSpace (rev_string s acc) = allSpace s && allSpace acc.
Proof.
  revert acc. induction s as [|c rest IH]; intros acc; simpl; [reflexivity|].
  rewrite IH. simpl. destruct (is_space c), (allSpace rest), (allSpace acc); reflexivity.
Qed.

Lemma allSpace_trimStart (s : string) : allSpace (trimStart s) = allSpace s.
Proof.
  induction s as [|c rest IH]; simpl; [reflexivity|].
  destruct (is_space c) eqn:E; simpl; [assumption|]. now rewrite E.
Qed.

Lemma allSpace_trim (s : string) : allSpace (trim s) = allSpace s.
Proof.
  unfold trim.
  rewrite allSpace_rev_string, allSpace_trimStart, allSpace_rev_string, allSpace_trimStart.
  simpl. now rewrite !andb_true_r.
Qed.

(** [s.trim()] is empty exactly when [s] consists only of white space. *)
Lemma trim_empty_iff (s : string) : trim s = "" <-> allSpace s = true.
Proof.
  split; [|apply trim_allSpace].
  intros H. rewrite <- allSpace_trim, H. reflexivity.
Qed.

(** ** Conversion to string *)

Lemma Return_inj {A : Type} (a b : A) : Return a = Return b -> a = b.
Proof. now intros [= ->]. Qed.

Lemma append_empty_r (s : string) : s ++ "" = s.
Proof. induction s as [|c rest IH]; simpl; [reflexivity|]. now rewrite IH. Qed.

Section ConversionFacts.

Variable num : Z -> string.

(** The conversion returns exactly on the values that are [printable]. *)
Lemma toString_spec (v : value) :
  match toString num v with
  | Return _ => printable v = true
  | Throw _ => printable v = false
  end.
Proof.
  revert v. fix IH 1.
  intros [| |[|]|z|s|items|fields]; cbn [toString printable]; try reflexivity.
  - induction items as [|x rest IHrest]; [reflexivity|].
    cbn [forallb]. specialize (IH x).
    assert (Hhead : match (if nullish x then Return "" else toString num x) with
                    | Return _ => printable x = true
                    | Throw _ => printable x = false
                    end).
    { destruct (nullish x) eqn:Hx; [|exact IH].
      destruct x; try discriminate; reflexivity. }
    destruct (if nullish x then Return "" else toString num x) as [sx|e];
      rewrite Hhead; cbn [obind andb]; [|reflexivity].
    match type of IHrest with
    | match obind ?m _ with _ => _ end => destruct m as [ss|e]
    end; cbn [obind] in *; exact IHrest.
  - destruct (hasOwn "toString" fields); reflexivity.
Qed.

(** The only error of a conversion. *)
Lemma toString_error (v : value) (e : exn) :
  toString num v = Throw e -> e = TypeError "Cannot convert object to primitive value".
Proof.
  revert v e. fix IH 1.
  intros [| |[|]|z|s|items|fields] e; cbn [toString]; try discriminate.
  - induction items as [|x rest IHrest]; [discriminate|].
    specialize (IH x).
    destruct (nullish x) eqn:Hx.
    + match type of IHrest with
      | obind ?m _ = _ -> _ => destruct m as [ss|e1]
      end; cbn [obind] in *; [discriminate|exact IHrest].
    + destruct (toString num x) as [sx|e0]; cbn [obind].
      * match type of IHrest with
        | obind ?m _ = _ -> _ => destruct m as [ss|e1]
        end; cbn [obind] in *; [discriminate|exact IHrest].
      * intros [= <-]. now apply IH.
  - destruct (hasOwn "toString" fields); [now intros [= <-]|discriminate].
Qed.

Lemma toString_printable (v : value) :
  printable v = true -> exists s, toString num v = Return s.
Proof.
  intros H. pose proof (toString_spec v) as Hs.
  destruct (toString num v) as [s|e]; [now exists s|congruence].
Qed.

Lemma toString_unprintable (v : value) :
  printable v = false -> exists e, toString num v = Throw e.
Proof.
  intros H. pose proof (toString_spec v) as Hs.
  destruct (toString num v) as [s|e]; [congruence|now exists e].
Qed.

Lemma toString_Return_printable (v : value) (s : string) :
  toString num v = Return s -> printable v = true.
Proof. intros H. pose proof (toString_spec v) as Hs. now rewrite H in Hs. Qed.

Lemma toString_Throw_unprintable (v : value) (e : exn) :
  toString num v = Throw e -> printable v = false.
Proof. intros H. pose proof (toString_spec v) as Hs. now rewrite H in Hs. Qed.

(** A value that has no text is an array or an object: it is truthy. *)
Lemma unprintable_truthy (v : value) : printable v = false -> truthy v = true.
Proof. destruct v; simpl; intros H; try discriminate; reflexivity. Qed.

Lemma printable_falsy (v : value) : truthy v = false -> printable v = true.
Proof. destruct v; simpl; intros H; try discriminate; reflexivity. Qed.

Lemma printable_jor (a b : value) :
  printable b = true -> printable (jor a b) = printable a.
Proof.
  intros Hb. unfold jor. destruct (truthy a) eqn:E; [reflexivity|].
  now rewrite Hb, (printable_falsy a E).
Qed.

Lemma toString_VStr (s : string) : toString num (VStr s) = Return s.
Proof. reflexivity. Qed.

Lemma toString_VArr (items : list value) :
  toString num (VArr items) = joinValues num "," items.
Proof.
  unfold joinValues. cbn [toString]. f_equal.
  induction items as [|x rest IH]; [reflexivity|].
  cbn [traverse]. now rewrite IH.
Qed.

(** [items.join(sep)] returns exactly when every entry has a text. *)
Lemma joinValues_spec (sep : string) (items : list value) :
  match joinValues num sep items with
  | Return _ => forallb printable items = true
  | Throw _ => forallb printable items = false
  end.
Proof.
  unfold joinValues.
  induction items as [|x rest IH]; [reflexivity|].
  cbn [traverse forallb].
  assert (Hhead : match (if nullish x then Return "" else toString num x) with
                  | Return _ => printable x = true
                  | Throw _ => printable x = false
                  end).
  { destruct (nullish x) eqn:Hx; [|apply toString_spec].
    destruct x; try discriminate; reflexivity. }
  destruct (if nullish x then Return "" else toString num x) as [sx|e];
    rewrite Hhead; cbn [obind andb]; [|reflexivity].
  destruct (traverse _ rest) as [ss|e]; cbn [obind] in *; exact IH.
Qed.

Lemma joinValues_returns (sep : string) (items : list value) :
  forallb printable items = true -> exists s, joinValues num sep items = Return s.
Proof.
  intros H. pose proof (joinValues_spec sep items) as Hs.
  destruct (joinValues num sep items) as [s|e]; [now exists s|congruence].
Qed.


(** A template literal is built exactly when each of its pieces is. *)
Lemma template_spec (pieces : list piece) :
  match template num pieces with
  | Return _ => forallb pieceBuilds pieces = true
  | Throw _ => forallb pieceBuilds pieces = false
  end.
Proof.
  induction pieces as [|[s|[v|e]] rest IH]; cbn [template forallb pieceBuilds obind andb].
  - reflexivity.
  - destruct (template num rest); exact IH.
  - pose proof (toString_spec v) as Hv.
    destruct (toString num v) as [sv|e]; rewrite Hv; cbn [obind andb]; [|reflexivity].
    destruct (template num rest); exact IH.
  - reflexivity.
Qed.

Lemma template_returns (pieces : list piece) :
  forallb pieceBuilds pieces = true -> exists s, template num pieces = Return s.
Proof.
  intros H. pose proof (template_spec pieces) as Hs.
  destruct (template num pieces) as [s|e]; [now exists s|congruence].
Qed.

Lemma template_raises (pieces : list piece) :
  forallb pieceBuilds pieces = false -> exists e, template num pieces = Throw e.
Proof.
  intros H. pose proof (template_spec pieces) as Hs.
  destruct (template num pieces) as [s|e]; [congruence|now exists e].
Qed.

Lemma template_Return_builds (pieces : list piece) (s : string) :
  template num pieces = Return s -> forallb pieceBuilds pieces = true.
Proof. intros H. pose proof (template_spec pieces) as Hs. now rewrite H in Hs. Qed.

(** The same facts as equations. *)
Lemma returns_toString (v : value) : returns (toString num v) = printable v.
Proof. pose proof (toString_spec v) as H. now destruct (toString num v). Qed.

Lemma returns_template (pieces : list piece) :
  returns (template num pieces) = forallb pieceBuilds pieces.
Proof. pose proof (template_spec pieces) as H. now destruct (template num pieces). Qed.

Lemma returns_joinValues (sep : string) (items : list value) :
  returns (joinValues num sep items) = forallb printable items.
Proof.
  pose proof (joinValues_spec sep items) as H. now destruct (joinValues num sep items).
Qed.

(** ** Going through the messages *)

Lemma messageValue (m fallback : value) :
  nullish m = false ->
  get m "body" ||| get m "text" ||| Return fallback = Return (jor (messageText m) fallback).
Proof.
  intros Hm. rewrite !(get_not_nullish m) by exact Hm.
  unfold messageText, jor, orElse. cbn [obind].
  destruct (truthy (getOpt m "body")) eqn:Eb; cbn [obind]; rewrite ?Eb; [reflexivity|].
  destruct (truthy (getOpt m "text")) eqn:Et; reflexivity.
Qed.

Lemma messageQuery (m : value) :
  nullish m = false -> get m "body" ||| get m "text" = Return (messageText m).
Proof.
  intros Hm. rewrite !(get_not_nullish m) by exact Hm.
  unfold messageText, jor, orElse. cbn [obind].
  destruct (truthy (getOpt m "body")); reflexivity.
Qed.

Lemma message_nullish (m : value) (rest : outcome value) :
  nullish m = true -> returns (get m "body" ||| rest) = false.
Proof. destruct m; try discriminate; reflexivity. Qed.

Lemma callMap_VArr {A : Type} (items : list value) (f : value -> outcome A) :
  callMap (VArr items) f = traverse f items.
Proof.
  cbn [callMap]. induction items as [|x rest IH]; [reflexivity|].
  cbn [traverse]. now rewrite IH.
Qed.

(** [(v || []).map(f)] *)
Lemma callMap_jor {A : Type} (v : value) (f : value -> outcome A) :
  callMap (jor v (VArr [])) f =
  match v with
  | VArr items => traverse f items
  | _ => if truthy v then Throw (TypeError "map is not a function") else Return []
  end.
Proof.
  unfold jor. destruct v; cbn [truthy]; try reflexivity.
  - now destruct b.
  - now destruct (negb (z =? 0)%Z).
  - now destruct (negb (String.eqb s "")).
  - apply callMap_VArr.
Qed.

Lemma returns_traverse {A B : Type} (f : A -> outcome B) (l : list A) :
  returns (traverse f l) = forallb (fun x => returns (f x)) l.
Proof.
  induction l as [|x rest IH]; [reflexivity|].
  cbn [traverse forallb]. destruct (f x) as [y|e]; cbn [obind returns andb]; [|reflexivity].
  rewrite <- IH. now destruct (traverse f rest).
Qed.

Lemma traverse_map {A B : Type} (f : A -> outcome B) (g : A -> B) (l : list A) :
  (forall x, In x l -> f x = Return (g x)) -> traverse f l = Return (map g l).
Proof.
  induction l as [|x rest IH]; intros H; [reflexivity|].
  cbn [traverse map]. rewrite (H x) by now left. cbn [obind].
  rewrite IH; [reflexivity|]. intros y Hy. apply H. now right.
Qed.

Lemma forallb_same {A : Type} (f g : A -> bool) (l : list A) :
  (forall x, f x = g x) -> forallb f l = forallb g l.
Proof.
  intros H. induction l as [|x rest IH]; [reflexivity|].
  cbn [forallb]. now rewrite H, IH.
Qed.

(** Each of the three texts is built exactly on messages that are
    [printableMessages]. *)
Lemma returns_line (m : value) :
  returns (template num
             [Lit "- "; Sub (get m "body" ||| get m "text" ||| Return (VStr "No content"))]) =
  negb (nullish m) && printable (messageText m).
Proof.
  rewrite returns_template. cbn [forallb pieceBuilds andb].
  destruct (nullish m) eqn:Hm.
  - destruct m; try discriminate; reflexivity.
  - rewrite (messageValue m _ Hm), andb_true_r. cbn [negb andb].
    now rewrite printable_jor.
Qed.

Lemma returns_messageLines (ticket : value) :
  returns (messageLines num ticket) =
  negb (nullish ticket) && printableMessages (getOpt ticket "messages").
Proof.
  unfold messageLines.
  destruct (nullish ticket) eqn:Hn; [destruct ticket; try discriminate; reflexivity|].
  rewrite (get_not_nullish ticket _ Hn). cbn [obind negb andb].
  rewrite callMap_jor.
  destruct (getOpt ticket "messages") as [| |b|z|s|items|fields];
    cbn [printableMessages truthy]; try reflexivity;
    try (match goal with |- context [if ?c then _ else _] => destruct c end; reflexivity).
  rewrite <- (forallb_same _ _ items returns_line), <- returns_traverse.
  now destruct (traverse _ items).
Qed.

Lemma returns_joined_values (sep : string) (fallback : value) (items : list value) :
  printable fallback = true ->
  returns (let? lines := traverse (fun msg => get msg "body" ||| get msg "text" |||
                                               Return fallback) items in
           joinValues num sep lines) =
  forallb (fun msg => negb (nullish msg) && printable (messageText msg)) items.
Proof.
  intros Hf. induction items as [|m rest IH]; [reflexivity|].
  cbn [traverse forallb].
  destruct (nullish m) eqn:Hm.
  - destruct m; try discriminate; reflexivity.
  - rewrite (messageValue m _ Hm). cbn [obind negb andb].
    destruct (traverse _ rest) as [ys|e]; cbn [obind] in *.
    + rewrite returns_joinValues in *. cbn [forallb].
      now rewrite IH, printable_jor by exact Hf.
    + cbn [returns] in *. rewrite <- IH. now rewrite andb_false_r.
Qed.

Lemma returns_messageBodies (ticket : value) :
  returns (messageBodies num ticket) =
  negb (nullish ticket) && printableMessages (getOpt ticket "messages").
Proof.
  unfold messageBodies.
  destruct (nullish ticket) eqn:Hn; [destruct ticket; try discriminate; reflexivity|].
  rewrite (get_not_nullish ticket _ Hn). cbn [obind negb andb].
  rewrite callMap_jor.
  destruct (getOpt ticket "messages") as [| |b|z|s|items|fields];
    cbn [printableMessages truthy]; try reflexivity;
    try (match goal with |- context [if ?c then _ else _] => destruct c end; reflexivity).
  rewrite <- (returns_joined_values nl (VStr "No content") items eq_refl).
  destruct (traverse _ items) as [lines|e]; cbn [obind]; [|reflexivity].
  now destruct (joinValues num nl lines).
Qed.

Lemma returns_joined_queries (items : list value) :
  returns (let? queries := traverse (fun m => get m "body" ||| get m "text") items in
           joinValues num " " queries) =
  forallb (fun msg => negb (nullish msg) && printable (messageText msg)) items.
Proof.
  induction items as [|m rest IH]; [reflexivity|].
  cbn [traverse forallb].
  destruct (nullish m) eqn:Hm.
  - destruct m; try discriminate; reflexivity.
  - rewrite (messageQuery m Hm). cbn [obind negb andb].
    destruct (traverse _ rest) as [ys|e]; cbn [obind] in *.
    + rewrite returns_joinValues in *. cbn [forallb]. now rewrite IH.
    + cbn [returns] in *. rewrite <- IH. now rewrite andb_false_r.
Qed.

Lemma returns_customerQuery (ticket : value) :
  returns (customerQuery num ticket) = printableMessages (getOpt ticket "messages").
Proof.
  unfold customerQuery. rewrite callMap_jor.
  destruct (getOpt ticket "messages") as [| |b|z|s|items|fields];
    cbn [printableMessages truthy]; try reflexivity;
    try (match goal with |- context [if ?c then _ else _] => destruct c end; reflexivity).
  apply returns_joined_queries.
Qed.

(** The two texts that go into a template are texts. *)
Lemma pieceBuilds_messageLines (ticket : value) :
  pieceBuilds (Sub (messageLines num ticket)) =
  negb (nullish ticket) && printableMessages (getOpt ticket "messages").
Proof.
  rewrite <- returns_messageLines. unfold messageLines.
  destruct (get ticket "messages") as [messages|e]; [|reflexivity]. cbn [obind].
  destruct (callMap _ _) as [lines|e]; reflexivity.
Qed.

Lemma pieceBuilds_messageBodies (ticket : value) :
  pieceBuilds (Sub (messageBodies num ticket)) =
  negb (nullish ticket) && printableMessages (getOpt ticket "messages").
Proof.
  rewrite <- returns_messageBodies. unfold messageBodies.
  destruct (get ticket "messages") as [messages|e]; [|reflexivity]. cbn [obind].
  destruct (callMap _ _) as [lines|e]; [|reflexivity]. cbn [obind].
  destruct (joinValues num nl lines); reflexivity.
Qed.

(** The first message of printable messages has a text. *)
Lemma printable_firstMessage (ticket : value) :
  printableMessages (getOpt ticket "messages") = true ->
  printable (firstMessage ticket) = true.
Proof.
  intros H. unfold firstMessage. rewrite printable_jor by reflexivity.
  fold (messageText (getOpt0 (getOpt ticket "messages"))).
  destruct (getOpt ticket "messages") as [| |b|z|s|items|fields];
    cbn [printableMessages truthy getOpt0] in *; try reflexivity; try discriminate.
  - destruct s; [reflexivity|discriminate].
  - destruct items as [|m rest]; [reflexivity|]. cbn [nth forallb] in *.
    apply andb_prop in H as [H _]. now apply andb_prop in H as [_ H].
Qed.

End ConversionFacts.

End JSFacts.

(* ================================================================== *)
(** * The customer normaliser *)
(* ================================================================== *)

Module NormalizerFacts.
Import JS Effects Data Spec JSFacts.

Lemma orElse_assoc (a b c : outcome value) : (a ||| b) ||| c = a ||| (b ||| c).
Proof.
  unfold orElse. destruct a as [x|e]; simpl; [|reflexivity].
  destruct (truthy x) eqn:E; simpl; [now rewrite E|reflexivity].
Qed.

Lemma orElse_firstPresent (aliases : list value) :
  fold_right (fun a acc => Return a ||| acc) (Return (VStr "")) aliases
  = Return (firstPresent aliases).
Proof.
  induction aliases as [|a rest IH]; cbn [fold_right firstPresent]; [reflexivity|].
  rewrite IH. unfold orElse. simpl. now destruct (truthy a).
Qed.

Lemma firstPresent_truthy_or_empty (aliases : list value) :
  truthy (firstPresent aliases) = true \/ firstPresent aliases = VStr "".
Proof.
  induction aliases as [|a rest IH]; simpl; [now right|].
  destruct (truthy a) eqn:E; [now left|exact IH].
Qed.

Lemma jor_firstPresent (aliases : list value) :
  jor (firstPresent aliases) (VStr "") = firstPresent aliases.
Proof.
  destruct (firstPresent_truthy_or_empty aliases) as [H|H].
  - now apply jor_truthy.
  - now rewrite H.
Qed.

(** The first present alias wins over every later one. *)
Lemma firstPresent_precedence (aliases : list value) (i : nat) (v : value) :
  nth_error aliases i = Some v ->
  truthy v = true ->
  (forall j w, j < i -> nth_error aliases j = Some w -> truthy w = false) ->
  firstPresent aliases = v.
Proof.
  revert i. induction aliases as [|a rest IH]; intros i Hi Hv Hbefore.
  - destruct i; discriminate.
  - destruct i as [|i]; simpl in *.
    + injection Hi as ->. now rewrite Hv.
    + rewrite (Hbefore 0 a) by (simpl; auto; lia).
      apply (IH i); auto.
      intros j w Hj Hw. apply (Hbefore (S j) w); [lia|exact Hw].
Qed.

Lemma getOpt_top (ticket : value) (k : string) :
  getOpt (jor ticket (VObj [])) k = getOpt ticket k.
Proof. unfold jor. destruct ticket; simpl; try reflexivity; now destruct (_ : bool). Qed.

Lemma top_not_nullish (ticket : value) : nullish (jor ticket (VObj [])) = false.
Proof.
  unfold jor. destruct (truthy ticket) eqn:E; [|reflexivity].
  now apply truthy_not_nullish.
Qed.

(** [normalizeCustomer] in the words of the specification: once the nested
    customer object [c] is known, each field is the first present alias. *)
Lemma normalizeCustomer_firstPresent (P : Platform) (ticket c : value) :
  Agent.nestedCustomer P ticket = Return c ->
  nullish c = false ->
  Agent.normalizeCustomer P ticket =
  Return {| name := firstPresent (nameAliases c ticket);
            email := firstPresent (emailAliases c ticket) |}.
Proof.
  intros Hc Hn. unfold Agent.normalizeCustomer. rewrite Hc. simpl obind.
  rewrite !(get_not_nullish c) by exact Hn.
  rewrite !(get_not_nullish (jor ticket (VObj []))) by apply top_not_nullish.
  rewrite !getOpt_top, !orElse_assoc.
  pose proof (orElse_firstPresent (nameAliases c ticket)) as Hname.
  pose proof (orElse_firstPresent (emailAliases c ticket)) as Hemail.
  cbn [fold_right nameAliases emailAliases] in Hname, Hemail.
  rewrite Hname, Hemail. cbn [obind]. now rewrite !jor_firstPresent.
Qed.

(** When the nested customer is [null], reading its first alias raises. *)
Lemma normalizeCustomer_null_customer (P : Platform) (ticket : value) :
  Agent.nestedCustomer P ticket = Return VNull ->
  Agent.normalizeCustomer P ticket =
  Throw (TypeError "Cannot read properties of null (reading 'name')").
Proof. intros Hc. unfold Agent.normalizeCustomer. now rewrite Hc. Qed.

Lemma nestedCustomer_json_string (P : Platform) (fields : list (string * value))
    (s : string) (c : value) :
  s <> "" ->
  lookup "customer" fields = VStr s ->
  JSON_parse P s = Some c ->
  Agent.nestedCustomer P (VObj fields) = Return c.
Proof.
  intros Hs Hcust Hparse. unfold Agent.nestedCustomer.
  assert (Ht : truthy (VStr s) = true).
  { destruct (truthy (VStr s)) eqn:E; [reflexivity|].
    apply truthy_VStr in E. contradiction. }
  cbn [jor truthy get getOpt]. rewrite Hcust.
  rewrite !orElse_Return_truthy by exact Ht.
  cbn [obind]. now rewrite Hparse.
Qed.



Lemma nestedCustomer_object (P : Platform) (fields : list (string * value)) (c : value) :
  isObject c = true ->
  lookup "customer" fields = c ->
  Agent.nestedCustomer P (VObj fields) = Return c.
Proof.
  intros Hobj Hcust. unfold Agent.nestedCustomer.
  cbn [jor truthy get getOpt]. rewrite Hcust.
  assert (Ht : truthy c = true) by (destruct c; try discriminate; reflexivity).
  rewrite !orElse_Return_truthy by exact Ht.
  cbn [obind]. destruct c; try discriminate; reflexivity.
Qed.

Lemma isObject_not_nullish (c : value) : isObject c = true -> nullish c = false.
Proof. destruct c; simpl; intros H; try discriminate; reflexivity. Qed.

(** C6.  For every ticket whose customer field is a JSON-encoded string
    that parses to an object [c], [normalizeCustomer] returns, and returns
    the same name and email as on the same ticket with its customer field
    replaced by [c].  ([JSON.parse] rejects the empty text.) *)
Theorem normalizeCustomer_string_same_as_parsed (P : Platform)
    (fields : list (string * value)) (s : string) (c : value) :
  JSON_parse P "" = None ->
  lookup "customer" fields = VStr s ->
  JSON_parse P s = Some c ->
  isObject c = true ->
  exists r,
    Agent.normalizeCustomer P (VObj fields) = Return r /\
    Agent.normalizeCustomer P (VObj (setField "customer" c fields)) = Return r.
Proof.
  intros Hempty Hcust Hparse Hobj.
  assert (Hs : s <> "") by (intros ->; congruence).
  pose proof (isObject_not_nullish c Hobj) as Hn.
  eexists. split.
  - apply normalizeCustomer_firstPresent; [|exact Hn].
    now apply (nestedCustomer_json_string P fields s c).
  - rewrite (normalizeCustomer_firstPresent P _ c); [| |exact Hn].
    + unfold nameAliases, emailAliases. cbn [getOpt].
      now rewrite !(lookup_setField_other "customer") by discriminate.
    + apply nestedCustomer_object; [exact Hobj|apply lookup_setField_same].
Qed.

Lemma normalizeCustomer_string_same_as_parsed_witness :
  exists r,
    Agent.normalizeCustomer (Demo.platform true VNull)
      (VObj [("id", VStr "T1");
             ("customer", VStr (Json.q "{'Name':'Ana','email':'a@x.com'}"));
             ("name", VStr "ignored")]) = Return r /\
    Agent.normalizeCustomer (Demo.platform true VNull)
      (VObj [("id", VStr "T1");
             ("customer", VObj [("Name", VStr "Ana"); ("email", VStr "a@x.com")]);
             ("name", VStr "ignored")]) = Return r.
Proof.
  apply (normalizeCustomer_string_same_as_parsed (Demo.platform true VNull)
           [("id", VStr "T1");
            ("customer", VStr (Json.q "{'Name':'Ana','email':'a@x.com'}"));
            ("name", VStr "ignored")]
           (Json.q "{'Name':'Ana','email':'a@x.com'}")
           (VObj [("Name", VStr "Ana"); ("email", VStr "a@x.com")]));
    reflexivity.
Defined.




(** C8.  With [c] the nested customer object, each field of the result is
    chosen by the precedence nested lowercase field, nested
    alternate-cased field, top-level snake_case, PascalCase, capitalized,
    lowercase: an alias that is present (truthy) wins as soon as every
    alias before it in that order is absent or falsy. *)
Theorem normalizeCustomer_alias_precedence (P : Platform) (ticket c : value)
    (i : nat) (v : value) :
  Agent.nestedCustomer P ticket = Return c ->
  nullish c = false ->
  (nth_error (nameAliases c ticket) i = Some v ->
   truthy v = true ->
   (forall j w, j < i -> nth_error (nameAliases c ticket) j = Some w -> truthy w = false) ->
   exists r, Agent.normalizeCustomer P ticket = Return r /\ name r = v) /\
  (nth_error (emailAliases c ticket) i = Some v ->
   truthy v = true ->
   (forall j w, j < i -> nth_error (emailAliases c ticket) j = Some w -> truthy w = false) ->
   exists r, Agent.normalizeCustomer P ticket = Return r /\ email r = v).
Proof.
  intros Hc Hn.
  rewrite (normalizeCustomer_firstPresent P ticket c Hc Hn).
  split; intros Hi Hv Hbefore; eexists; (split; [reflexivity|]); cbn [name email];
    now apply (firstPresent_precedence _ i).
Qed.

Lemma normalizeCustomer_alias_precedence_witness :
  exists r,
    Agent.normalizeCustomer (Demo.platform true VNull)
      (VObj [("customer", VObj [("name", VStr ""); ("Name", VStr "Bo")]);
             ("customer_name", VStr "Cy");
             ("CustomerName", VStr "Di");
             ("Name", VStr "Ed");
             ("name", VStr "Flo")]) = Return r /\
    name r = VStr "Bo".
Proof.
  apply (proj1 (normalizeCustomer_alias_precedence (Demo.platform true VNull)
                  (VObj [("customer", VObj [("name", VStr ""); ("Name", VStr "Bo")]);
                         ("customer_name", VStr "Cy");
                         ("CustomerName", VStr "Di");
                         ("Name", VStr "Ed");
                         ("name", VStr "Flo")])
                  (VObj [("name", VStr ""); ("Name", VStr "Bo")])
                  1 (VStr "Bo") eq_refl eq_refl)).
  - reflexivity.
  - reflexivity.
  - intros j w Hj Hw. destruct j as [|j]; [|lia].
    simpl in Hw. injection Hw as <-. reflexivity.
Defined.

End NormalizerFacts.

(* ================================================================== *)
(** * Reasoning about computations *)
(* ================================================================== *)

Module MonadFacts.
Import JS Effects Data.

Lemma bind_Return {A B : Type} (m : M A) (k : A -> M B) (tr tr1 : trace) (a : A) :
  m tr = (Return a, tr1) -> bind m k tr = k a tr1.
Proof. intros H. unfold bind. now rewrite H. Qed.

Lemma bind_Throw {A B : Type} (m : M A) (k : A -> M B) (tr tr1 : trace) (e : exn) :
  m tr = (Throw e, tr1) -> bind m k tr = (Throw e, tr1).
Proof. intros H. unfold bind. now rewrite H. Qed.

Lemma bind_Return_inv {A B : Type} (m : M A) (k : A -> M B) (tr tr' : trace) (b : B) :
  bind m k tr = (Return b, tr') ->
  exists a tr1, m tr = (Return a, tr1) /\ k a tr1 = (Return b, tr').
Proof.
  unfold bind. destruct (m tr) as [[a|e] tr1]; intros H; [|discriminate].
  now exists a, tr1.
Qed.

Lemma lift_inv {A : Type} (r : outcome A) (tr tr' : trace) (a : A) :
  lift r tr = (Return a, tr') -> r = Return a /\ tr' = tr.
Proof. unfold lift. intros H. injection H as -> ->. now split. Qed.

Lemma ret_inv {A : Type} (a b : A) (tr tr' : trace) :
  ret a tr = (Return b, tr') -> a = b /\ tr' = tr.
Proof. unfold ret. intros H. injection H as -> ->. now split. Qed.

Lemma tryCatch_Return {A : Type} (m : M A) (h : exn -> M A) (tr tr1 : trace) (a : A) :
  m tr = (Return a, tr1) -> tryCatch m h tr = (Return a, tr1).
Proof. intros H. unfold tryCatch. now rewrite H. Qed.

Lemma tryCatch_Throw {A : Type} (m : M A) (h : exn -> M A) (tr tr1 : trace) (e : exn) :
  m tr = (Throw e, tr1) -> tryCatch m h tr = h e tr1.
Proof. intros H. unfold tryCatch. now rewrite H. Qed.


(** Splits [H : bind m k tr = (Return b, tr')] into the two runs. *)
Tactic Notation "bind_inv" hyp(H) "as" ident(a) ident(tr1) ident(E) :=
  apply bind_Return_inv in H; destruct H as (a & tr1 & E & H); cbv beta in H.

End MonadFacts.

(* ================================================================== *)
(** * The steps of the pipeline, one by one *)
(* ================================================================== *)

Module StepFacts.
Import JS Effects Data Spec Props JSFacts MonadFacts.

(** ** Trimmed texts *)

Lemma headNotSpace_trimStart (s : string) : headNotSpace (trimStart s) = true.
Proof.
  induction s as [|c rest IH]; simpl; [reflexivity|].
  destruct (is_space c) eqn:E; [exact IH|]. simpl. now rewrite E.
Qed.

Lemma lastNotSpace_trimStart (s : string) :
  lastNotSpace s = true -> lastNotSpace (trimStart s) = true.
Proof.
  induction s as [|c rest IH]; intros H; [reflexivity|].
  cbn [trimStart]. destruct (is_space c) eqn:E; [|exact H].
  apply IH. destruct rest; [|exact H].
  simpl in H. rewrite E in H. discriminate.
Qed.

Lemma lastNotSpace_rev_string (s acc : string) :
  lastNotSpace (rev_string s acc) =
  match acc with
  | EmptyString => headNotSpace s
  | _ => lastNotSpace acc
  end.
Proof.
  revert acc. induction s as [|c rest IH]; intros acc.
  - destruct acc; reflexivity.
  - cbn [rev_string]. rewrite IH. destruct acc; reflexivity.
Qed.

Lemma headNotSpace_rev_string (s : string) :
  headNotSpace (rev_string s "") = lastNotSpace s.
Proof.
  assert (H : forall s acc, s <> "" -> headNotSpace (rev_string s acc) = lastNotSpace s).
  { clear s. induction s as [|c rest IH]; intros acc Hs; [contradiction|].
    cbn [rev_string]. destruct rest as [|c' rest'].
    - reflexivity.
    - rewrite IH by discriminate. reflexivity. }
  destruct s as [|c rest]; [reflexivity|]. apply H. discriminate.
Qed.

(** [s.trim()] has no white space at either end. *)
Lemma trim_trimmed (s : string) :
  headNotSpace (trim s) = true /\ lastNotSpace (trim s) = true.
Proof.
  unfold trim. split.
  - rewrite headNotSpace_rev_string. apply lastNotSpace_trimStart.
    rewrite lastNotSpace_rev_string. apply headNotSpace_trimStart.
  - rewrite lastNotSpace_rev_string. apply headNotSpace_trimStart.
Qed.

(** Whether [response && response.trim()] is truthy, when it can be
    evaluated. *)
Lemma nonBlankText_spec (v : value) :
  match v with
  | VStr s => truthy v && truthy (VStr (trim s)) = nonBlankText v
  | _ => nonBlankText v = false
  end.
Proof.
  destruct v; try reflexivity. cbn [nonBlankText truthy].
  destruct (allSpace s) eqn:E.
  - rewrite (trim_allSpace s E). cbn. now rewrite andb_false_r.
  - assert (Ht : trim s <> "").
    { intros Ht. apply trim_empty_iff in Ht. congruence. }
    assert (Hs : s <> "") by (intros ->; discriminate).
    apply String.eqb_neq in Ht, Hs. now rewrite Ht, Hs.
Qed.

(** ** Whether the texts of the steps can be built *)

Lemma returns_true {A : Type} (m : outcome A) :
  returns m = true -> exists a, m = Return a.
Proof. destruct m as [a|e]; [now exists a|discriminate]. Qed.

Lemma returns_false {A : Type} (m : outcome A) :
  returns m = false -> exists e, m = Throw e.
Proof. destruct m as [a|e]; [discriminate|now exists e]. Qed.

Ltac bools :=
  repeat match goal with
         | |- context [printable ?v] => destruct (printable v)
         | |- context [printableMessages ?v] => destruct (printableMessages v)
         end;
  reflexivity.

(** A sequence of expressions returns when each of them does, as long as
    whether one returns does not depend on the values before it. *)
Lemma returns_obind_indep {A B : Type} (m : outcome A) (k : A -> outcome B) (b : bool) :
  (forall a, returns (k a) = b) -> returns (obind m k) = returns m && b.
Proof. intros H. destruct m as [a|e]; [apply H|reflexivity]. Qed.

Ltac returns_steps :=
  cbv beta;
  lazymatch goal with
  | |- returns (obind _ _) = _ => apply returns_obind_indep; intros; returns_steps
  | |- _ => cbn [returns]; reflexivity
  end.

Ltac returns_chain := etransitivity; [returns_steps|].

Lemma pieceBuilds_text (m : outcome string) :
  pieceBuilds (Sub (let? s := m in Return (VStr s))) = returns m.
Proof. now destruct m. Qed.

(** The piece [${id ? ` ${id}` : ''}] of the text of a notification. *)
Lemma pieceBuilds_suffix (num : Z -> string) (v : value) :
  pieceBuilds
    (Sub (if truthy v
          then let? id := template num [Lit " "; Sub (Return v)] in Return (VStr id)
          else Return (VStr ""))) = printable v.
Proof.
  destruct (truthy v) eqn:Hv.
  - rewrite pieceBuilds_text, returns_template. cbn [forallb pieceBuilds andb].
    apply andb_true_r.
  - now rewrite (printable_falsy v Hv).
Qed.

Section AgentSteps.

Variable P : Platform.

Lemma returns_content (ticket : value) (cust : Customer) (timestamp : string) :
  returns (Agent.content P ticket cust timestamp) =
  negb (nullish ticket) && printableTicket ticket && printableCustomer cust.
Proof.
  unfold Agent.content. rewrite returns_template.
  cbn [forallb]. rewrite pieceBuilds_messageLines.
  destruct (nullish ticket) eqn:Hn; [destruct ticket; try discriminate; reflexivity|].
  rewrite !(get_not_nullish ticket _ Hn).
  unfold printableTicket, printableCustomer. cbn [pieceBuilds negb andb printable].
  bools.
Qed.

Lemma returns_prompt (ticket : value) (cust : Customer) (context : value) :
  returns (Agent.prompt P ticket cust context) =
  negb (nullish ticket) && printableCustomer cust &&
  printable (getOpt ticket "subject") && printableMessages (getOpt ticket "messages").
Proof.
  unfold Agent.prompt. rewrite returns_template.
  cbn [forallb]. rewrite pieceBuilds_messageBodies.
  destruct (nullish ticket) eqn:Hn.
  { destruct ticket; try discriminate; unfold printableCustomer;
      cbn [pieceBuilds negb andb get]; bools. }
  rewrite !(get_not_nullish ticket _ Hn).
  unfold printableCustomer. cbn [pieceBuilds negb andb printable].
  bools.
Qed.

Lemma returns_emailContent (ticket : value) (cust : Customer) (response : value) :
  returns (Agent.emailContent P ticket cust response) =
  negb (nullish ticket) && printableCustomer cust &&
  printable (getOpt ticket "subject") && printable response.
Proof.
  unfold Agent.emailContent. rewrite returns_template.
  cbn [forallb]. unfold printableCustomer.
  destruct (nullish ticket) eqn:Hn.
  { destruct ticket; try discriminate; cbn [pieceBuilds negb andb get]; bools. }
  rewrite !(get_not_nullish ticket _ Hn).
  cbn [pieceBuilds negb andb]. rewrite (printable_jor (name cust)) by reflexivity.
  bools.
Qed.

(** The two customer lines are built exactly for a customer whose name
    and email address have a text. *)
Lemma returns_customerLines (cust : Customer) :
  returns (Agent.customerLine P cust) && returns (Agent.emailLine P cust) =
  printableCustomer cust.
Proof.
  unfold Agent.customerLine, Agent.emailLine, printableCustomer.
  destruct (truthy (name cust)) eqn:Hn, (truthy (email cust)) eqn:He;
    rewrite ?returns_template; cbn [forallb pieceBuilds andb returns];
    rewrite ?(printable_falsy _ Hn), ?(printable_falsy _ He), ?andb_true_r;
    bools.
Qed.

Lemma returns_customerMessage (ticket : value) :
  returns (Agent.customerMessage P ticket) = printable (firstMessage ticket).
Proof.
  unfold Agent.customerMessage. rewrite <- (returns_toString (Number_toString P)).
  now destruct (toString _ (firstMessage ticket)).
Qed.

Lemma returns_message (ticket : value) (customerLine emailLine : string)
    (error : option exn) :
  returns (Agent.message P ticket customerLine emailLine error) =
  printable (getOpt ticket "id") && printable (getOpt ticket "subject") &&
  match error with
  | Some _ => true
  | None => printable (getOpt ticket "source") && printable (firstMessage ticket)
  end.
Proof.
  unfold Agent.message. destruct error as [err|].
  - returns_chain. rewrite !returns_template. cbn [forallb pieceBuilds andb printable].
    bools.
  - pose proof (returns_customerMessage ticket) as Hm.
    destruct (Agent.customerMessage P ticket) as [cm|e]; cbn [obind returns] in *;
      [|rewrite <- Hm; bools].
    returns_chain. rewrite !returns_template. cbn [forallb].
    rewrite pieceBuilds_suffix. cbn [pieceBuilds andb printable].
    rewrite (printable_jor (VStr cm)) by reflexivity. cbn [printable].
    rewrite <- Hm. bools.
Qed.

(** ** Document logging *)

Lemma storeTicketInDoc_eq (ticket : value) (cust : Customer) (tr : trace) :
  Agent.storeTicketInDoc P ticket cust tr =
  if truthy (env P "GOOGLE_DOC_ID") then
    match Agent.content P ticket cust (toISOString P tr) with
    | Return content =>
        (Return tt, (tr ++ [DocAppend (env P "GOOGLE_DOC_ID") content])%list)
    | Throw e => (Throw e, tr)
    end
  else (Return tt, tr).
Proof.
  unfold Agent.storeTicketInDoc.
  destruct (truthy (env P "GOOGLE_DOC_ID")); cbn [negb]; [|reflexivity].
  unfold bind, now, lift, tryCatch, call, ret.
  destruct (Agent.content P ticket cust (toISOString P tr)) as [content|e]; [|reflexivity].
  cbn [fst snd]. destruct (respond P tr _); reflexivity.
Qed.

Lemma storeTicketInDoc_emits (ticket : value) (cust : Customer) :
  Emits (Agent.storeTicketInDoc P ticket cust) (one isDocAppend).
Proof.
  intros tr. rewrite storeTicketInDoc_eq.
  destruct (truthy (env P "GOOGLE_DOC_ID")).
  - destruct (Agent.content P ticket cust (toISOString P tr)) as [content|e]; cbn [snd].
    + eexists. split; [reflexivity|]. right. eexists. split; reflexivity.
    + exists []. split; [now rewrite app_nil_r|now left].
  - exists []. split; [now rewrite app_nil_r|now left].
Qed.

(** Without a document id the step does nothing. *)
Lemma storeTicketInDoc_skipped (ticket : value) (cust : Customer) (tr : trace) :
  truthy (env P "GOOGLE_DOC_ID") = false ->
  Agent.storeTicketInDoc P ticket cust tr = (Return tt, tr).
Proof. intros Hdoc. rewrite storeTicketInDoc_eq. now rewrite Hdoc. Qed.

(** With one, and a ticket whose text can be built, one append is made. *)
Lemma storeTicketInDoc_appends (ticket : value) (cust : Customer) (tr : trace) :
  truthy (env P "GOOGLE_DOC_ID") = true ->
  nullish ticket = false ->
  printableTicket ticket = true ->
  printableCustomer cust = true ->
  exists content,
    Agent.storeTicketInDoc P ticket cust tr =
    (Return tt, (tr ++ [DocAppend (env P "GOOGLE_DOC_ID") content])%list).
Proof.
  intros Hdoc Hticket Hprint Hcust. rewrite storeTicketInDoc_eq, Hdoc.
  destruct (returns_true (Agent.content P ticket cust (toISOString P tr)))
    as [content Hcontent].
  { now rewrite returns_content, Hticket, Hprint, Hcust. }
  rewrite Hcontent. now exists content.
Qed.

(** X8: document logging is skipped without a call when [GOOGLE_DOC_ID] is
    not set.  With it set, on a ticket whose text can be built (a ticket
    that is not [null], whose id, source, subject, message bodies and
    customer name and email address have a text) exactly one append call
    is made and the step returns whether the provider accepts or rejects;
    on every other ticket the step raises before any call.  It never
    raises after a call. *)
Theorem storeTicketInDoc_best_effort (ticket : value) (cust : Customer) (tr : trace) :
  (truthy (env P "GOOGLE_DOC_ID") = false ->
   Agent.storeTicketInDoc P ticket cust tr = (Return tt, tr)) /\
  (truthy (env P "GOOGLE_DOC_ID") = true ->
   nullish ticket = false ->
   printableTicket ticket = true ->
   printableCustomer cust = true ->
   exists content,
     Agent.storeTicketInDoc P ticket cust tr =
     (Return tt, (tr ++ [DocAppend (env P "GOOGLE_DOC_ID") content])%list)) /\
  (truthy (env P "GOOGLE_DOC_ID") = true ->
   nullish ticket = true \/ printableTicket ticket = false \/ printableCustomer cust = false ->
   exists e, Agent.storeTicketInDoc P ticket cust tr = (Throw e, tr)) /\
  (forall e tr', Agent.storeTicketInDoc P ticket cust tr = (Throw e, tr') -> tr' = tr).
Proof.
  split; [|split; [|split]].
  - apply storeTicketInDoc_skipped.
  - apply storeTicketInDoc_appends.
  - intros Hdoc Hbad. rewrite storeTicketInDoc_eq, Hdoc.
    destruct (returns_false (Agent.content P ticket cust (toISOString P tr)))
      as [e He].
    { rewrite returns_content.
      destruct Hbad as [-> | [-> | ->]]; cbn [negb andb];
        rewrite ?andb_false_r; reflexivity. }
    rewrite He. now exists e.
  - intros e tr' H. rewrite storeTicketInDoc_eq in H.
    destruct (truthy (env P "GOOGLE_DOC_ID")); [|discriminate].
    destruct (Agent.content P ticket cust (toISOString P tr)); [discriminate|].
    now injection H.
Qed.

(** ** Response generation *)

(** Either the prompt cannot be built and nothing is called, or one
    completion request is made and a trimmed text comes back. *)
Lemma generateAIResponse_cases (ticket : value) (cust : Customer) (context : value)
    (tr : trace) :
  (exists e,
     Agent.prompt P ticket cust context = Throw e /\
     Agent.generateAIResponse P ticket cust context tr = (Throw e, tr)) \/
  (exists prompt s,
     Agent.prompt P ticket cust context = Return prompt /\
     Agent.generateAIResponse P ticket cust context tr =
     (Return (VStr s), (tr ++ [Completion prompt])%list) /\
     headNotSpace s = true /\ lastNotSpace s = true /\
     (forall e, respond P tr (Completion prompt) = Throw e -> s = "") /\
     (forall completion c,
        respond P tr (Completion prompt) = Return completion ->
        getOpt (getOpt (getOpt0 (getOpt completion "choices")) "message") "content" =
        VStr c ->
        s = trim c)).
Proof.
  unfold Agent.generateAIResponse. unfold bind at 1, lift at 1.
  destruct (Agent.prompt P ticket cust context) as [prompt|e];
    [right|left; now exists e].
  exists prompt. unfold tryCatch, bind, call, lift, ret. cbn [fst snd].
  destruct (respond P tr (Completion prompt)) as [completion|e1] eqn:Hr.
  - destruct (get completion "choices") as [choices|e2] eqn:Hc.
    + assert (Hchoices : choices = getOpt completion "choices").
      { destruct completion; try discriminate Hc; cbn [get] in Hc; now injection Hc. }
      destruct (callTrim _) as [response|e3] eqn:Ht.
      * exists response. split; [reflexivity|]. split; [reflexivity|].
        destruct (jor _ (VStr "")) eqn:Hj in Ht; try discriminate.
        cbn [callTrim] in Ht. injection Ht as <-.
        destruct (trim_trimmed s) as [H1 H2].
        repeat split; auto; [discriminate|].
        intros completion0 c [= <-] Hcontent.
        rewrite <- Hchoices in Hcontent. rewrite Hcontent in Hj.
        unfold jor in Hj. destruct (truthy (VStr c)) eqn:Htc.
        -- now injection Hj as <-.
        -- injection Hj as <-. apply truthy_VStr in Htc. now subst c.
      * exists "". repeat split; try discriminate.
        intros completion0 c [= <-] Hcontent.
        rewrite <- Hchoices in Hcontent. rewrite Hcontent in Ht.
        unfold jor in Ht. destruct (truthy (VStr c)); discriminate.
    + exists "". repeat split; try discriminate.
      intros completion0 c [= <-] Hcontent.
      destruct completion; try discriminate Hc; discriminate Hcontent.
  - exists "". repeat split; auto; discriminate.
Qed.

(** X9: once the prompt is built (a ticket that is not [null], whose
    subject, message bodies and customer name and email address have a
    text), response generation makes exactly one completion request and
    returns a text without white space at either end: the trimmed content
    of the first choice when the answer carries one, the empty text when
    the provider rejects.  The step never raises after the request. *)
Theorem generateAIResponse_never_raises (ticket : value) (cust : Customer)
    (context : value) (tr : trace) :
  (nullish ticket = false ->
   printableCustomer cust = true ->
   printable (getOpt ticket "subject") = true ->
   printableMessages (getOpt ticket "messages") = true ->
   exists prompt s,
     Agent.generateAIResponse P ticket cust context tr =
     (Return (VStr s), (tr ++ [Completion prompt])%list) /\
     headNotSpace s = true /\ lastNotSpace s = true /\
     (forall e, respond P tr (Completion prompt) = Throw e -> s = "") /\
     (forall completion c,
        respond P tr (Completion prompt) = Return completion ->
        getOpt (getOpt (getOpt0 (getOpt completion "choices")) "message") "content" =
        VStr c ->
        s = trim c)) /\
  (forall e tr', Agent.generateAIResponse P ticket cust context tr = (Throw e, tr') ->
                 tr' = tr).
Proof.
  split.
  - intros Hticket Hcust Hsubject Hmsgs.
    destruct (generateAIResponse_cases ticket cust context tr)
      as [(e & He & _)|(prompt & s & _ & H)]; [|now exists prompt, s].
    pose proof (returns_prompt ticket cust context) as Hp.
    rewrite He, Hticket, Hcust, Hsubject, Hmsgs in Hp. discriminate.
  - intros e tr' H.
    destruct (generateAIResponse_cases ticket cust context tr)
      as [(e0 & _ & H0)|(prompt & s & _ & H0 & _)]; congruence.
Qed.

(** ** The email step *)

Lemma sendGmailResponse_eq (ticket : value) (cust : Customer) (response : value)
    (tr : trace) :
  Agent.sendGmailResponse P ticket cust response tr =
  (Return tt,
   if nonBlankText response then
     match Agent.emailContent P ticket cust response with
     | Return content =>
         (tr ++ [GmailSend (replaceAll "/" "_" (replaceAll "+" "-" (base64 P content)))])%list
     | Throw _ => tr
     end
   else tr).
Proof.
  unfold Agent.sendGmailResponse.
  pose proof (nonBlankText_spec response) as Hspec.
  destruct response; cbn [truthy negb] in *; try (rewrite Hspec; reflexivity).
  - rewrite Hspec. now destruct b.
  - rewrite Hspec. now destruct (negb (z =? 0)%Z).
  - rewrite <- Hspec.
    destruct (negb (String.eqb s "")); cbn [negb andb]; [|reflexivity].
    unfold tryCatch, bind at 1, lift at 1. cbn [callTrim].
    destruct (negb (String.eqb (trim s) "")); cbn [negb andb]; [|reflexivity].
    unfold bind, lift, call, ret.
    destruct (Agent.emailContent P ticket cust (VStr s)) as [content|e]; [|reflexivity].
    cbn [fst snd]. destruct (respond P tr _); reflexivity.
Qed.

(** A value that is not a text with a character other than white space
    is not sent. *)
Lemma sendGmailResponse_skips (ticket : value) (cust : Customer) (response : value)
    (tr : trace) :
  nonBlankText response = false ->
  Agent.sendGmailResponse P ticket cust response tr = (Return tt, tr).
Proof. intros H. now rewrite sendGmailResponse_eq, H. Qed.

Lemma sendGmailResponse_emits (ticket : value) (cust : Customer) (response : value) :
  Emits (Agent.sendGmailResponse P ticket cust response) (one isGmailSend).
Proof.
  intros tr. rewrite sendGmailResponse_eq. cbn [snd].
  destruct (nonBlankText response);
    [destruct (Agent.emailContent P ticket cust response)|].
  - eexists. split; [reflexivity|]. right. eexists. split; reflexivity.
  - exists []. split; [now rewrite app_nil_r|now left].
  - exists []. split; [now rewrite app_nil_r|now left].
Qed.

(** X10: the Email Sender never raises and calls the mail capability at most
    once: exactly once when the response is a text with a character that
    is not white space, the ticket is not [null], and the subject and the
    name and email address of the customer have a text; not at all
    otherwise.  The answer of the provider changes nothing. *)
Theorem sendGmailResponse_sends_iff (ticket : value) (cust : Customer)
    (response : value) (tr : trace) :
  exists raw,
    Agent.sendGmailResponse P ticket cust response tr =
    (Return tt,
     if nonBlankText response && negb (nullish ticket) && printableCustomer cust &&
        printable (getOpt ticket "subject")
     then (tr ++ [GmailSend raw])%list else tr).
Proof.
  rewrite sendGmailResponse_eq.
  pose proof (returns_emailContent ticket cust response) as Hc.
  destruct (nonBlankText response) eqn:Htext; cbn [andb]; [|now exists ""].
  assert (Hp : printable response = true) by (destruct response; try discriminate; reflexivity).
  rewrite Hp, andb_true_r in Hc.
  destruct (Agent.emailContent P ticket cust response) as [content|e];
    cbn [returns] in Hc; [eexists|exists ""]; rewrite <- Hc; reflexivity.
Qed.

(** ** Chat notification *)

(** The notifier raises when a customer line cannot be built, before any
    call. *)
Lemma notifySlackChannel_raises (ticket : value) (cust : Customer) (response : value)
    (error : option exn) (tr : trace) :
  printableCustomer cust = false ->
  exists e, Agent.notifySlackChannel P ticket cust response error tr = (Throw e, tr).
Proof.
  intros Hcust. rewrite <- returns_customerLines in Hcust.
  unfold Agent.notifySlackChannel. unfold bind at 1, lift at 1.
  destruct (Agent.customerLine P cust) as [cl|e]; [|now exists e].
  unfold bind at 1, lift at 1.
  destruct (Agent.emailLine P cust) as [el|e]; [discriminate|now exists e].
Qed.

(** The calls and the result of a notification whose customer lines are
    built. *)
Lemma notifySlackChannel_cases (ticket : value) (cust : Customer) (response : value)
    (error : option exn) (tr : trace) :
  printableCustomer cust = true ->
  exists cl el,
    Agent.customerLine P cust = Return cl /\
    Agent.emailLine P cust = Return el /\
    ((returns (Agent.message P ticket cl el error) = false /\
      Agent.notifySlackChannel P ticket cust response error tr = (Return VNull, tr)) \/
     (exists text blocks result,
        Agent.message P ticket cl el error = Return (text, blocks) /\
        let channel := env P "SLACK_SUPPORT_CHANNEL_ID" in
        let parent := SlackPost channel None text blocks in
        ((Agent.notifySlackChannel P ticket cust response error tr =
          (Return result, (tr ++ [parent])%list) /\
          (result = VNull \/
           exists ts, result = VObj [("channel", channel); ("ts", ts)])) \/
         (exists post ts fullText,
            error = None /\ nonBlankText response = true /\
            respond P tr parent = Return post /\
            get post "ts" ||| (let? m := get post "message" in Return (getOpt m "ts")) =
            Return ts /\
            Agent.full P response = Return fullText /\
            Agent.notifySlackChannel P ticket cust response error tr =
            (Return result,
             (tr ++ [parent; SlackPost channel (Some ts) fullText []])%list) /\
            (result = VNull \/ result = VObj [("channel", channel); ("ts", ts)]))))).
Proof.
  intros Hcust. rewrite <- returns_customerLines in Hcust.
  apply andb_prop in Hcust as [Hcl Hel].
  apply returns_true in Hcl as [cl Hcl]. apply returns_true in Hel as [el Hel].
  exists cl, el. split; [exact Hcl|]. split; [exact Hel|].
  remember (Agent.notifySlackChannel P ticket cust response error tr) as run eqn:Hrun.
  unfold Agent.notifySlackChannel in Hrun. cbv zeta in Hrun.
  unfold bind at 1, lift at 1 in Hrun. rewrite Hcl in Hrun.
  unfold bind at 1, lift at 1 in Hrun. rewrite Hel in Hrun.
  unfold tryCatch in Hrun. unfold bind at 1, lift at 1 in Hrun.
  destruct (Agent.message P ticket cl el error) as [[text blocks]|e0] eqn:Hmsg;
    [right|left; subst run; split; reflexivity].
  exists text, blocks. cbn [fst snd] in Hrun.
  unfold bind, lift, call, ret in Hrun. cbn [fst snd] in Hrun.
  destruct (respond P tr _) as [post|e1] eqn:Hpost;
    [|subst run; exists VNull; split; [reflexivity|left; split; [reflexivity|now left]]].
  destruct (get post "ts" ||| _) as [ts|e2] eqn:Hts;
    [|subst run; exists VNull; split; [reflexivity|left; split; [reflexivity|now left]]].
  destruct error as [err|].
  { subst run. eexists. split; [reflexivity|]. left. split; [reflexivity|].
    right. now exists ts. }
  pose proof (nonBlankText_spec response) as Hspec.
  destruct (truthy response) eqn:Htruthy; cbn [negb] in Hrun;
    [|subst run; eexists; split; [reflexivity|left; split; [reflexivity|right; now exists ts]]].
  destruct (callTrim response) as [trimmed|e3] eqn:Htrim;
    [|subst run; exists VNull; split; [reflexivity|left; split; [reflexivity|now left]]].
  destruct response; try discriminate.
  cbn [callTrim] in Htrim. injection Htrim as <-.
  cbn [andb] in Hspec. rewrite Hspec in Hrun.
  destruct (nonBlankText (VStr s)) eqn:Hnb; cbn [negb] in Hrun;
    [|subst run; eexists; split; [reflexivity|left; split; [reflexivity|right; now exists ts]]].
  destruct (returns_true (Agent.full P (VStr s))) as [fullText Hfull].
  { unfold Agent.full. now rewrite returns_template. }
  rewrite Hfull in Hrun.
  destruct (respond P (tr ++ _)%list _) as [post2|e4]; subst run.
  - eexists. split; [reflexivity|]. right. exists post, ts, fullText.
    repeat split; try reflexivity; try assumption.
    + now rewrite <- app_assoc.
    + now right.
  - exists VNull. split; [reflexivity|]. right. exists post, ts, fullText.
    repeat split; try reflexivity; try assumption.
    + now rewrite <- app_assoc.
    + now left.
Qed.

(** What the pipeline needs of a notification: it adds at most two posts,
    and at most one for an error. *)
Lemma notifySlackChannel_emits (ticket : value) (cust : Customer) (response : value)
    (error : option exn) :
  Emits (Agent.notifySlackChannel P ticket cust response error)
    (fun new => forallb isSlackPost new = true /\ List.length new <= 2 /\
                (error <> None -> List.length new <= 1)).
Proof.
  intros tr. destruct (printableCustomer cust) eqn:Hcust.
  - destruct (notifySlackChannel_cases ticket cust response error tr Hcust)
      as (cl & el & _ & _ & [[_ Hrun]|(text & blocks & result & _ & H)]).
    + exists []. rewrite Hrun, app_nil_r. repeat split; simpl; lia.
    + cbv zeta in H.
      destruct H as [[Hrun _]|(post & ts & fullText & Herr & _ & _ & _ & _ & Hrun & _)];
        rewrite Hrun; eexists; (split; [reflexivity|]);
        cbn [forallb isSlackPost List.length andb]; repeat split; try lia.
      congruence.
  - destruct (notifySlackChannel_raises ticket cust response error tr Hcust) as [e Hrun].
    exists []. rewrite Hrun, app_nil_r. repeat split; simpl; lia.
Qed.

(** The notification of an error: at most one post, and exactly one when
    the customer lines, the id and the subject have a text. *)
Lemma notifySlackChannel_error_posts (ticket : value) (cust : Customer) (response : value)
    (e : exn) (tr : trace) :
  exists o new,
    Agent.notifySlackChannel P ticket cust response (Some e) tr = (o, (tr ++ new)%list) /\
    forallb isSlackPost new = true /\
    List.length new <= 1 /\
    (printableCustomer cust = true ->
     printable (getOpt ticket "id") = true ->
     printable (getOpt ticket "subject") = true ->
     List.length new = 1).
Proof.
  destruct (printableCustomer cust) eqn:Hcust.
  - destruct (notifySlackChannel_cases ticket cust response (Some e) tr Hcust)
      as (cl & el & _ & _ & [[Hmsg Hrun]|(text & blocks & result & _ & H)]).
    + exists (Return VNull), []. rewrite app_nil_r. split; [exact Hrun|].
      split; [reflexivity|]. split; [simpl; lia|].
      intros _ Hid Hsubject. rewrite returns_message, Hid, Hsubject in Hmsg.
      discriminate.
    + cbv zeta in H.
      destruct H as [[Hrun _]|(post & ts & fullText & Herr & _)]; [|discriminate].
      exists (Return result). eexists. split; [exact Hrun|].
      split; [reflexivity|]. split; [simpl; lia|reflexivity].
  - destruct (notifySlackChannel_raises ticket cust response (Some e) tr Hcust) as [e0 Hrun].
    exists (Throw e0), []. rewrite app_nil_r. split; [exact Hrun|].
    split; [reflexivity|]. split; [simpl; lia|discriminate].
Qed.


End AgentSteps.

(** The steps on the ticket of the scenarios. *)

Lemma storeTicketInDoc_best_effort_witness :
  exists content,
    Agent.storeTicketInDoc (Demo.platform false VNull) scenarioTicket
      {| name := VStr "Ana"; email := VStr "a@x.com" |} [] =
    (Return tt, [DocAppend (VStr "doc-1") content]).
Proof.
  apply (proj1 (proj2 (storeTicketInDoc_best_effort (Demo.platform false VNull)
                         scenarioTicket {| name := VStr "Ana"; email := VStr "a@x.com" |}
                         []))); reflexivity.
Defined.

Lemma generateAIResponse_never_raises_witness :
  exists prompt s,
    Agent.generateAIResponse (Demo.platform true (VStr "  Hello Ana  ")) scenarioTicket
      {| name := VStr "Ana"; email := VStr "a@x.com" |} VNull [] =
    (Return (VStr s), [Completion prompt]) /\
    headNotSpace s = true /\ lastNotSpace s = true /\
    (forall e,
       respond (Demo.platform true (VStr "  Hello Ana  ")) [] (Completion prompt) = Throw e ->
       s = "") /\
    (forall completion c,
       respond (Demo.platform true (VStr "  Hello Ana  ")) [] (Completion prompt) =
       Return completion ->
       getOpt (getOpt (getOpt0 (getOpt completion "choices")) "message") "content" = VStr c ->
       s = trim c).
Proof.
  apply (proj1 (generateAIResponse_never_raises (Demo.platform true (VStr "  Hello Ana  "))
                  scenarioTicket {| name := VStr "Ana"; email := VStr "a@x.com" |} VNull []));
    reflexivity.
Defined.


End StepFacts.
(* ================================================================== *)
(** * The pipeline of the agent with the customer normaliser *)
(* ================================================================== *)

Module PipelineFacts.
Import JS Effects Data Spec Props JSFacts MonadFacts StepFacts.

(** What a returned result was built from. *)
Lemma pipelineSteps_Return_inv (P : Platform) (ticket : value) (opts : PipelineOptions)
    (tr tr' : trace) (r : PipelineResult) :
  Agent.pipelineSteps P ticket opts tr = (Return r, tr') ->
  exists cust context aiResponse slackInfo responsePreview emailedFlag tr1 tr2 tr3 tr4,
    Agent.normalizeCustomer P ticket = Return cust /\
    Agent.storeTicketInDoc P ticket cust tr = (Return tt, tr1) /\
    Agent.resolveResponse P ticket cust context opts tr1 = (Return aiResponse, tr2) /\
    (if negb (skipEmail opts)
     then Agent.sendGmailResponse P ticket cust aiResponse
     else ret tt) tr2 = (Return tt, tr3) /\
    Agent.notifySlackChannel P ticket cust aiResponse None tr3 = (Return slackInfo, tr4) /\
    Agent.updateKnowledgeBase P ticket aiResponse tr4 = (Return tt, tr') /\
    emailedOf (skipEmail opts) aiResponse = Return emailedFlag /\
    callSlice (jor aiResponse (VStr "")) 180 = Return responsePreview /\
    ok r = true /\
    used_ai r = negb (skipAI opts) && negb (truthy (draftText opts)) /\
    emailed r = emailedFlag /\
    response_preview (summary r) = responsePreview /\
    (exists text,
       toString (Number_toString P) (firstMessage ticket) = Return text /\
       message_preview (summary r) = take 180 text) /\
    customer (summary r) = cust /\
    printable (getOpt ticket "id") = true /\
    printable (getOpt ticket "source") = true.
Proof.
  intros H. unfold Agent.pipelineSteps in H. cbv zeta in H.
  bind_inv H as logged tr00 E00. apply lift_inv in E00 as [Hlog ->].
  apply template_Return_builds in Hlog.
  cbn [forallb pieceBuilds andb] in Hlog. rewrite andb_true_r in Hlog.
  apply andb_prop in Hlog as [Hid Hsource].
  bind_inv H as cust tr0 E0. apply lift_inv in E0 as [Hcust ->].
  bind_inv H as u1 tr1 E1. destruct u1.
  bind_inv H as context tr1' E2. apply ret_inv in E2 as [<- ->].
  bind_inv H as aiResponse tr2 E3.
  bind_inv H as u2 tr3 E4. destruct u2.
  bind_inv H as slackInfo tr4 E5.
  bind_inv H as u3 tr5 E6. destruct u3.
  bind_inv H as emailedFlag tr6 E7. apply lift_inv in E7 as [Hem ->].
  bind_inv H as messagePreview tr8 E9. apply lift_inv in E9 as [Hmp ->].
  bind_inv H as responsePreview tr7 E8. apply lift_inv in E8 as [Hrp ->].
  apply ret_inv in H as [<- ->].
  exists cust. eexists. exists aiResponse, slackInfo, responsePreview, emailedFlag.
  exists tr1, tr2, tr3, tr4.
  cbn [ok used_ai emailed summary response_preview message_preview customer].
  repeat split; eauto.
  destruct (toString (Number_toString P) (firstMessage ticket)) as [text|e];
    [|discriminate].
  exists text. split; [reflexivity|]. now injection Hmp as <-.
Qed.

(** [processTicket] returns exactly what its [try] block returns. *)
Lemma processTicket_Return_iff (P : Platform) (ticket : value) (opts : PipelineOptions)
    (tr tr' : trace) (r : PipelineResult) :
  Agent.processTicket P ticket opts tr = (Return r, tr') <->
  Agent.pipelineSteps P ticket opts tr = (Return r, tr').
Proof.
  unfold Agent.processTicket, tryCatch at 1.
  destruct (Agent.pipelineSteps P ticket opts tr) as [[r0|e] tr0]; [tauto|].
  split; [|discriminate].
  intros H. unfold bind, throw in H.
  match type of H with
  | context [tryCatch ?m ?h tr0] => destruct (tryCatch m h tr0) as [[u|e'] tr1]
  end; discriminate.
Qed.

(** What the [catch] block of [processTicket] does with the error [e] of
    its [try] block: the error is raised again, after at most one chat
    post; after exactly one when the customer can be normalised and the
    texts of the error notification can be built, after none when
    normalising raises. *)
Lemma processTicket_catch (P : Platform) (ticket : value) (opts : PipelineOptions)
    (tr tr1 : trace) (e : exn) :
  Agent.pipelineSteps P ticket opts tr = (Throw e, tr1) ->
  exists new,
    Agent.processTicket P ticket opts tr = (Throw e, (tr1 ++ new)%list) /\
    forallb isSlackPost new = true /\
    List.length new <= 1 /\
    (forall cust,
       Agent.normalizeCustomer P ticket = Return cust ->
       printableCustomer cust = true ->
       printable (getOpt ticket "id") = true ->
       printable (getOpt ticket "subject") = true ->
       List.length new = 1) /\
    (forall e', Agent.normalizeCustomer P ticket = Throw e' -> new = []).
Proof.
  intros H. unfold Agent.processTicket. rewrite (tryCatch_Throw _ _ _ _ _ H).
  unfold bind at 1, tryCatch, bind at 1, lift, throw.
  destruct (Agent.normalizeCustomer P ticket) as [cust|e0] eqn:Hcust.
  - destruct (notifySlackChannel_error_posts P ticket cust VNull e tr1)
      as (o & new & Hrun & Hall & Hone & Hsome).
    unfold bind, ret. rewrite Hrun.
    exists new. split; [now destruct o|]. split; [exact Hall|].
    split; [exact Hone|]. split; [|discriminate].
    intros cust0 [= <-]. exact Hsome.
  - exists []. rewrite app_nil_r. split; [reflexivity|]. split; [reflexivity|].
    split; [simpl; lia|]. split; [discriminate|reflexivity].
Qed.

(** The manual route answers with the result of the pipeline, or with
    the [ok: false] shape when the pipeline raised. *)
Lemma postProcessTicket_eq (P : Platform) (req : Request) (tr : trace) :
  Agent.postProcessTicket P req tr =
  match Agent.processTicket P (routeBody req) (routeOptions req) tr with
  | (Return r, tr') => (Return (Json200 r), tr')
  | (Throw e, tr') => (Return (Json500 false (errorText e)), tr')
  end.
Proof.
  unfold Agent.postProcessTicket. cbv zeta.
  assert (Hn : nullish (jor (body req) (VObj [])) = false).
  { unfold jor. destruct (truthy (body req)) eqn:E; [|reflexivity].
    now apply truthy_not_nullish. }
  rewrite !(get_not_nullish _ _ Hn).
  unfold tryCatch, bind, lift, ret, routeOptions, routeBody, flagSet.
  destruct (Agent.processTicket P _ _ tr) as [[r|e] tr']; reflexivity.
Qed.

(** C9.  [processTicket] either raises or returns a result whose [ok] is
    [true]; and the manual route answers [200] with that result, or [500]
    with [ok: false], the latter exactly when the pipeline raised. *)
Theorem processTicket_raises_or_ok (P : Platform) :
  (forall ticket opts tr,
     (exists e tr', Agent.processTicket P ticket opts tr = (Throw e, tr')) \/
     (exists r tr', Agent.processTicket P ticket opts tr = (Return r, tr') /\ ok r = true)) /\
  (forall req tr,
     (exists r tr',
        Agent.processTicket P (routeBody req) (routeOptions req) tr = (Return r, tr') /\
        Agent.postProcessTicket P req tr = (Return (Json200 r), tr') /\
        ok r = true) \/
     (exists e tr',
        Agent.processTicket P (routeBody req) (routeOptions req) tr = (Throw e, tr') /\
        Agent.postProcessTicket P req tr = (Return (Json500 false (errorText e)), tr'))).
Proof.
  assert (Hok : forall ticket opts tr r tr',
             Agent.processTicket P ticket opts tr = (Return r, tr') -> ok r = true).
  { intros ticket opts tr r tr' H. apply processTicket_Return_iff in H.
    apply pipelineSteps_Return_inv in H.
    destruct H as (? & ? & ? & ? & ? & ? & ? & ? & ? & ? & H). tauto. }
  split.
  - intros ticket opts tr.
    destruct (Agent.processTicket P ticket opts tr) as [[r|e] tr'] eqn:E.
    + right. exists r, tr'. split; [reflexivity|]. now apply (Hok ticket opts tr r tr').
    + left. now exists e, tr'.
  - intros req tr. rewrite postProcessTicket_eq.
    destruct (Agent.processTicket P (routeBody req) (routeOptions req) tr)
      as [[r|e] tr'] eqn:E.
    + left. exists r, tr'. repeat split. now apply (Hok _ _ _ _ _ E).
    + right. now exists e, tr'.
Qed.

Lemma used_ai_eq (P : Platform) (ticket : value) (opts : PipelineOptions)
    (tr tr' : trace) (r : PipelineResult) :
  Agent.processTicket P ticket opts tr = (Return r, tr') ->
  used_ai r = negb (skipAI opts) && negb (truthy (draftText opts)).
Proof.
  intros H. apply processTicket_Return_iff in H.
  apply pipelineSteps_Return_inv in H.
  destruct H as (? & ? & ? & ? & ? & ? & ? & ? & ? & ? & H).
  destruct H as (_ & _ & _ & _ & _ & _ & _ & _ & _ & Hused & _).
  exact Hused.
Qed.

(** C4.  On every returned result, [used_ai] is true if and only if
    [skipAI] is false and no draft text was supplied (the draft text is
    [null], [undefined] or empty). *)
Theorem used_ai_iff (P : Platform) (ticket : value) (opts : PipelineOptions)
    (tr tr' : trace) (r : PipelineResult) :
  Agent.processTicket P ticket opts tr = (Return r, tr') ->
  (used_ai r = true <-> skipAI opts = false /\ truthy (draftText opts) = false).
Proof.
  intros H. rewrite (used_ai_eq P ticket opts tr tr' r H).
  destruct (skipAI opts), (truthy (draftText opts)); simpl; intuition congruence.
Qed.

Lemma used_ai_iff_witness :
  exists r tr',
    Agent.processTicket (Demo.platform true (VStr "Hello Ana")) scenarioTicket
      defaultOptions [] = (Return r, tr') /\
    (used_ai r = true <->
     skipAI defaultOptions = false /\ truthy (draftText defaultOptions) = false).
Proof.
  eexists. eexists. split.
  - vm_compute. reflexivity.
  - eapply (used_ai_iff (Demo.platform true (VStr "Hello Ana")) scenarioTicket
              defaultOptions []).
    vm_compute. reflexivity.
Defined.

(** ** The email step *)

(** C3, as amended.  In the agent with the customer normaliser, the Email
    Sender given a response text that is empty or consists only of white
    space returns without calling the mail-send capability: no call is
    added to the trace. *)
Theorem sendGmailResponse_blank_response (P : Platform) (ticket : value)
    (cust : Customer) (s : string) (tr : trace) :
  allSpace s = true ->
  Agent.sendGmailResponse P ticket cust (VStr s) tr = (Return tt, tr).
Proof.
  intros Hblank. unfold Agent.sendGmailResponse, tryCatch.
  destruct (truthy (VStr s)) eqn:E; cbn [negb]; [|reflexivity].
  unfold bind, lift. cbn [callTrim]. now rewrite (trim_allSpace s Hblank).
Qed.

Lemma sendGmailResponse_blank_response_witness :
  Agent.sendGmailResponse (Demo.platform true VNull) scenarioTicket
    {| name := VStr "Ana"; email := VStr "a@x.com" |} (VStr "   ") [] = (Return tt, []).
Proof.
  apply (sendGmailResponse_blank_response (Demo.platform true VNull)).
  reflexivity.
Defined.

(** C3 as stated fails on [n8n customer support agent.js], whose Email
    Sender has no such guard: an empty response is mailed. *)
Lemma n8n_sendGmailResponse_empty_is_sent :
  allSpace "" = true /\
  count isGmailSend
    (snd (N8n.sendGmailResponse (Demo.platform true VNull) scenarioTicket (VStr "") [])) = 1.
Proof. split; reflexivity. Qed.

(** ** Response resolution *)

Lemma agent_generateAIResponse_string (P : Platform) (ticket : value) (cust : Customer)
    (context v : value) (tr tr' : trace) :
  Agent.generateAIResponse P ticket cust context tr = (Return v, tr') ->
  exists s, v = VStr s.
Proof.
  intros H. unfold Agent.generateAIResponse in H.
  bind_inv H as prompt tr0 E0.
  unfold tryCatch in H.
  match type of H with
  | (match ?m with _ => _ end) = _ => destruct m as [[x|e] tr1] eqn:E1
  end.
  - injection H as <- <-.
    bind_inv E1 as completion tr2 E2.
    bind_inv E1 as choices tr3 E3.
    bind_inv E1 as response tr4 E4.
    apply ret_inv in E1 as [<- _]. now exists response.
  - apply ret_inv in H as [<- _]. now exists "".
Qed.

Lemma agent_resolveResponse_cases (P : Platform) (ticket : value) (cust : Customer)
    (context : value) (opts : PipelineOptions) (v : value) (tr tr' : trace) :
  Agent.resolveResponse P ticket cust context opts tr = (Return v, tr') ->
  (truthy (draftText opts) = true /\ v = draftText opts) \/ exists s, v = VStr s.
Proof.
  unfold Agent.resolveResponse.
  destruct (truthy (draftText opts)) eqn:Hd; cbn [negb].
  - intros H. apply ret_inv in H as [<- _]. now left.
  - destruct (skipAI opts); cbn [negb]; intros H.
    + apply ret_inv in H as [<- _]. right. now exists "".
    + right. now apply (agent_generateAIResponse_string P ticket cust context v tr tr').
Qed.

Lemma n8n_pipelineSteps_Return_inv (P : Platform) (ticket : value) (opts : PipelineOptions)
    (tr tr' : trace) (r : PipelineResult) :
  N8n.pipelineSteps P ticket opts tr = (Return r, tr') ->
  exists context aiResponse tr1 tr2,
    N8n.resolveResponse P ticket context opts tr1 = (Return aiResponse, tr2) /\
    callSlice (jor aiResponse (VStr "")) 180 = Return (response_preview (summary r)) /\
    ok r = true /\
    used_ai r = negb (skipAI opts) && negb (truthy (draftText opts)) /\
    emailed r = negb (skipEmail opts).
Proof.
  intros H. unfold N8n.pipelineSteps in H. cbv zeta in H.
  bind_inv H as logged tr0 E0.
  bind_inv H as u1 tr1 E1.
  bind_inv H as context tr1' E2. apply ret_inv in E2 as [<- ->].
  bind_inv H as aiResponse tr2 E3.
  bind_inv H as u2 tr3 E4.
  bind_inv H as slackInfo tr4 E5.
  bind_inv H as u3 tr5 E6.
  bind_inv H as messagePreview tr6 E7.
  bind_inv H as responsePreview tr7 E8. apply lift_inv in E8 as [Hrp ->].
  apply ret_inv in H as [<- ->].
  eexists. exists aiResponse, tr1, tr2.
  cbn [ok used_ai emailed summary response_preview].
  repeat split; eauto.
Qed.

Lemma n8n_processTicket_Return_iff (P : Platform) (ticket : value) (opts : PipelineOptions)
    (tr tr' : trace) (r : PipelineResult) :
  N8n.processTicket P ticket opts tr = (Return r, tr') <->
  N8n.pipelineSteps P ticket opts tr = (Return r, tr').
Proof.
  unfold N8n.processTicket, tryCatch at 1.
  destruct (N8n.pipelineSteps P ticket opts tr) as [[r0|e] tr0]; [tauto|].
  split; [|discriminate].
  intros H. unfold bind, throw in H.
  match type of H with
  | context [tryCatch ?m ?h tr0] => destruct (tryCatch m h tr0) as [[u|e'] tr1]
  end; discriminate.
Qed.

Lemma emailedOf_true (skip : bool) (aiResponse : value) :
  emailedOf skip aiResponse = Return true ->
  skip = false /\ exists s, aiResponse = VStr s /\ allSpace s = false.
Proof.
  unfold emailedOf. destruct skip; cbn [negb]; [discriminate|].
  destruct (truthy aiResponse) eqn:Ht; [|discriminate].
  destruct aiResponse; try discriminate. cbn [callTrim obind].
  intros H. injection H as H. split; [reflexivity|].
  exists s. split; [reflexivity|].
  destruct (allSpace s) eqn:E; [|reflexivity].
  rewrite (trim_allSpace s E) in H. discriminate.
Qed.

(** C2, as amended.  In the agent with the customer normaliser, a returned
    result has [emailed] true only if [skipEmail] is false and the
    resolved response is a text with a character that is not white space.
    In [n8n customer support agent.js], [emailed] is the negation of
    [skipEmail], whatever the resolved response. *)
Theorem emailed_only_if (P : Platform) (ticket : value) (opts : PipelineOptions)
    (tr tr' : trace) (r : PipelineResult) :
  (Agent.processTicket P ticket opts tr = (Return r, tr') ->
   emailed r = true ->
   skipEmail opts = false /\
   exists cust context tr1 tr2 s,
     Agent.normalizeCustomer P ticket = Return cust /\
     Agent.resolveResponse P ticket cust context opts tr1 = (Return (VStr s), tr2) /\
     allSpace s = false /\
     response_preview (summary r) = VStr (take 180 s)) /\
  (N8n.processTicket P ticket opts tr = (Return r, tr') ->
   emailed r = negb (skipEmail opts)).
Proof.
  split.
  - intros H Hem. apply processTicket_Return_iff in H.
    apply pipelineSteps_Return_inv in H.
    destruct H as (cust & context & ai & slackInfo & rp & flag & tr1 & tr2 & tr3 & tr4 & H).
    destruct H as (Hcust & _ & Hres & _ & _ & _ & Hflag & Hrp & _ & _ & Hemailed & Hprev & _).
    rewrite Hemailed in Hem. rewrite Hem in Hflag.
    apply emailedOf_true in Hflag as (Hskip & s & -> & Hs).
    split; [exact Hskip|].
    exists cust, context, tr1, tr2, s. repeat split; auto.
    rewrite Hprev.
    (* the response is not empty *)
    destruct s as [|c rest]; [discriminate Hs|].
    cbn [jor truthy String.eqb negb callSlice] in Hrp. now injection Hrp as <-.
  - intros H. apply n8n_processTicket_Return_iff in H.
    apply n8n_pipelineSteps_Return_inv in H.
    destruct H as (? & ? & ? & ? & _ & _ & _ & _ & H). exact H.
Qed.

Lemma emailed_only_if_witness :
  exists r tr',
    Agent.processTicket (Demo.platform true (VStr "Hello Ana")) scenarioTicket
      defaultOptions [] = (Return r, tr') /\
    emailed r = true /\
    skipEmail defaultOptions = false /\
    response_preview (summary r) = VStr "Hello Ana".
Proof.
  eexists. eexists. split; [vm_compute; reflexivity|].
  split; [reflexivity|].
  split; [|reflexivity].
  eapply (proj1 (emailed_only_if (Demo.platform true (VStr "Hello Ana")) scenarioTicket
                   defaultOptions [] _ _)).
  - vm_compute. reflexivity.
  - reflexivity.
Defined.

(** C2 as stated fails on [n8n customer support agent.js]: with a draft of
    two spaces the result says [emailed] although the resolved response
    consists only of white space. *)
Lemma n8n_emailed_with_blank_response :
  exists r tr',
    N8n.processTicket (Demo.platform true (VStr "Hello Ana")) scenarioTicket
      {| skipEmail := false; skipAI := false; draftText := VStr "  " |} [] =
    (Return r, tr') /\
    emailed r = true /\
    response_preview (summary r) = VStr "  " /\
    allSpace "  " = true.
Proof.
  eexists. eexists. split; [vm_compute; reflexivity|].
  repeat split.
Qed.

(** ** Previews and excerpts *)

Lemma jsLength_callSlice (v r : value) (n : nat) :
  callSlice v n = Return r -> jsLength r <= n.
Proof.
  destruct v; cbn [callSlice]; intros H; try discriminate; injection H as <-;
    cbn [jsLength].
  - apply length_take.
  - apply firstn_le_length.
Qed.

Lemma length_chatPreviewOf (s : string) : String.length (chatPreviewOf s) <= 203.
Proof.
  unfold chatPreviewOf. rewrite length_append.
  pose proof (length_take 200 s).
  destruct (200 <? String.length s)%nat;
    [change (String.length "...") with 3|change (String.length "") with 0]; lia.
Qed.

Lemma chatPreviewOf_short (s : string) :
  String.length s <= 200 -> chatPreviewOf s = s.
Proof.
  intros H. unfold chatPreviewOf. rewrite (take_all 200 s H).
  apply Nat.ltb_ge in H. rewrite H.
  clear H. induction s as [|c rest IH]; simpl; [reflexivity|]. now rewrite IH.
Qed.

Lemma length_excerptShown (excerpt : string) :
  String.length excerpt <= 500 -> String.length (excerptShown excerpt) <= 500.
Proof.
  intros H. unfold excerptShown. destruct (String.eqb excerpt ""); [simpl; lia|exact H].
Qed.

(** The text of a placeholder-or-excerpt substitution. *)
Lemma toString_excerpt (num : Z -> string) (excerpt : string) :
  toString num (jor (VStr excerpt) (VStr "_No message body_")) =
  Return (excerptShown excerpt).
Proof.
  unfold jor, excerptShown. cbn [truthy]. now destruct (String.eqb excerpt "").
Qed.

Section Previews.

Variable P : Platform.

Lemma n8n_preview_string (s : string) :
  N8n.preview P (VStr s) = Return (chatPreviewOf s).
Proof.
  unfold N8n.preview, chatPreviewOf, jor.
  destruct (truthy (VStr s)) eqn:E; cbn [callSlice obind toString jsLength].
  - reflexivity.
  - apply truthy_VStr in E. now subst s.
Qed.

Lemma n8n_preview_array (items : list value) :
  N8n.preview P (VArr items) =
  let? text := toString (Number_toString P) (VArr (firstn 200 items)) in
  Return (text ++ (if (200 <? List.length items)%nat then "..." else "")).
Proof. reflexivity. Qed.

Lemma n8n_preview_sliceable (response : value) (p : string) :
  truthy response = true ->
  N8n.preview P response = Return p -> sliceable response = true.
Proof.
  intros Ht. unfold N8n.preview. rewrite (jor_truthy _ _ Ht).
  destruct response; cbn [callSlice obind]; try discriminate; reflexivity.
Qed.

Lemma customerMessage_length (ticket : value) (excerpt : string) :
  Agent.customerMessage P ticket = Return excerpt -> String.length excerpt <= 500.
Proof.
  unfold Agent.customerMessage.
  destruct (toString _ (firstMessage ticket)) as [text|e]; [|discriminate].
  change (Return (take 500 text) = Return excerpt -> String.length excerpt <= 500).
  intros H. apply Return_inj in H. subst excerpt. apply length_take.
Qed.

(** The blocks of a ticket notification of the agent: the ticket, and the
    customer message. *)
Lemma agent_message_blocks (ticket : value) (cl el text : string) (blocks : list block) :
  Agent.message P ticket cl el None = Return (text, blocks) ->
  exists excerpt b1,
    Agent.customerMessage P ticket = Return excerpt /\
    blocks = [b1; SectionBlock ("*Customer Message:*" ++ nl ++ excerptShown excerpt)].
Proof.
  unfold Agent.message.
  destruct (Agent.customerMessage P ticket) as [excerpt|e]; [|discriminate].
  cbn [obind].
  destruct (template _ _) as [text0|e]; [|discriminate]. cbn [obind].
  destruct (template _ _) as [block|e]; [|discriminate]. cbn [obind].
  cbn [template obind]. rewrite toString_excerpt. cbn [obind].
  intros [= <- <-]. exists excerpt. eexists. split; [reflexivity|].
  now rewrite append_empty_r.
Qed.

(** A notification without error either adds no call, or starts with the
    parent post, whose second block shows the customer message. *)
Lemma agent_notify_parent_post (ticket : value) (cust : Customer) (response : value)
    (tr : trace) :
  snd (Agent.notifySlackChannel P ticket cust response None tr) = tr \/
  exists excerpt text b1 rest,
    Agent.customerMessage P ticket = Return excerpt /\
    snd (Agent.notifySlackChannel P ticket cust response None tr) =
    (tr ++ SlackPost (env P "SLACK_SUPPORT_CHANNEL_ID") None text
             [b1; SectionBlock ("*Customer Message:*" ++ nl ++ excerptShown excerpt)]
           :: rest)%list.
Proof.
  destruct (printableCustomer cust) eqn:Hcust.
  - destruct (notifySlackChannel_cases P ticket cust response None tr Hcust)
      as (cl & el & _ & _ & [[_ Hrun]|(text & blocks & result & Hmsg & H)]).
    + left. now rewrite Hrun.
    + right. destruct (agent_message_blocks _ _ _ _ _ Hmsg) as (excerpt & b1 & Hex & ->).
      exists excerpt, text, b1. cbv zeta in H.
      destruct H as [[Hrun _]|(post & ts & fullText & _ & _ & _ & _ & _ & Hrun & _)];
        rewrite Hrun; cbn [snd]; eexists; (split; [exact Hex|reflexivity]).
  - destruct (notifySlackChannel_raises P ticket cust response None tr Hcust) as [e Hrun].
    left. now rewrite Hrun.
Qed.

(** The message that was built is the message posted. *)
Lemma agent_notify_posts_message (ticket : value) (cust : Customer) (response : value)
    (cl el text : string) (blocks : list block) (tr : trace) :
  Agent.customerLine P cust = Return cl ->
  Agent.emailLine P cust = Return el ->
  Agent.message P ticket cl el None = Return (text, blocks) ->
  exists rest,
    snd (Agent.notifySlackChannel P ticket cust response None tr) =
    (tr ++ SlackPost (env P "SLACK_SUPPORT_CHANNEL_ID") None text blocks :: rest)%list.
Proof.
  intros Hcl Hel Hmsg.
  assert (Hcust : printableCustomer cust = true).
  { rewrite <- (returns_customerLines P). now rewrite Hcl, Hel. }
  destruct (notifySlackChannel_cases P ticket cust response None tr Hcust)
    as (cl' & el' & Hcl' & Hel' & H).
  rewrite Hcl in Hcl'. rewrite Hel in Hel'.
  apply Return_inj in Hcl', Hel'. subst cl' el'.
  destruct H as [[Hr _]|(text' & blocks' & result & Hmsg' & H)].
  - rewrite Hmsg in Hr. discriminate.
  - rewrite Hmsg in Hmsg'. apply Return_inj in Hmsg'. injection Hmsg' as <- <-.
    cbv zeta in H.
    destruct H as [[Hrun _]|(post & ts & fullText & _ & _ & _ & _ & _ & Hrun & _)];
      rewrite Hrun; cbn [snd]; eexists; reflexivity.
Qed.

(** The blocks of a ticket notification of [n8n customer support
    agent.js] for a response that is not empty: the ticket, the customer
    message, the response preview, and the buttons. *)
Lemma n8n_message_blocks (ticket response short : value) (replyUrl conversationUrl : option string)
    (text : string) (blocks : list block) :
  truthy response = true ->
  N8n.message P ticket response None short replyUrl conversationUrl = Return (text, blocks) ->
  exists p shown b1 more,
    N8n.preview P response = Return p /\
    toString (Number_toString P) (jor short (VStr "_No message body_")) = Return shown /\
    blocks = b1 :: SectionBlock ("*Customer Message:*" ++ nl ++ shown)
                :: SectionBlock ("*Response Preview:*" ++ nl ++ p) :: more.
Proof.
  intros Ht. unfold N8n.message. rewrite Ht.
  destruct (N8n.preview P response) as [p|e]; [|discriminate]. cbn [obind].
  destruct (template _ _) as [block|e]; [|discriminate]. cbn [obind].
  cbn [template obind].
  destruct (toString _ (jor short _)) as [shown|e]; [|discriminate].
  cbn [obind toString].
  intros H. exists p, shown.
  assert (Hblocks : exists text' blocks',
             Return (text', blocks') = Return (text, blocks) /\
             exists b1 more,
               blocks' = b1 :: SectionBlock ("*Customer Message:*" ++ nl ++ shown)
                            :: SectionBlock ("*Response Preview:*" ++ nl ++ p) :: more).
  { rewrite !append_empty_r in H.
    destruct (truthy (getOpt ticket "id")); cbn [template obind] in H;
      [destruct (toString _ (getOpt ticket "id")) as [id|e]; [|discriminate];
       cbn [obind toString] in H|];
      do 2 eexists; (split; [exact H|]); do 2 eexists; reflexivity. }
  destruct Hblocks as (text' & blocks' & Heq & b1 & more & Hb).
  apply Return_inj in Heq. injection Heq as _ <-.
  exists b1, more. split; [reflexivity|]. split; [reflexivity|exact Hb].
Qed.

Lemma n8n_notify_parent_post (ticket response : value) (tr : trace) :
  truthy response = true ->
  snd (N8n.notifySlackChannel P ticket response None tr) = tr \/
  exists short shown p text b1 more rest,
    callSlice (N8n.customerMessageRaw ticket) 500 = Return short /\
    toString (Number_toString P) (jor short (VStr "_No message body_")) = Return shown /\
    N8n.preview P response = Return p /\
    snd (N8n.notifySlackChannel P ticket response None tr) =
    (tr ++ SlackPost (env P "SLACK_SUPPORT_CHANNEL_ID") None text
             (b1 :: SectionBlock ("*Customer Message:*" ++ nl ++ shown)
                 :: SectionBlock ("*Response Preview:*" ++ nl ++ p) :: more)
           :: rest)%list.
Proof.
  intros Ht.
  remember (N8n.notifySlackChannel P ticket response None tr) as run eqn:Hrun.
  unfold N8n.notifySlackChannel in Hrun. cbv zeta in Hrun.
  unfold bind at 1, lift at 1 in Hrun.
  destruct (callSlice (N8n.customerMessageRaw ticket) 500) as [short|e0];
    [|left; now subst run].
  unfold bind at 1, lift at 1 in Hrun.
  destruct (N8n.replyUrl P ticket) as [replyUrl|e1]; [|left; now subst run].
  unfold bind at 1, lift at 1 in Hrun.
  destruct (N8n.conversationUrl P ticket) as [conversationUrl|e2]; [|left; now subst run].
  unfold tryCatch in Hrun. unfold bind at 1, lift at 1 in Hrun.
  destruct (N8n.message P ticket response None short replyUrl conversationUrl)
    as [[text blocks]|e3] eqn:Hmsg; [|left; now subst run].
  right.
  destruct (n8n_message_blocks _ _ _ _ _ _ _ Ht Hmsg) as (p & shown & b1 & more & Hp & Hs & ->).
  exists short, shown, p, text, b1, more.
  cbn [fst snd] in Hrun. unfold bind, lift, call, ret in Hrun. cbn [fst snd] in Hrun.
  rewrite Ht in Hrun.
  destruct (respond P tr _) as [post|e4];
    [|exists []; subst run; repeat split; auto].
  destruct (get post "ts" ||| _) as [ts|e5];
    [|exists []; subst run; repeat split; auto].
  destruct (N8n.full P response) as [fullText|e6];
    [|exists []; subst run; repeat split; auto].
  eexists.
  destruct (respond P _ _) as [post2|e7]; subst run; cbn [snd];
    rewrite <- app_assoc; repeat split; auto.
Qed.

Lemma n8n_notify_posts_message (ticket response short : value)
    (replyUrl conversationUrl : option string) (text : string) (blocks : list block)
    (tr : trace) :
  callSlice (N8n.customerMessageRaw ticket) 500 = Return short ->
  N8n.replyUrl P ticket = Return replyUrl ->
  N8n.conversationUrl P ticket = Return conversationUrl ->
  N8n.message P ticket response None short replyUrl conversationUrl =
  Return (text, blocks) ->
  exists rest,
    snd (N8n.notifySlackChannel P ticket response None tr) =
    (tr ++ SlackPost (env P "SLACK_SUPPORT_CHANNEL_ID") None text blocks :: rest)%list.
Proof.
  intros Hshort Hreply Hconv Hmsg.
  unfold N8n.notifySlackChannel. cbv zeta.
  unfold bind at 1, lift at 1. rewrite Hshort.
  unfold bind at 1, lift at 1. rewrite Hreply.
  unfold bind at 1, lift at 1. rewrite Hconv.
  unfold tryCatch. unfold bind at 1, lift at 1. rewrite Hmsg.
  cbn [fst snd]. unfold bind, lift, call, ret. cbn [fst snd].
  destruct (respond P tr _) as [post|e4]; [|now exists []].
  destruct (get post "ts" ||| _) as [ts|e5]; [|now exists []].
  destruct (truthy response); [|now exists []].
  destruct (N8n.full P response) as [fullText|e6]; [|now exists []].
  eexists.
  destruct (respond P _ _) as [post2|e7]; cbn [snd]; rewrite <- app_assoc; reflexivity.
Qed.

(** The excerpt of [n8n customer support agent.js]: the first 500
    characters of a text, the first 500 items of an array. *)
Lemma n8n_excerpt (ticket short : value) :
  callSlice (N8n.customerMessageRaw ticket) 500 = Return short ->
  jsLength short <= 500 /\
  (forall s, firstMessage ticket = VStr s ->
             toString (Number_toString P) (jor short (VStr "_No message body_")) =
             Return (excerptShown (take 500 s)) /\
             String.length (excerptShown (take 500 s)) <= 500).
Proof.
  intros H. split; [now apply (jsLength_callSlice _ _ _ H)|].
  intros s Hs. unfold N8n.customerMessageRaw in H. rewrite Hs in H.
  assert (Hshort : short = VStr (take 500 s)).
  { unfold jor in H. destruct (truthy (VStr s)) eqn:E; cbn [callSlice] in H.
    - now injection H.
    - apply truthy_VStr in E. subst s. now injection H. }
  subst short. split; [apply toString_excerpt|].
  apply length_excerptShown, length_take.
Qed.

End Previews.

(** C5, as amended.  The [response_preview] of a returned result has
    length at most 180 in both revisions; it is a text or an array, and in
    the agent with the customer normaliser a text unless the draft text
    was an array.  The response preview of a chat notification, which only
    [n8n customer support agent.js] posts, is for a text the first 200
    characters followed by a three-character ellipsis when the response
    is longer, hence at most 203 characters, and at most 200 when nothing
    was cut; for an array it is the comma-join of the first 200 items,
    which the bound does not cover; another truthy response has no
    preview.  The customer message shown in a chat notification has at
    most 500 characters in the agent with the customer normaliser, and in
    [n8n customer support agent.js] when the body of the first message is
    a text; when that body is an array, the latter shows the comma-join of
    its first 500 items.  In both revisions the message built with these
    texts is the one posted. *)
Theorem preview_lengths (P : Platform) :
  (forall ticket opts tr r tr',
     Agent.processTicket P ticket opts tr = (Return r, tr') \/
     N8n.processTicket P ticket opts tr = (Return r, tr') ->
     jsLength (response_preview (summary r)) <= 180 /\
     sliceable (response_preview (summary r)) = true) /\
  (forall ticket opts tr r tr',
     Agent.processTicket P ticket opts tr = (Return r, tr') ->
     (forall items, draftText opts <> VArr items) ->
     isString (response_preview (summary r)) = true) /\
  (forall s,
     N8n.preview P (VStr s) = Return (chatPreviewOf s) /\
     String.length (chatPreviewOf s) <= 203 /\
     (String.length s <= 200 -> chatPreviewOf s = s)) /\
  (forall items,
     N8n.preview P (VArr items) =
     let? text := toString (Number_toString P) (VArr (firstn 200 items)) in
     Return (text ++ (if (200 <? List.length items)%nat then "..." else ""))) /\
  (exists p,
     N8n.preview P (VArr [VStr (padding 300 "a")]) = Return p /\ String.length p = 300) /\
  (forall response p,
     truthy response = true ->
     N8n.preview P response = Return p -> sliceable response = true) /\
  (forall ticket response tr,
     truthy response = true ->
     snd (N8n.notifySlackChannel P ticket response None tr) = tr \/
     exists short shown p text b1 more rest,
       callSlice (N8n.customerMessageRaw ticket) 500 = Return short /\
       toString (Number_toString P) (jor short (VStr "_No message body_")) = Return shown /\
       N8n.preview P response = Return p /\
       snd (N8n.notifySlackChannel P ticket response None tr) =
       (tr ++ SlackPost (env P "SLACK_SUPPORT_CHANNEL_ID") None text
                (b1 :: SectionBlock ("*Customer Message:*" ++ nl ++ shown)
                    :: SectionBlock ("*Response Preview:*" ++ nl ++ p) :: more)
              :: rest)%list) /\
  (forall ticket response short replyUrl conversationUrl text blocks tr,
     callSlice (N8n.customerMessageRaw ticket) 500 = Return short ->
     N8n.replyUrl P ticket = Return replyUrl ->
     N8n.conversationUrl P ticket = Return conversationUrl ->
     N8n.message P ticket response None short replyUrl conversationUrl =
     Return (text, blocks) ->
     exists rest,
       snd (N8n.notifySlackChannel P ticket response None tr) =
       (tr ++ SlackPost (env P "SLACK_SUPPORT_CHANNEL_ID") None text blocks :: rest)%list) /\
  (forall ticket short,
     callSlice (N8n.customerMessageRaw ticket) 500 = Return short ->
     jsLength short <= 500 /\
     (forall s, firstMessage ticket = VStr s ->
                toString (Number_toString P) (jor short (VStr "_No message body_")) =
                Return (excerptShown (take 500 s)) /\
                String.length (excerptShown (take 500 s)) <= 500)) /\
  (exists short shown,
     callSlice
       (N8n.customerMessageRaw
          (VObj [("messages", VArr [VObj [("body", VArr [VStr (padding 600 "a")])]])]))
       500 = Return short /\
     toString (Number_toString P) (jor short (VStr "_No message body_")) = Return shown /\
     String.length shown = 600) /\
  (forall ticket excerpt,
     Agent.customerMessage P ticket = Return excerpt ->
     String.length excerpt <= 500 /\ String.length (excerptShown excerpt) <= 500) /\
  (forall ticket cust response tr,
     snd (Agent.notifySlackChannel P ticket cust response None tr) = tr \/
     exists excerpt text b1 rest,
       Agent.customerMessage P ticket = Return excerpt /\
       snd (Agent.notifySlackChannel P ticket cust response None tr) =
       (tr ++ SlackPost (env P "SLACK_SUPPORT_CHANNEL_ID") None text
                [b1; SectionBlock ("*Customer Message:*" ++ nl ++ excerptShown excerpt)]
              :: rest)%list) /\
  (forall ticket cust response cl el text blocks tr,
     Agent.customerLine P cust = Return cl ->
     Agent.emailLine P cust = Return el ->
     Agent.message P ticket cl el None = Return (text, blocks) ->
     exists rest,
       snd (Agent.notifySlackChannel P ticket cust response None tr) =
       (tr ++ SlackPost (env P "SLACK_SUPPORT_CHANNEL_ID") None text blocks :: rest)%list).
Proof.
  assert (Hagent : forall ticket opts tr r tr',
             Agent.processTicket P ticket opts tr = (Return r, tr') ->
             exists ai,
               callSlice (jor ai (VStr "")) 180 = Return (response_preview (summary r)) /\
               ((truthy (draftText opts) = true /\ ai = draftText opts) \/
                exists s, ai = VStr s)).
  { intros ticket opts tr r tr' H. apply processTicket_Return_iff in H.
    apply pipelineSteps_Return_inv in H.
    destruct H as (cust & context & ai & slackInfo & rp & flag & tr1 & tr2 & tr3 & tr4 & H).
    destruct H as (_ & _ & Hres & _ & _ & _ & _ & Hrp & _ & _ & _ & Hprev & _).
    exists ai. rewrite Hprev. split; [exact Hrp|].
    now apply agent_resolveResponse_cases in Hres. }
  assert (Hslice : forall v r, callSlice v 180 = Return r ->
                               jsLength r <= 180 /\ sliceable r = true).
  { intros v r H. split; [now apply (jsLength_callSlice _ _ _ H)|].
    destruct v; cbn [callSlice] in H; try discriminate; now injection H as <-. }
  repeat apply conj.
  - intros ticket opts tr r tr' [H|H].
    + destruct (Hagent _ _ _ _ _ H) as (ai & Hrp & _). now apply (Hslice _ _ Hrp).
    + apply n8n_processTicket_Return_iff in H. apply n8n_pipelineSteps_Return_inv in H.
      destruct H as (context & ai & tr1 & tr2 & _ & Hrp & _). now apply (Hslice _ _ Hrp).
  - intros ticket opts tr r tr' H Hdraft.
    destruct (Hagent _ _ _ _ _ H) as (ai & Hrp & [[Ht ->]|[s ->]]).
    + rewrite (jor_truthy _ _ Ht) in Hrp.
      destruct (draftText opts) eqn:Ed; cbn [callSlice] in Hrp; try discriminate.
      * now injection Hrp as <-.
      * now destruct (Hdraft items).
    + unfold jor in Hrp. destruct (truthy (VStr s)); cbn [callSlice] in Hrp;
        now injection Hrp as <-.
  - intros s. split; [apply n8n_preview_string|].
    split; [apply length_chatPreviewOf|apply chatPreviewOf_short].
  - apply n8n_preview_array.
  - eexists. split; vm_compute; reflexivity.
  - apply n8n_preview_sliceable.
  - apply n8n_notify_parent_post.
  - apply n8n_notify_posts_message.
  - apply n8n_excerpt.
  - do 2 eexists. split; [reflexivity|]. split; vm_compute; reflexivity.
  - intros ticket excerpt H. pose proof (customerMessage_length P ticket excerpt H).
    split; [assumption|now apply length_excerptShown].
  - apply agent_notify_parent_post.
  - apply agent_notify_posts_message.
Qed.

Lemma preview_lengths_witness :
  exists r tr',
    Agent.processTicket (Demo.platform true (VStr (padding 300 "a"))) scenarioTicket
      defaultOptions [] = (Return r, tr') /\
    jsLength (response_preview (summary r)) <= 180.
Proof.
  eexists. eexists. split; [vm_compute; reflexivity|].
  refine (proj1 (proj1 (preview_lengths (Demo.platform true (VStr (padding 300 "a"))))
                   scenarioTicket defaultOptions [] _ _ _)).
  left. vm_compute. reflexivity.
Defined.

(** C5 as stated fails: the chat preview of a response of 201 characters
    has 203 characters. *)
Lemma n8n_preview_longer_than_200 :
  exists p,
    N8n.preview (Demo.platform true VNull) (VStr (padding 201 "a")) = Return p /\
    String.length p = 203.
Proof. eexists. split; vm_compute; reflexivity. Qed.

(** ** The failure path *)

(** A customer string that parses to [null] makes the normaliser raise, and
    the [catch] block, which normalises again, raise before the chat is
    called: an error is raised with no call made.  It is the error of the
    normaliser when the opening log line can be built. *)
Lemma processTicket_null_customer (P : Platform) (fields : list (string * value))
    (s : string) (opts : PipelineOptions) (tr : trace) :
  s <> "" ->
  lookup "customer" fields = VStr s ->
  JSON_parse P s = Some VNull ->
  exists e,
    Agent.processTicket P (VObj fields) opts tr = (Throw e, tr) /\
    (printable (lookup "id" fields) = true ->
     printable (lookup "source" fields) = true ->
     e = TypeError "Cannot read properties of null (reading 'name')").
Proof.
  intros Hs Hcust Hparse.
  pose proof (NormalizerFacts.normalizeCustomer_null_customer P (VObj fields)
                (NormalizerFacts.nestedCustomer_json_string P fields s VNull
                   Hs Hcust Hparse)) as Hnorm.
  assert (Hsteps : exists e,
             Agent.pipelineSteps P (VObj fields) opts tr = (Throw e, tr) /\
             (printable (lookup "id" fields) = true ->
              printable (lookup "source" fields) = true ->
              e = TypeError "Cannot read properties of null (reading 'name')")).
  { unfold Agent.pipelineSteps. cbv zeta. unfold bind at 1, lift at 1.
    destruct (template _ _) as [line|e0] eqn:Hline.
    - unfold bind at 1, lift at 1. rewrite Hnorm. eexists. split; [reflexivity|].
      reflexivity.
    - exists e0. split; [reflexivity|]. intros Hid Hsource.
      pose proof (returns_template (Number_toString P)
                    [Lit "Processing ticket "; Sub (Return (getOpt (VObj fields) "id"));
                     Lit " from "; Sub (Return (getOpt (VObj fields) "source"))]) as Hr.
      rewrite Hline in Hr. cbn [returns forallb pieceBuilds getOpt] in Hr.
      rewrite Hid, Hsource in Hr. discriminate. }
  destruct Hsteps as (e & Hsteps & He). exists e. split; [|exact He].
  destruct (processTicket_catch P (VObj fields) opts tr tr e Hsteps)
    as (new & Hrun & _ & _ & _ & Hnil).
  rewrite (Hnil _ Hnorm), app_nil_r in Hrun. exact Hrun.
Qed.

(** C1 fails on the ticket [{id: 'T1', customer: 'null'}]: the error of
    the normaliser is raised again, the manual route answers [500], and
    the trace stays empty although the chat is reachable: no chat error
    notification was attempted. *)
Theorem processTicket_no_notification_when_normalizer_raises :
  Agent.processTicket (Demo.platform true (VStr "Hello Ana"))
    (VObj [("id", VStr "T1"); ("customer", VStr "null")]) defaultOptions [] =
  (Throw (TypeError "Cannot read properties of null (reading 'name')"), []) /\
  Agent.postProcessTicket (Demo.platform true (VStr "Hello Ana"))
    {| body := VObj [("id", VStr "T1"); ("customer", VStr "null")];
       headers := Demo.noHeaders |} [] =
  (Return (Json500 false "Cannot read properties of null (reading 'name')"), []) /\
  count isSlackPost
    (snd (Agent.processTicket (Demo.platform true (VStr "Hello Ana"))
            (VObj [("id", VStr "T1"); ("customer", VStr "null")]) defaultOptions [])) = 0.
Proof. repeat split. Qed.

(** On a ticket whose customer can be normalised, and whose customer
    lines, id and subject have a text, the claim of C1 holds: whatever
    makes the [try] block raise, exactly one chat post follows and the same
    error is raised again. *)
Lemma processTicket_notifies_once_and_rethrows (P : Platform) (ticket : value)
    (opts : PipelineOptions) (tr tr1 : trace) (e : exn) (cust : Customer) :
  Agent.pipelineSteps P ticket opts tr = (Throw e, tr1) ->
  Agent.normalizeCustomer P ticket = Return cust ->
  printableCustomer cust = true ->
  printable (getOpt ticket "id") = true ->
  printable (getOpt ticket "subject") = true ->
  exists post,
    isSlackPost post = true /\
    Agent.processTicket P ticket opts tr = (Throw e, (tr1 ++ [post])%list).
Proof.
  intros Hsteps Hcust Hp Hid Hsubject.
  destruct (processTicket_catch P ticket opts tr tr1 e Hsteps)
    as (new & Hrun & Hall & _ & Hone & _).
  specialize (Hone cust Hcust Hp Hid Hsubject).
  destruct new as [|post [|second rest]]; try discriminate.
  exists post. split; [|exact Hrun].
  cbn [forallb] in Hall. now apply andb_prop in Hall as [Hpost _].
Qed.

(** ** The end-to-end scenarios of the specification *)

(** Scenario A: no flags, generation succeeds. *)
Example scenario_A :
  exists r tr',
    Agent.postProcessTicket (Demo.platform true (VStr "Hello Ana"))
      {| body := scenarioTicket; headers := Demo.noHeaders |} [] =
    (Return (Json200 r), tr') /\
    ok r = true /\ used_ai r = true /\ emailed r = true /\
    customer (summary r) = {| name := VStr "Ana"; email := VStr "a@x.com" |} /\
    count isGmailSend tr' = 1 /\ count isSlackPost tr' = 2.
Proof. eexists. eexists. split; [vm_compute; reflexivity|]. repeat split. Qed.

(** Scenario B: [skip_ai] and no draft. *)
Example scenario_B :
  exists r tr',
    Agent.processTicket (Demo.platform true (VStr "Hello Ana")) scenarioTicket
      {| skipEmail := false; skipAI := true; draftText := VNull |} [] =
    (Return r, tr') /\
    used_ai r = false /\ emailed r = false /\
    response_preview (summary r) = VStr "" /\
    count isCompletion tr' = 0 /\ count isGmailSend tr' = 0.
Proof. eexists. eexists. split; [vm_compute; reflexivity|]. repeat split. Qed.

(** Scenario D: every provider rejects; the pipeline still returns. *)
Example scenario_D :
  exists r tr',
    Agent.processTicket (Demo.platform false VNull) scenarioTicket defaultOptions [] =
    (Return r, tr') /\
    ok r = true /\ used_ai r = true /\ emailed r = false /\ slack r = VNull /\
    count isCompletion tr' = 1 /\ count isGmailSend tr' = 0 /\ count isSlackPost tr' = 1.
Proof. eexists. eexists. split; [vm_compute; reflexivity|]. repeat split. Qed.

End PipelineFacts.

(* ================================================================== *)
(** * The calls of a pipeline run *)
(* ================================================================== *)

Module TraceFacts.
Import JS Effects Data Spec Props JSFacts MonadFacts StepFacts.
#[local] Open Scope list_scope.

(** ** How the calls of computations compose *)

Lemma Emits_weaken {A : Type} (m : M A) (Q Q' : list event -> Prop) :
  Emits m Q -> (forall l, Q l -> Q' l) -> Emits m Q'.
Proof.
  intros Hm Himp tr. destruct (Hm tr) as (new & Hsnd & HQ).
  exists new. split; [exact Hsnd|now apply Himp].
Qed.

Lemma Emits_silent {A : Type} (m : M A) (Q : list event -> Prop) :
  (forall tr, snd (m tr) = tr) -> Q [] -> Emits m Q.
Proof.
  intros Hm HQ tr. exists []. rewrite Hm, app_nil_r. now split.
Qed.

Lemma Emits_bind {A B : Type} (m : M A) (k : A -> M B) (Q1 Q2 : list event -> Prop) :
  Emits m Q1 ->
  (forall a, Emits (k a) Q2) ->
  Q2 [] ->
  Emits (bind m k) (fun l => exists l1 l2, l = (l1 ++ l2)%list /\ Q1 l1 /\ Q2 l2).
Proof.
  intros Hm Hk Hnil tr. destruct (Hm tr) as (l1 & H1 & HQ1).
  unfold bind. destruct (m tr) as [[a|e] tr1]; cbn [snd] in H1; subst tr1.
  - destruct (Hk a (tr ++ l1)%list) as (l2 & H2 & HQ2).
    exists (l1 ++ l2)%list. rewrite H2, app_assoc. split; [reflexivity|].
    now exists l1, l2.
  - exists l1. split; [reflexivity|]. exists l1, []. now rewrite app_nil_r.
Qed.

Lemma Emits_tryCatch {A : Type} (m : M A) (h : exn -> M A)
    (Q1 Q2 : list event -> Prop) :
  Emits m Q1 ->
  (forall e, Emits (h e) Q2) ->
  Q2 [] ->
  Emits (tryCatch m h) (fun l => exists l1 l2, l = (l1 ++ l2)%list /\ Q1 l1 /\ Q2 l2).
Proof.
  intros Hm Hh Hnil tr. destruct (Hm tr) as (l1 & H1 & HQ1).
  unfold tryCatch. destruct (m tr) as [[a|e] tr1]; cbn [snd] in H1; subst tr1.
  - exists l1. split; [reflexivity|]. exists l1, []. now rewrite app_nil_r.
  - destruct (Hh e (tr ++ l1)%list) as (l2 & H2 & HQ2).
    exists (l1 ++ l2)%list. rewrite H2, app_assoc. split; [reflexivity|].
    now exists l1, l2.
Qed.

(** ** Counting calls *)

Lemma count_app (p : event -> bool) (l1 l2 : list event) :
  count p (l1 ++ l2) = count p l1 + count p l2.
Proof. unfold count. now rewrite filter_app, length_app. Qed.

Lemma count_one_same (p : event -> bool) (l : list event) :
  one p l -> count p l = List.length l /\ List.length l <= 1.
Proof.
  intros [->|(e & -> & He)]; [split; [reflexivity|simpl; lia]|].
  unfold count. simpl. rewrite He. simpl. split; [reflexivity|lia].
Qed.

Lemma count_other (p q : event -> bool) (l : list event) :
  (forall e, q e = true -> p e = false) ->
  forallb q l = true -> count p l = 0.
Proof.
  intros Hpq. unfold count. induction l as [|e rest IH]; intros Hall; [reflexivity|].
  cbn [forallb] in Hall. apply andb_prop in Hall as [He Hrest].
  cbn [filter]. rewrite (Hpq e He). now apply IH.
Qed.

Lemma one_forallb (p : event -> bool) (l : list event) : one p l -> forallb p l = true.
Proof. intros [->|(e & -> & He)]; simpl; [reflexivity|now rewrite He]. Qed.

Lemma count_all (p : event -> bool) (l : list event) :
  forallb p l = true -> count p l = List.length l.
Proof.
  unfold count. induction l as [|e rest IH]; intros Hall; [reflexivity|].
  cbn [forallb] in Hall. apply andb_prop in Hall as [He Hrest].
  cbn [filter]. rewrite He. simpl. now rewrite IH.
Qed.

Lemma ordered_app (l1 l2 : list event) :
  ordered l1 = true -> ordered l2 = true ->
  (forall a b, In a l1 -> In b l2 -> stage a <= stage b) ->
  ordered (l1 ++ l2) = true.
Proof.
  induction l1 as [|e rest IH]; intros H1 H2 Hle; [exact H2|].
  cbn [ordered app] in *. apply andb_prop in H1 as [He Hrest].
  apply andb_true_intro. split.
  - rewrite forallb_app, He. cbn [andb].
    apply forallb_forall. intros b Hb. apply Nat.leb_le.
    apply Hle; [now left|exact Hb].
  - apply IH; auto. intros a b Ha Hb. apply Hle; [now right|exact Hb].
Qed.

Lemma ordered_same_stage (n : nat) (l : list event) :
  (forall e, In e l -> stage e = n) -> ordered l = true.
Proof.
  induction l as [|e rest IH]; intros Hn; [reflexivity|].
  cbn [ordered]. apply andb_true_intro. split.
  - apply forallb_forall. intros b Hb. apply Nat.leb_le.
    rewrite (Hn e), (Hn b); [lia|now right|now left].
  - apply IH. intros b Hb. apply Hn. now right.
Qed.

Lemma stage_of_kind (p : event -> bool) (n : nat) (l : list event) :
  (forall e, p e = true -> stage e = n) ->
  forallb p l = true -> forall e, In e l -> stage e = n.
Proof.
  intros Hp Hall e He. apply Hp.
  now apply (proj1 (forallb_forall p l) Hall).
Qed.

(** The calls of a run, stage by stage. *)
Lemma staged_ordered (ld lc lg ls : list event) :
  one isDocAppend ld -> one isCompletion lc -> one isGmailSend lg ->
  forallb isSlackPost ls = true ->
  ordered (ld ++ lc ++ lg ++ ls) = true.
Proof.
  intros Hd Hc Hg Hs.
  pose proof (stage_of_kind isDocAppend 0 ld
                ltac:(intros []; simpl; congruence) (one_forallb _ _ Hd)) as Sd.
  pose proof (stage_of_kind isCompletion 1 lc
                ltac:(intros []; simpl; congruence) (one_forallb _ _ Hc)) as Sc.
  pose proof (stage_of_kind isGmailSend 2 lg
                ltac:(intros []; simpl; congruence) (one_forallb _ _ Hg)) as Sg.
  pose proof (stage_of_kind isSlackPost 3 ls
                ltac:(intros []; simpl; congruence) Hs) as Ss.
  assert (Hin : forall (l1 l2 : list event) (n : nat) b,
            (forall e, In e l1 -> n <= stage e) ->
            (forall e, In e l2 -> n <= stage e) ->
            In b (l1 ++ l2) -> n <= stage b).
  { intros l1 l2 n b H1 H2 Hb. apply in_app_or in Hb as [Hb|Hb]; auto. }
  apply ordered_app; [now apply (ordered_same_stage 0)| |].
  - apply ordered_app; [now apply (ordered_same_stage 1)| |].
    + apply ordered_app;
        [now apply (ordered_same_stage 2)|now apply (ordered_same_stage 3)|].
      intros a b Ha Hb. rewrite (Sg a Ha), (Ss b Hb). lia.
    + intros a b Ha Hb. rewrite (Sc a Ha).
      apply (Hin lg ls 1 b); auto; intros e He;
        [rewrite (Sg e He)|rewrite (Ss e He)]; lia.
  - intros a b Ha Hb. rewrite (Sd a Ha). lia.
Qed.

(** ** The calls of each step *)

Lemma resolveResponse_emits (P : Platform) (ticket : value) (cust : Customer)
    (context : value) (opts : PipelineOptions) :
  Emits (Agent.resolveResponse P ticket cust context opts)
    (fun l => one isCompletion l /\
              (truthy (draftText opts) = true \/ skipAI opts = true -> l = [])).
Proof.
  intros tr. unfold Agent.resolveResponse.
  destruct (truthy (draftText opts)) eqn:Hd; cbn [negb].
  - exists []. rewrite app_nil_r. repeat split. now left.
  - destruct (skipAI opts) eqn:Hs; cbn [negb].
    + exists []. rewrite app_nil_r. repeat split. now left.
    + destruct (generateAIResponse_cases P ticket cust context tr)
        as [(e & _ & H)|(prompt & s & _ & H & _)]; rewrite H; cbn [snd].
      * exists []. rewrite app_nil_r. repeat split. now left.
      * eexists. split; [reflexivity|]. split.
        -- right. eexists. split; reflexivity.
        -- intros [?|?]; discriminate.
Qed.

Lemma updateKnowledgeBase_silent (P : Platform) (ticket response : value) (tr : trace) :
  snd (Agent.updateKnowledgeBase P ticket response tr) = tr.
Proof.
  unfold Agent.updateKnowledgeBase, bind, lift, now, ret.
  destruct (Agent.normalizeCustomer P ticket); [|reflexivity].
  destruct (customerQuery _ _); reflexivity.
Qed.

Lemma sendStep_emits (P : Platform) (ticket : value) (cust : Customer)
    (response : value) (skip : bool) :
  Emits (if negb skip then Agent.sendGmailResponse P ticket cust response else ret tt)
    (fun l => one isGmailSend l /\ (skip = true -> l = [])).
Proof.
  destruct skip; cbn [negb].
  - apply Emits_silent; [reflexivity|]. split; [now left|reflexivity].
  - apply (Emits_weaken _ _ _ (sendGmailResponse_emits P ticket cust response)).
    intros l Hl. split; [exact Hl|discriminate].
Qed.

Ltac nil_case :=
  repeat first
    [ exists (@nil event), (@nil event)
    | split
    | reflexivity
    | (left; reflexivity)
    | (intros; reflexivity)
    | (simpl; lia) ].

(** The calls of the [try] block: an append, a completion request, a mail,
    chat posts, in this order and each stage at most once (the chat twice). *)
Lemma pipelineSteps_emits (P : Platform) (ticket : value) (opts : PipelineOptions) :
  Emits (Agent.pipelineSteps P ticket opts)
    (fun l => exists ld lc lg ls,
       l = ld ++ lc ++ lg ++ ls /\
       one isDocAppend ld /\
       (one isCompletion lc /\
        (truthy (draftText opts) = true \/ skipAI opts = true -> lc = [])) /\
       (one isGmailSend lg /\ (skipEmail opts = true -> lg = [])) /\
       forallb isSlackPost ls = true /\ List.length ls <= 2).
Proof.
  unfold Agent.pipelineSteps. cbv zeta.
  eapply Emits_weaken.
  - apply Emits_bind with (Q1 := fun l => l = []);
      [apply Emits_silent; [intros tr; unfold lift; now destruct (template _ _)|reflexivity]
      | |].
    + intros _. apply Emits_bind with (Q1 := fun l => l = []);
        [apply Emits_silent;
         [intros tr; unfold lift; now destruct (Agent.normalizeCustomer _ _)|reflexivity]
        | |].
      * intros cust. apply Emits_bind; [apply storeTicketInDoc_emits| |].
        -- intros _. apply Emits_bind with (Q1 := fun l => l = []);
             [apply Emits_silent; reflexivity| |].
           ++ intros context. apply Emits_bind; [apply resolveResponse_emits| |].
              ** intros aiResponse. apply Emits_bind; [apply sendStep_emits| |].
                 --- intros _. apply Emits_bind;
                       [apply (notifySlackChannel_emits P ticket cust aiResponse None)| |].
                     +++ intros slackInfo.
                         apply (Emits_silent _ (fun l => l = [])); [|reflexivity].
                         intros tr. unfold bind.
                         pose proof (updateKnowledgeBase_silent P ticket aiResponse tr)
                           as Hu.
                         destruct (Agent.updateKnowledgeBase P ticket aiResponse tr)
                           as [[u|e] tr1]; cbn [snd] in Hu; subst tr1; [|reflexivity].
                         unfold lift, ret.
                         repeat match goal with
                                | |- context [match ?x with
                                              | Return _ => _
                                              | Throw _ => _
                                              end] => destruct x
                                end; reflexivity.
                     +++ nil_case.
                 --- nil_case.
              ** nil_case.
           ++ nil_case.
        -- nil_case.
      * nil_case.
    + nil_case.
  - intros l (l00 & l01 & -> & -> &
              l0 & l1 & -> & -> & ld & l2 & -> & Hd & l3 & l4 & -> & -> &
              lc & l5 & -> & Hc & lg & l6 & -> & Hg & ls & l7 & -> & Hs & ->).
    exists ld, lc, lg, ls. cbn [app]. rewrite app_nil_r.
    destruct Hs as (Hs1 & Hs2 & _). repeat split; auto; try apply Hc; try apply Hg.
Qed.

(** The calls of a whole run: those of the [try] block, and at most one
    more chat post from the [catch] block. *)
Lemma processTicket_emits (P : Platform) (ticket : value) (opts : PipelineOptions) :
  Emits (Agent.processTicket P ticket opts)
    (fun l => exists ld lc lg ls,
       l = ld ++ lc ++ lg ++ ls /\
       one isDocAppend ld /\
       (one isCompletion lc /\
        (truthy (draftText opts) = true \/ skipAI opts = true -> lc = [])) /\
       (one isGmailSend lg /\ (skipEmail opts = true -> lg = [])) /\
       forallb isSlackPost ls = true /\ List.length ls <= 3).
Proof.
  unfold Agent.processTicket.
  eapply Emits_weaken.
  - apply Emits_tryCatch
      with (Q2 := fun l => forallb isSlackPost l = true /\ List.length l <= 1);
      [apply pipelineSteps_emits| |split; [reflexivity|simpl; lia]].
    intros e tr. unfold bind at 1, tryCatch, bind at 1, lift, throw.
    destruct (Agent.normalizeCustomer P ticket) as [cust|e0].
    + destruct (notifySlackChannel_emits P ticket cust VNull (Some e) tr)
        as (new & Hnew & Hall & _ & Hlen).
      exists new. split; [|split; [exact Hall|apply Hlen; discriminate]].
      unfold bind, ret.
      destruct (Agent.notifySlackChannel P ticket cust VNull (Some e) tr)
        as [[v|e1] tr1]; exact Hnew.
    + exists []. rewrite app_nil_r. repeat split. simpl. lia.
  - intros l (l1 & l2 & -> & (ld & lc & lg & ls & -> & Hd & Hc & Hg & Hs & Hlen) & Hs2 & Hlen2).
    exists ld, lc, lg, (ls ++ l2). rewrite <- !app_assoc.
    repeat split; auto; try apply Hc; try apply Hg.
    + rewrite forallb_app, Hs, Hs2. reflexivity.
    + rewrite length_app. lia.
Qed.

Lemma staged_counts (ld lc lg ls : list event) :
  one isDocAppend ld -> one isCompletion lc -> one isGmailSend lg ->
  forallb isSlackPost ls = true ->
  count isDocAppend (ld ++ lc ++ lg ++ ls) = List.length ld /\
  count isCompletion (ld ++ lc ++ lg ++ ls) = List.length lc /\
  count isGmailSend (ld ++ lc ++ lg ++ ls) = List.length lg /\
  count isSlackPost (ld ++ lc ++ lg ++ ls) = List.length ls.
Proof.
  intros Hd Hc Hg Hs.
  pose proof (one_forallb _ _ Hd) as Ad.
  pose proof (one_forallb _ _ Hc) as Ac.
  pose proof (one_forallb _ _ Hg) as Ag.
  rewrite !count_app.
  rewrite (count_all _ _ Ad), (count_all _ _ Ac), (count_all _ _ Ag), (count_all _ _ Hs).
  rewrite (count_other isDocAppend isCompletion lc), (count_other isDocAppend isGmailSend lg),
    (count_other isDocAppend isSlackPost ls), (count_other isCompletion isDocAppend ld),
    (count_other isCompletion isGmailSend lg), (count_other isCompletion isSlackPost ls),
    (count_other isGmailSend isDocAppend ld), (count_other isGmailSend isCompletion lc),
    (count_other isGmailSend isSlackPost ls), (count_other isSlackPost isDocAppend ld),
    (count_other isSlackPost isCompletion lc), (count_other isSlackPost isGmailSend lg);
    auto; try (intros []; simpl; congruence).
  all: repeat split; lia.
Qed.

(** X1: in every run, raising or not, the providers are called in the order
    document store, completion API, mail API, chat API; the document store,
    the completion API and the mail API at most once each, the chat at most
    three times. *)
Theorem processTicket_calls_in_order (P : Platform) (ticket : value)
    (opts : PipelineOptions) (tr : trace) :
  exists new,
    snd (Agent.processTicket P ticket opts tr) = tr ++ new /\
    ordered new = true /\
    count isDocAppend new <= 1 /\
    count isCompletion new <= 1 /\
    count isGmailSend new <= 1 /\
    count isSlackPost new <= 3.
Proof.
  destruct (processTicket_emits P ticket opts tr)
    as (new & Hnew & ld & lc & lg & ls & -> & Hd & [Hc _] & [Hg _] & Hs & Hlen).
  exists (ld ++ lc ++ lg ++ ls). split; [exact Hnew|].
  split; [now apply staged_ordered|].
  destruct (staged_counts ld lc lg ls Hd Hc Hg Hs) as (-> & -> & -> & ->).
  destruct (count_one_same _ _ Hd) as [_ Ld], (count_one_same _ _ Hc) as [_ Lc],
    (count_one_same _ _ Hg) as [_ Lg].
  repeat split; lia.
Qed.

(** X3: with [skipEmail] set, a run never calls the mail capability, on the
    failure path included. *)
Theorem processTicket_skipEmail_sends_nothing (P : Platform) (ticket : value)
    (opts : PipelineOptions) (tr : trace) :
  skipEmail opts = true ->
  exists new,
    snd (Agent.processTicket P ticket opts tr) = tr ++ new /\
    count isGmailSend new = 0.
Proof.
  intros Hskip.
  destruct (processTicket_emits P ticket opts tr)
    as (new & Hnew & ld & lc & lg & ls & -> & Hd & [Hc _] & [Hg Hg0] & Hs & Hlen).
  exists (ld ++ lc ++ lg ++ ls). split; [exact Hnew|].
  destruct (staged_counts ld lc lg ls Hd Hc Hg Hs) as (_ & _ & -> & _).
  now rewrite (Hg0 Hskip).
Qed.

Lemma processTicket_skipEmail_sends_nothing_witness :
  exists new,
    snd (Agent.processTicket (Demo.platform true (VStr "Hello Ana")) scenarioTicket
           {| skipEmail := true; skipAI := false; draftText := VNull |} []) = [] ++ new /\
    count isGmailSend new = 0.
Proof.
  apply (processTicket_skipEmail_sends_nothing (Demo.platform true (VStr "Hello Ana"))
           scenarioTicket {| skipEmail := true; skipAI := false; draftText := VNull |} []).
  reflexivity.
Defined.

(** X4: with [skipAI] set, or with a draft text supplied, a run never calls
    the completion API. *)
Theorem processTicket_no_completion_request (P : Platform) (ticket : value)
    (opts : PipelineOptions) (tr : trace) :
  skipAI opts = true \/ truthy (draftText opts) = true ->
  exists new,
    snd (Agent.processTicket P ticket opts tr) = tr ++ new /\
    count isCompletion new = 0.
Proof.
  intros Hskip.
  destruct (processTicket_emits P ticket opts tr)
    as (new & Hnew & ld & lc & lg & ls & -> & Hd & [Hc Hc0] & [Hg _] & Hs & Hlen).
  exists (ld ++ lc ++ lg ++ ls). split; [exact Hnew|].
  destruct (staged_counts ld lc lg ls Hd Hc Hg Hs) as (_ & -> & _ & _).
  rewrite Hc0; [reflexivity|tauto].
Qed.

Lemma processTicket_no_completion_request_witness :
  exists new,
    snd (Agent.processTicket (Demo.platform true (VStr "Hello Ana")) scenarioTicket
           {| skipEmail := false; skipAI := false; draftText := VStr "Custom reply" |} [])
    = [] ++ new /\
    count isCompletion new = 0.
Proof.
  apply (processTicket_no_completion_request (Demo.platform true (VStr "Hello Ana"))
           scenarioTicket
           {| skipEmail := false; skipAI := false; draftText := VStr "Custom reply" |} []).
  right. reflexivity.
Defined.

(** ** The calls of a run that returned *)

Lemma emailedOf_value (skip : bool) (aiResponse : value) (b : bool) :
  emailedOf skip aiResponse = Return b -> b = negb skip && nonBlankText aiResponse.
Proof.
  unfold emailedOf. pose proof (nonBlankText_spec aiResponse) as Hspec.
  destruct skip; cbn [negb andb]; [now intros [= <-]|].
  destruct (truthy aiResponse) eqn:Ht.
  - destruct aiResponse; try discriminate. cbn [callTrim obind].
    intros [= <-]. cbn [andb] in Hspec. exact Hspec.
  - intros [= <-]. destruct aiResponse; auto.
Qed.

(** A notifier that returned had a customer whose lines have a text. *)
Lemma notifySlackChannel_returned (P : Platform) (ticket : value) (cust : Customer)
    (response : value) (error : option exn) (tr tr' : trace) (result : value) :
  Agent.notifySlackChannel P ticket cust response error tr = (Return result, tr') ->
  printableCustomer cust = true.
Proof.
  intros H. destruct (printableCustomer cust) eqn:Hcust; [reflexivity|].
  destruct (notifySlackChannel_raises P ticket cust response error tr Hcust) as [e He].
  congruence.
Qed.

(** The posts of a notification without error that returned. *)
Lemma notifySlackChannel_returned_posts (P : Platform) (ticket : value) (cust : Customer)
    (response : value) (tr tr' : trace) (result : value) :
  Agent.notifySlackChannel P ticket cust response None tr = (Return result, tr') ->
  exists ls,
    tr' = tr ++ ls /\ forallb isSlackPost ls = true /\ List.length ls <= 2 /\
    (1 <= List.length ls <->
     printable (getOpt ticket "id") && printable (getOpt ticket "subject") &&
     (printable (getOpt ticket "source") && printable (firstMessage ticket)) = true).
Proof.
  intros H. pose proof (notifySlackChannel_returned _ _ _ _ _ _ _ _ H) as Hcust.
  destruct (notifySlackChannel_cases P ticket cust response None tr Hcust)
    as (cl & el & _ & _ & [[Hmsg Hrun]|(text & blocks & result' & Hmsg & Hposts)]).
  - rewrite Hrun in H. injection H as _ <-. exists []. rewrite app_nil_r.
    split; [reflexivity|]. split; [reflexivity|]. split; [simpl; lia|].
    rewrite returns_message in Hmsg. rewrite Hmsg. simpl. split; [lia|discriminate].
  - pose proof (returns_message P ticket cl el None) as Hbuilt.
    rewrite Hmsg in Hbuilt. cbn [returns] in Hbuilt. rewrite <- Hbuilt.
    cbv zeta in Hposts.
    destruct Hposts as [[Hrun _]|(post & ts & fullText & _ & _ & _ & _ & _ & Hrun & _)];
      rewrite Hrun in H; injection H as _ <-; eexists; (split; [reflexivity|]);
      cbn [forallb isSlackPost List.length andb]; repeat split; auto; lia.
Qed.

Lemma returned_run_calls (P : Platform) (ticket : value) (opts : PipelineOptions)
    (tr tr' : trace) (r : PipelineResult) :
  Agent.processTicket P ticket opts tr = (Return r, tr') ->
  exists ld lc lg ls,
    tr' = tr ++ ld ++ lc ++ lg ++ ls /\
    one isDocAppend ld /\ one isCompletion lc /\ one isGmailSend lg /\
    forallb isSlackPost ls = true /\
    List.length lc = (if used_ai r then 1 else 0) /\
    (nullish ticket = false ->
     List.length lg = if emailed r && printable (getOpt ticket "subject") then 1 else 0) /\
    List.length ls <= 2 /\
    (1 <= List.length ls <-> printable (getOpt ticket "subject") = true).
Proof.
  intros H. apply PipelineFacts.processTicket_Return_iff in H.
  apply PipelineFacts.pipelineSteps_Return_inv in H.
  destruct H as (cust & context & ai & slackInfo & rp & flag & tr1 & tr2 & tr3 & tr4 & H).
  destruct H as (Hcust & Hstore & Hres & Hsend & Hnotify & Hkb & Hflag & _ & _ & Hused &
                 Hemailed & _ & (text & Hfirst & _) & _ & Hid & Hsource).
  apply toString_Return_printable in Hfirst.
  pose proof (notifySlackChannel_returned _ _ _ _ _ _ _ _ Hnotify) as Hp.
  (* document store *)
  destruct (storeTicketInDoc_emits P ticket cust tr) as (ld & Hld & Hd).
  rewrite Hstore in Hld. cbn [snd] in Hld. subst tr1.
  (* completion *)
  assert (Hc : exists lc, tr2 = (tr ++ ld) ++ lc /\ one isCompletion lc /\
                          List.length lc = if used_ai r then 1 else 0).
  { rewrite Hused. unfold Agent.resolveResponse in Hres.
    destruct (truthy (draftText opts)); cbn [negb andb] in *.
    - apply ret_inv in Hres as [_ ->]. exists []. rewrite app_nil_r, andb_false_r.
      repeat split. now left.
    - destruct (skipAI opts); cbn [negb andb] in *.
      + apply ret_inv in Hres as [_ ->]. exists []. rewrite app_nil_r.
        repeat split. now left.
      + destruct (generateAIResponse_cases P ticket cust context (tr ++ ld))
          as [(e & _ & He)|(prompt & s & _ & Hgen & _)]; [congruence|].
        rewrite Hgen in Hres. injection Hres as _ <-.
        eexists. split; [reflexivity|]. split; [|reflexivity].
        right. eexists. split; reflexivity. }
  destruct Hc as (lc & -> & Hc & Hlc).
  (* mail *)
  apply emailedOf_value in Hflag. rewrite Hemailed.
  assert (Hg : exists lg, tr3 = ((tr ++ ld) ++ lc) ++ lg /\ one isGmailSend lg /\
                          (nullish ticket = false ->
                           List.length lg =
                           if flag && printable (getOpt ticket "subject") then 1 else 0)).
  { destruct (skipEmail opts); cbn [negb andb] in *.
    - apply ret_inv in Hsend as [_ ->]. subst flag. exists []. rewrite app_nil_r.
      repeat split. now left.
    - subst flag. rewrite sendGmailResponse_eq in Hsend. injection Hsend as <-.
      destruct (nonBlankText ai) eqn:Htext; cbn [andb];
        [|exists []; rewrite app_nil_r; repeat split; now left].
      pose proof (returns_emailContent P ticket cust ai) as Hmail.
      rewrite Hp in Hmail.
      assert (Hai : printable ai = true) by (destruct ai; try discriminate; reflexivity).
      rewrite Hai, andb_true_r, andb_true_r in Hmail.
      destruct (Agent.emailContent P ticket cust ai) as [content|e]; cbn [returns] in Hmail.
      + eexists. split; [reflexivity|]. split; [right; eexists; split; reflexivity|].
        intros Hticket. rewrite Hticket in Hmail. cbn [negb andb] in Hmail.
        now rewrite <- Hmail.
      + exists []. rewrite app_nil_r. split; [reflexivity|]. split; [now left|].
        intros Hticket. rewrite Hticket in Hmail. cbn [negb andb] in Hmail.
        now rewrite <- Hmail. }
  destruct Hg as (lg & -> & Hg & Hlg).
  (* chat *)
  destruct (notifySlackChannel_returned_posts _ _ _ _ _ _ _ Hnotify)
    as (ls & -> & Hs & Hlen & Hsome).
  rewrite Hid, Hsource, Hfirst in Hsome. cbn [andb] in Hsome.
  rewrite andb_true_r in Hsome.
  pose proof (updateKnowledgeBase_silent P ticket ai ((((tr ++ ld) ++ lc) ++ lg) ++ ls))
    as Hu.
  rewrite Hkb in Hu. cbn [snd] in Hu. subst tr'.
  exists ld, lc, lg, ls. rewrite <- !app_assoc. repeat split; auto; apply Hsome.
Qed.

(** X5: on a returned result, [used_ai] tells whether the completion API
    was called: one request when it is true, none when it is false. *)
Theorem used_ai_counts_completion_requests (P : Platform) (ticket : value)
    (opts : PipelineOptions) (tr tr' : trace) (r : PipelineResult) :
  Agent.processTicket P ticket opts tr = (Return r, tr') ->
  exists new,
    tr' = tr ++ new /\
    count isCompletion new = if used_ai r then 1 else 0.
Proof.
  intros H. destruct (returned_run_calls P ticket opts tr tr' r H)
    as (ld & lc & lg & ls & -> & Hd & Hc & Hg & Hs & Hlc & _).
  exists (ld ++ lc ++ lg ++ ls). split; [reflexivity|].
  destruct (staged_counts ld lc lg ls Hd Hc Hg Hs) as (_ & -> & _ & _). exact Hlc.
Qed.

Lemma used_ai_counts_completion_requests_witness :
  exists r tr' new,
    Agent.processTicket (Demo.platform false VNull) scenarioTicket defaultOptions [] =
    (Return r, tr') /\
    tr' = [] ++ new /\
    count isCompletion new = if used_ai r then 1 else 0.
Proof.
  eexists. eexists.
  assert (H : forall r tr',
             Agent.processTicket (Demo.platform false VNull) scenarioTicket
               defaultOptions [] = (Return r, tr') ->
             exists new,
               Agent.processTicket (Demo.platform false VNull) scenarioTicket
                 defaultOptions [] = (Return r, tr') /\
               tr' = [] ++ new /\
               count isCompletion new = if used_ai r then 1 else 0).
  { intros r tr' Hrun.
    destruct (used_ai_counts_completion_requests _ _ _ _ _ _ Hrun) as (new & H1 & H2).
    now exists new. }
  apply H. vm_compute. reflexivity.
Defined.

(** X6: on a returned result for a ticket that is not [null], [emailed]
    and the subject tell whether the mail capability was called, not
    whether the mail was accepted: one call when [emailed] is true and the
    subject has a text, none otherwise. *)
Theorem emailed_counts_mail_calls (P : Platform) (ticket : value)
    (opts : PipelineOptions) (tr tr' : trace) (r : PipelineResult) :
  Agent.processTicket P ticket opts tr = (Return r, tr') ->
  nullish ticket = false ->
  exists new,
    tr' = tr ++ new /\
    count isGmailSend new =
    if emailed r && printable (getOpt ticket "subject") then 1 else 0.
Proof.
  intros H Hticket. destruct (returned_run_calls P ticket opts tr tr' r H)
    as (ld & lc & lg & ls & -> & Hd & Hc & Hg & Hs & _ & Hlg & _).
  exists (ld ++ lc ++ lg ++ ls). split; [reflexivity|].
  destruct (staged_counts ld lc lg ls Hd Hc Hg Hs) as (_ & _ & -> & _). auto.
Qed.

Lemma emailed_counts_mail_calls_witness :
  exists r tr' new,
    Agent.processTicket (Demo.platform false VNull) scenarioTicket
      {| skipEmail := false; skipAI := false; draftText := VStr "Custom reply" |} [] =
    (Return r, tr') /\
    emailed r = true /\
    tr' = [] ++ new /\
    count isGmailSend new = 1.
Proof.
  eexists. eexists.
  assert (H : forall r tr',
             Agent.processTicket (Demo.platform false VNull) scenarioTicket
               {| skipEmail := false; skipAI := false; draftText := VStr "Custom reply" |}
               [] = (Return r, tr') ->
             emailed r = true ->
             exists new,
               Agent.processTicket (Demo.platform false VNull) scenarioTicket
                 {| skipEmail := false; skipAI := false;
                    draftText := VStr "Custom reply" |} [] = (Return r, tr') /\
               emailed r = true /\
               tr' = [] ++ new /\
               count isGmailSend new = 1).
  { intros r tr' Hrun Hem.
    destruct (emailed_counts_mail_calls _ _ _ _ _ _ Hrun eq_refl) as (new & H1 & H2).
    rewrite Hem in H2. now exists new. }
  apply H; vm_compute; reflexivity.
Defined.

(** An [emailed] that is true with no mail call: the subject is an object
    with a [toString] entry, so the text of the mail cannot be built. *)
Example emailed_without_mail_call :
  exists r tr',
    Agent.processTicket (Demo.platformWithoutDoc true (VStr "Hello Ana"))
      (VObj [("id", VStr "T1"); ("subject", VObj [("toString", VStr "x")]);
             ("customer", VObj [("name", VStr "Ana"); ("email", VStr "a@x.com")])])
      {| skipEmail := false; skipAI := false; draftText := VStr "Custom reply" |} [] =
    (Return r, tr') /\
    emailed r = true /\ count isGmailSend tr' = 0 /\ count isSlackPost tr' = 0.
Proof. eexists. eexists. split; [vm_compute; reflexivity|]. repeat split. Qed.

(** X7: a run that returns has posted to the chat at most twice, whatever
    the skip flags, and at least once exactly when the subject of the
    ticket has a text. *)
Theorem returned_run_notified_chat (P : Platform) (ticket : value)
    (opts : PipelineOptions) (tr tr' : trace) (r : PipelineResult) :
  Agent.processTicket P ticket opts tr = (Return r, tr') ->
  exists new,
    tr' = tr ++ new /\
    count isSlackPost new <= 2 /\
    (1 <= count isSlackPost new <-> printable (getOpt ticket "subject") = true).
Proof.
  intros H. destruct (returned_run_calls P ticket opts tr tr' r H)
    as (ld & lc & lg & ls & -> & Hd & Hc & Hg & Hs & _ & _ & Hls & Hsome).
  exists (ld ++ lc ++ lg ++ ls). split; [reflexivity|].
  destruct (staged_counts ld lc lg ls Hd Hc Hg Hs) as (_ & _ & _ & ->).
  split; [exact Hls|exact Hsome].
Qed.

Lemma returned_run_notified_chat_witness :
  exists r tr' new,
    Agent.processTicket (Demo.platform true (VStr "Hello Ana")) scenarioTicket
      {| skipEmail := true; skipAI := true; draftText := VNull |} [] = (Return r, tr') /\
    tr' = [] ++ new /\
    count isSlackPost new <= 2 /\
    (1 <= count isSlackPost new <-> printable (getOpt scenarioTicket "subject") = true).
Proof.
  eexists. eexists.
  assert (H : forall r tr',
             Agent.processTicket (Demo.platform true (VStr "Hello Ana")) scenarioTicket
               {| skipEmail := true; skipAI := true; draftText := VNull |} [] =
             (Return r, tr') ->
             exists new,
               Agent.processTicket (Demo.platform true (VStr "Hello Ana")) scenarioTicket
                 {| skipEmail := true; skipAI := true; draftText := VNull |} [] =
               (Return r, tr') /\
               tr' = [] ++ new /\
               count isSlackPost new <= 2 /\
               (1 <= count isSlackPost new <->
                printable (getOpt scenarioTicket "subject") = true)).
  { intros r tr' Hrun.
    destruct (returned_run_notified_chat _ _ _ _ _ _ Hrun) as (new & H1 & H2).
    now exists new. }
  apply H. vm_compute. reflexivity.
Defined.

(** ** Provider failures never abort a run *)

Lemma bind_returns {A B : Type} (m : M A) (k : A -> M B) (tr tr1 : trace) (a : A) :
  m tr = (Return a, tr1) ->
  (exists b tr2, k a tr1 = (Return b, tr2)) ->
  exists b tr2, bind m k tr = (Return b, tr2).
Proof. intros Hm Hk. now rewrite (bind_Return m k tr tr1 a Hm). Qed.

Lemma storeTicketInDoc_returns (P : Platform) (ticket : value) (cust : Customer)
    (tr : trace) :
  nullish ticket = false ->
  printableTicket ticket = true ->
  printableCustomer cust = true ->
  exists tr1, Agent.storeTicketInDoc P ticket cust tr = (Return tt, tr1).
Proof.
  intros Hticket Hfields Hcust.
  destruct (truthy (env P "GOOGLE_DOC_ID")) eqn:Hdoc.
  - destruct (storeTicketInDoc_appends P ticket cust tr Hdoc Hticket Hfields Hcust)
      as [content H].
    eauto.
  - rewrite (storeTicketInDoc_skipped P ticket cust tr Hdoc). eauto.
Qed.

Lemma printableTicket_fields (ticket : value) :
  printableTicket ticket = true ->
  printable (getOpt ticket "id") = true /\
  printable (getOpt ticket "source") = true /\
  printable (getOpt ticket "subject") = true /\
  printableMessages (getOpt ticket "messages") = true.
Proof.
  unfold printableTicket. intros H.
  apply andb_prop in H as [H Hm]. apply andb_prop in H as [H Hs].
  apply andb_prop in H as [Hi Hso]. auto.
Qed.

Lemma resolveResponse_returns (P : Platform) (ticket : value) (cust : Customer)
    (context : value) (opts : PipelineOptions) (tr : trace) :
  nullish ticket = false ->
  printableTicket ticket = true ->
  printableCustomer cust = true ->
  textOrNone (draftText opts) = true ->
  exists s tr1,
    Agent.resolveResponse P ticket cust context opts tr = (Return (VStr s), tr1).
Proof.
  intros Hticket Hfields Hcust Hdraft. unfold Agent.resolveResponse.
  destruct (truthy (draftText opts)) eqn:Ht; cbn [negb].
  - destruct (draftText opts) as [| | | |s| |]; cbn [textOrNone truthy] in *;
      try (rewrite Ht in Hdraft; discriminate); try discriminate.
    now exists s, tr.
  - destruct (skipAI opts); cbn [negb]; [now exists "", tr|].
    destruct (generateAIResponse_cases P ticket cust context tr)
      as [(e & Hprompt & _)|(prompt & s & _ & H & _)]; [|eauto].
    pose proof (returns_prompt P ticket cust context) as Hr.
    destruct (printableTicket_fields ticket Hfields) as (_ & _ & Hs & Hm).
    rewrite Hprompt, Hticket, Hcust, Hs, Hm in Hr. discriminate.
Qed.

Lemma updateKnowledgeBase_returns (P : Platform) (ticket response : value)
    (cust : Customer) (tr : trace) :
  Agent.normalizeCustomer P ticket = Return cust ->
  printableMessages (getOpt ticket "messages") = true ->
  Agent.updateKnowledgeBase P ticket response tr = (Return tt, tr).
Proof.
  intros Hcust Hmsgs. unfold Agent.updateKnowledgeBase, bind, lift, now, ret.
  rewrite Hcust.
  pose proof (returns_customerQuery (Number_toString P) ticket) as Hq.
  rewrite Hmsgs in Hq. now destruct (customerQuery _ ticket).
Qed.

(** On a ticket that is not [null], whose fields have a text, the [try]
    block returns, with a response that is a text. *)
Lemma pipelineSteps_returns (P : Platform) (ticket : value)
    (opts : PipelineOptions) (cust : Customer) (tr : trace) :
  nullish ticket = false ->
  Agent.normalizeCustomer P ticket = Return cust ->
  printableCustomer cust = true ->
  printableTicket ticket = true ->
  textOrNone (draftText opts) = true ->
  exists r tr', Agent.pipelineSteps P ticket opts tr = (Return r, tr').
Proof.
  intros Hticket Hcust Hp Hfields Hdraft.
  destruct (printableTicket_fields ticket Hfields) as (Hid & Hsource & Hsubject & Hmsgs).
  unfold Agent.pipelineSteps. cbv zeta.
  destruct (template_returns (Number_toString P)
              [Lit "Processing ticket "; Sub (Return (getOpt ticket "id"));
               Lit " from "; Sub (Return (getOpt ticket "source"))]) as [line Hline].
  { cbn [forallb pieceBuilds]. now rewrite Hid, Hsource. }
  apply (bind_returns _ _ tr tr line); [unfold lift; now rewrite Hline|].
  apply (bind_returns _ _ tr tr cust); [unfold lift; now rewrite Hcust|].
  destruct (storeTicketInDoc_returns P ticket cust tr Hticket Hfields Hp) as [tr1 Hstore].
  apply (bind_returns _ _ tr tr1 tt Hstore).
  eapply bind_returns; [reflexivity|].
  match goal with
  | |- context [Agent.resolveResponse P ticket cust ?context opts] =>
      destruct (resolveResponse_returns P ticket cust context opts tr1
                  Hticket Hfields Hp Hdraft) as (s & tr2 & Hres)
  end.
  apply (bind_returns _ _ tr1 tr2 (VStr s) Hres).
  assert (Hsend : exists tr3,
             (if negb (skipEmail opts)
              then Agent.sendGmailResponse P ticket cust (VStr s)
              else ret tt) tr2 = (Return tt, tr3)).
  { destruct (skipEmail opts); cbn [negb]; [now exists tr2|].
    rewrite sendGmailResponse_eq. eauto. }
  destruct Hsend as [tr3 Hsend].
  apply (bind_returns _ _ tr2 tr3 tt Hsend).
  assert (Hnotify : exists result tr4,
             Agent.notifySlackChannel P ticket cust (VStr s) None tr3 =
             (Return result, tr4)).
  { destruct (notifySlackChannel_cases P ticket cust (VStr s) None tr3 Hp)
      as (cl & el & _ & _ & [[_ Hrun]|(text & blocks & result & _ & Hposts)]).
    - eauto.
    - cbv zeta in Hposts.
      destruct Hposts as [[Hrun _]|(post & ts & fullText & _ & _ & _ & _ & _ & Hrun & _)];
        eauto. }
  destruct Hnotify as (result & tr4 & Hnotify).
  apply (bind_returns _ _ tr3 tr4 result Hnotify).
  apply (bind_returns _ _ _ _ tt
           (updateKnowledgeBase_returns P ticket (VStr s) cust _ Hcust Hmsgs)).
  destruct (toString_printable (Number_toString P) (firstMessage ticket)
              (printable_firstMessage ticket Hmsgs)) as [text Htext].
  unfold bind, lift, ret. rewrite Htext.
  destruct (skipEmail opts); cbn [negb];
    destruct (truthy (VStr s)) eqn:Hs; unfold jor; rewrite ?Hs;
    cbn [callTrim obind callSlice]; eauto.
Qed.

(** X2: on a ticket that is not [null], whose customer can be normalised
    and whose id, source, subject, messages and customer have a text, with
    a draft that is a text or absent, [processTicket] returns a result
    whatever the providers answer: no rejection of the document store, the
    completion API, the mail API or the chat aborts the run. *)
Theorem processTicket_survives_providers (P : Platform) (ticket : value)
    (opts : PipelineOptions) (cust : Customer) (tr : trace) :
  nullish ticket = false ->
  Agent.normalizeCustomer P ticket = Return cust ->
  printableCustomer cust = true ->
  printableTicket ticket = true ->
  textOrNone (draftText opts) = true ->
  exists r tr',
    Agent.processTicket P ticket opts tr = (Return r, tr') /\
    ok r = true /\ customer (summary r) = cust.
Proof.
  intros Hticket Hcust Hp Hfields Hdraft.
  destruct (pipelineSteps_returns P ticket opts cust tr Hticket Hcust Hp Hfields Hdraft)
    as (r & tr' & Hsteps).
  exists r, tr'. split; [unfold Agent.processTicket; now apply tryCatch_Return|].
  apply PipelineFacts.pipelineSteps_Return_inv in Hsteps.
  destruct Hsteps as (cust' & context & ai & slackInfo & rp & flag & tr1 & tr2 & tr3 & tr4 &
                      Hcust' & _ & _ & _ & _ & _ & _ & _ & Hok & _ & _ & _ & _ & Hc & _).
  split; [exact Hok|]. congruence.
Qed.

Lemma processTicket_survives_providers_witness :
  exists r tr',
    Agent.processTicket (Demo.platform false VNull) scenarioTicket defaultOptions [] =
    (Return r, tr') /\
    ok r = true /\ customer (summary r) = {| name := VStr "Ana"; email := VStr "a@x.com" |}.
Proof.
  apply (processTicket_survives_providers (Demo.platform false VNull) scenarioTicket
           defaultOptions {| name := VStr "Ana"; email := VStr "a@x.com" |} []);
    reflexivity.
Defined.

End TraceFacts.
(* ================================================================== *)
(** * The draft of the manual route *)
(* ================================================================== *)

Module DraftFacts.
Import JS Effects Data Spec Props JSFacts MonadFacts StepFacts.
#[local] Open Scope list_scope.

Ltac same_fields H :=
  cbn [jor truthy get getOpt];
  repeat rewrite H by discriminate;
  reflexivity.

Section IgnoresDraft.

Variable P : Platform.
Variables fields1 fields2 : list (string * value).
Hypothesis Hsame : sameButDraft fields1 fields2.

Lemma nestedCustomer_ignores_draft :
  Agent.nestedCustomer P (VObj fields1) = Agent.nestedCustomer P (VObj fields2).
Proof. unfold Agent.nestedCustomer. same_fields Hsame. Qed.

Lemma normalizeCustomer_ignores_draft :
  Agent.normalizeCustomer P (VObj fields1) = Agent.normalizeCustomer P (VObj fields2).
Proof.
  unfold Agent.normalizeCustomer. rewrite nestedCustomer_ignores_draft.
  same_fields Hsame.
Qed.

Lemma firstMessage_ignores_draft :
  firstMessage (VObj fields1) = firstMessage (VObj fields2).
Proof. unfold firstMessage. same_fields Hsame. Qed.

Lemma messageLines_ignores_draft :
  messageLines (Number_toString P) (VObj fields1) =
  messageLines (Number_toString P) (VObj fields2).
Proof. unfold messageLines. same_fields Hsame. Qed.

Lemma messageBodies_ignores_draft :
  messageBodies (Number_toString P) (VObj fields1) =
  messageBodies (Number_toString P) (VObj fields2).
Proof. unfold messageBodies. same_fields Hsame. Qed.

Lemma customerQuery_ignores_draft :
  customerQuery (Number_toString P) (VObj fields1) =
  customerQuery (Number_toString P) (VObj fields2).
Proof. unfold customerQuery. same_fields Hsame. Qed.

Lemma storeTicketInDoc_ignores_draft :
  Agent.storeTicketInDoc P (VObj fields1) = Agent.storeTicketInDoc P (VObj fields2).
Proof.
  unfold Agent.storeTicketInDoc, Agent.content.
  rewrite messageLines_ignores_draft. same_fields Hsame.
Qed.

Lemma generateAIResponse_ignores_draft :
  Agent.generateAIResponse P (VObj fields1) = Agent.generateAIResponse P (VObj fields2).
Proof.
  unfold Agent.generateAIResponse, Agent.prompt.
  rewrite messageBodies_ignores_draft. same_fields Hsame.
Qed.

Lemma resolveResponse_ignores_draft :
  Agent.resolveResponse P (VObj fields1) = Agent.resolveResponse P (VObj fields2).
Proof.
  unfold Agent.resolveResponse. now rewrite generateAIResponse_ignores_draft.
Qed.

Lemma sendGmailResponse_ignores_draft :
  Agent.sendGmailResponse P (VObj fields1) = Agent.sendGmailResponse P (VObj fields2).
Proof. unfold Agent.sendGmailResponse, Agent.emailContent. same_fields Hsame. Qed.

Lemma notifySlackChannel_ignores_draft :
  Agent.notifySlackChannel P (VObj fields1) = Agent.notifySlackChannel P (VObj fields2).
Proof.
  unfold Agent.notifySlackChannel, Agent.message, Agent.customerMessage.
  rewrite firstMessage_ignores_draft. same_fields Hsame.
Qed.

Lemma updateKnowledgeBase_ignores_draft :
  Agent.updateKnowledgeBase P (VObj fields1) = Agent.updateKnowledgeBase P (VObj fields2).
Proof.
  unfold Agent.updateKnowledgeBase.
  now rewrite normalizeCustomer_ignores_draft, customerQuery_ignores_draft.
Qed.

Lemma processTicket_ignores_draft :
  Agent.processTicket P (VObj fields1) = Agent.processTicket P (VObj fields2).
Proof.
  unfold Agent.processTicket, Agent.pipelineSteps, Agent.getKnowledgeBaseContext.
  rewrite normalizeCustomer_ignores_draft, storeTicketInDoc_ignores_draft,
    resolveResponse_ignores_draft, sendGmailResponse_ignores_draft,
    notifySlackChannel_ignores_draft, updateKnowledgeBase_ignores_draft,
    firstMessage_ignores_draft.
  same_fields Hsame.
Qed.

End IgnoresDraft.

Lemma removeField_sameButDraft (fields : list (string * value)) :
  sameButDraft fields (removeField "draft" fields).
Proof.
  intros k Hk. symmetry. now apply lookup_removeField_other.
Qed.

(** C10.  A manual request whose draft has the empty string as its text
    is served exactly as the same request without the draft field.  The
    route runs the pipeline on the body with [null] as draft text and
    answers with its result; the answer and the calls made are those of
    the request without the draft; response resolution is the generation
    step unless [skipAI] is set; every answer [200] carries [used_ai] true
    exactly when [skipAI] is false, after one completion request then and
    none otherwise; and on a body whose customer can be normalised and
    whose fields have a text the answer is [200]. *)
Theorem empty_draft_as_no_draft (P : Platform) (fields draft : list (string * value))
    (h : string -> value) (tr : trace) :
  lookup "draft" fields = VObj draft ->
  lookup "text" draft = VStr "" ->
  let req := {| body := VObj fields; headers := h |} in
  let bare := {| body := VObj (removeField "draft" fields); headers := h |} in
  let opts := {| skipEmail := flagSet (lookup "skip_email" fields) (h "x-skip-email");
                 skipAI := flagSet (lookup "skip_ai" fields) (h "x-skip-ai");
                 draftText := VNull |} in
  Agent.postProcessTicket P req tr =
  match Agent.processTicket P (VObj fields) opts tr with
  | (Return r, tr') => (Return (Json200 r), tr')
  | (Throw e, tr') => (Return (Json500 false (errorText e)), tr')
  end /\
  Agent.postProcessTicket P req tr = Agent.postProcessTicket P bare tr /\
  (skipAI opts = false ->
   forall cust context,
     Agent.resolveResponse P (VObj fields) cust context opts =
     Agent.generateAIResponse P (VObj fields) cust context) /\
  (forall r tr',
     Agent.postProcessTicket P req tr = (Return (Json200 r), tr') ->
     used_ai r = negb (skipAI opts) /\
     exists new,
       tr' = tr ++ new /\
       count isCompletion new = if skipAI opts then 0 else 1) /\
  (forall cust,
     Agent.normalizeCustomer P (VObj fields) = Return cust ->
     printableCustomer cust = true ->
     printableTicket (VObj fields) = true ->
     exists r tr',
       Agent.postProcessTicket P req tr = (Return (Json200 r), tr') /\
       used_ai r = negb (skipAI opts)).
Proof.
  intros Hdraft Htext req bare opts.
  assert (Hopts : routeOptions req = opts).
  { unfold routeOptions, routeBody, req, opts. cbn [body headers jor truthy getOpt].
    rewrite Hdraft. cbn [getOpt]. now rewrite Htext. }
  assert (Hbare : routeOptions bare = opts).
  { unfold routeOptions, routeBody, bare, opts. cbn [body headers jor truthy getOpt].
    rewrite lookup_removeField_same.
    now rewrite !(lookup_removeField_other "draft") by discriminate. }
  assert (Hroute : Agent.postProcessTicket P req tr =
                   match Agent.processTicket P (VObj fields) opts tr with
                   | (Return r, tr') => (Return (Json200 r), tr')
                   | (Throw e, tr') => (Return (Json500 false (errorText e)), tr')
                   end).
  { now rewrite PipelineFacts.postProcessTicket_eq, Hopts. }
  assert (Hused : forall r tr',
             Agent.processTicket P (VObj fields) opts tr = (Return r, tr') ->
             used_ai r = negb (skipAI opts)).
  { intros r tr' Hrun. rewrite (PipelineFacts.used_ai_eq P _ _ _ _ _ Hrun).
    cbn [draftText truthy negb]. apply andb_true_r. }
  split; [exact Hroute|]. split; [|split; [|split]].
  - rewrite !PipelineFacts.postProcessTicket_eq, Hopts, Hbare.
    unfold routeBody, req, bare. cbn [body jor truthy].
    now rewrite (processTicket_ignores_draft P fields (removeField "draft" fields)
                   (removeField_sameButDraft fields)).
  - intros Hskip cust context. unfold Agent.resolveResponse.
    cbn [draftText truthy negb]. now rewrite Hskip.
  - intros r tr' Hrun. rewrite Hroute in Hrun.
    destruct (Agent.processTicket P (VObj fields) opts tr) as [[r0|e] tr0] eqn:E;
      [|discriminate].
    injection Hrun as -> ->. split; [now apply (Hused r tr')|].
    destruct (TraceFacts.returned_run_calls P _ _ _ _ _ E)
      as (ld & lc & lg & ls & -> & Hd & Hc & Hg & Hs & Hlc & _).
    exists (ld ++ lc ++ lg ++ ls). split; [reflexivity|].
    destruct (TraceFacts.staged_counts ld lc lg ls Hd Hc Hg Hs) as (_ & -> & _ & _).
    rewrite Hlc, (Hused r _ eq_refl). now destruct (skipAI opts).
  - intros cust Hcust Hp Hfields.
    destruct (TraceFacts.pipelineSteps_returns P (VObj fields) opts cust tr
                eq_refl Hcust Hp Hfields eq_refl) as (r & tr' & Hsteps).
    apply PipelineFacts.processTicket_Return_iff in Hsteps.
    exists r, tr'. rewrite Hroute, Hsteps. split; [reflexivity|].
    now apply (Hused r tr').
Qed.

Lemma empty_draft_as_no_draft_witness :
  exists r tr',
    Agent.postProcessTicket (Demo.platform true (VStr "Hello Ana"))
      {| body := VObj [("id", VStr "T1"); ("subject", VStr "Help");
                       ("customer", VObj [("name", VStr "Ana"); ("email", VStr "a@x.com")]);
                       ("messages", VArr [VObj [("body", VStr "Can't log in")]]);
                       ("draft", VObj [("text", VStr "")])];
         headers := Demo.noHeaders |} [] = (Return (Json200 r), tr') /\
    used_ai r = true.
Proof.
  apply (proj2 (proj2 (proj2 (proj2
           (empty_draft_as_no_draft (Demo.platform true (VStr "Hello Ana"))
              [("id", VStr "T1"); ("subject", VStr "Help");
               ("customer", VObj [("name", VStr "Ana"); ("email", VStr "a@x.com")]);
               ("messages", VArr [VObj [("body", VStr "Can't log in")]]);
               ("draft", VObj [("text", VStr "")])]
              [("text", VStr "")] Demo.noHeaders [] eq_refl eq_refl))))
           {| name := VStr "Ana"; email := VStr "a@x.com" |});
    reflexivity.
Defined.

End DraftFacts.
(* ================================================================== *)
(** * The normaliser, the webhook and the body extractor *)
(* ================================================================== *)

Module IntakeFacts.
Import JS Effects Data Spec Props JSFacts MonadFacts NormalizerFacts StepFacts.

(** The nested customer is always found; it is [null] or [undefined] only
    as the value of a parsed string. *)
Lemma nestedCustomer_total (P : Platform) (ticket : value) :
  exists c,
    Agent.nestedCustomer P ticket = Return c /\
    (nullish c = true <->
     exists s v,
       jor (getOpt ticket "customer") (getOpt ticket "Customer") = VStr s /\
       s <> "" /\ JSON_parse P s = Some v /\ nullish v = true).
Proof.
  unfold Agent.nestedCustomer.
  rewrite !(get_not_nullish (jor ticket (VObj []))) by apply top_not_nullish.
  rewrite !getOpt_top. unfold jor.
  destruct (truthy (getOpt ticket "customer")) eqn:Ha.
  - rewrite !(orElse_Return_truthy _ _ Ha). cbn [obind].
    destruct (getOpt ticket "customer") eqn:Ec; try discriminate;
      try (eexists; split; [reflexivity|]; split;
           [discriminate|intros (s & v & Heq & _); discriminate]).
    apply negb_true_iff, String.eqb_neq in Ha.
    destruct (JSON_parse P s) as [v|] eqn:Hp.
    + exists v. split; [reflexivity|]. split.
      * intros Hv. now exists s, v.
      * intros (s' & v' & [= <-] & _ & Hp' & Hv'). congruence.
    + exists (VObj []). split; [reflexivity|]. split; [discriminate|].
      intros (s' & v' & [= <-] & _ & Hp' & _). congruence.
  - rewrite (orElse_Return_falsy _ _ Ha).
    destruct (truthy (getOpt ticket "Customer")) eqn:Hb.
    + rewrite (orElse_Return_truthy _ _ Hb). cbn [obind].
      destruct (getOpt ticket "Customer") eqn:Ec; try discriminate;
        try (eexists; split; [reflexivity|]; split;
             [discriminate|intros (s & v & Heq & _); discriminate]).
      apply negb_true_iff, String.eqb_neq in Hb.
      destruct (JSON_parse P s) as [v|] eqn:Hp.
      * exists v. split; [reflexivity|]. split.
        -- intros Hv. now exists s, v.
        -- intros (s' & v' & [= <-] & _ & Hp' & Hv'). congruence.
      * exists (VObj []). split; [reflexivity|]. split; [discriminate|].
        intros (s' & v' & [= <-] & _ & Hp' & _). congruence.
    + rewrite (orElse_Return_falsy _ _ Hb). cbn [obind].
      exists (VObj []). split; [reflexivity|]. split; [discriminate|].
      intros (s & v & Heq & Hs & _).
      rewrite Heq in Hb. apply truthy_VStr in Hb. contradiction.
Qed.

(** X13: the normaliser raises on exactly one kind of ticket: one whose
    customer (or, failing that, [Customer]) is a non-empty string that
    [JSON.parse] turns into [null]; on every other ticket, of any shape, it
    returns. *)
Theorem normalizeCustomer_raises_iff (P : Platform) (ticket : value) :
  (exists e, Agent.normalizeCustomer P ticket = Throw e) <->
  (exists s v,
     jor (getOpt ticket "customer") (getOpt ticket "Customer") = VStr s /\
     s <> "" /\ JSON_parse P s = Some v /\ nullish v = true).
Proof.
  destruct (nestedCustomer_total P ticket) as (c & Hc & Hnull).
  rewrite <- Hnull. split.
  - intros [e He]. destruct (nullish c) eqn:Hn; [reflexivity|].
    rewrite (normalizeCustomer_firstPresent P ticket c Hc Hn) in He. discriminate.
  - intros Hn. unfold Agent.normalizeCustomer. rewrite Hc. cbn [obind].
    destruct c; try discriminate; eexists; reflexivity.
Qed.

Lemma normalizeCustomer_raises_iff_witness :
  exists e,
    Agent.normalizeCustomer (Demo.platform true VNull)
      (VObj [("Customer", VStr " null ")]) = Throw e.
Proof.
  apply (proj2 (normalizeCustomer_raises_iff (Demo.platform true VNull)
                  (VObj [("Customer", VStr " null ")]))).
  exists " null ", VNull. repeat split. discriminate.
Defined.

(** ** The HelpScout webhook *)

Lemma handleHelpScoutTicket_eq (P : Platform) (webhookData : value) (tr : trace) :
  nullish webhookData = false ->
  Agent.handleHelpScoutTicket P webhookData tr =
  Agent.processTicket P (helpScoutTicket webhookData) defaultOptions tr.
Proof.
  intros Hn. unfold Agent.handleHelpScoutTicket.
  rewrite !(get_not_nullish webhookData) by exact Hn. reflexivity.
Qed.

Lemma helpScoutTicket_customer (P : Platform) (webhookData : value) :
  Agent.normalizeCustomer P (helpScoutTicket webhookData) =
  Return {| name := jor (getOpt (getOpt webhookData "customer") "name") (VStr "");
            email := jor (getOpt (getOpt webhookData "customer") "email") (VStr "") |}.
Proof.
  rewrite (normalizeCustomer_firstPresent P _
             (VObj [("email", getOpt (getOpt webhookData "customer") "email");
                    ("name", getOpt (getOpt webhookData "customer") "name")]));
    [|reflexivity|reflexivity].
  unfold nameAliases, emailAliases, helpScoutTicket. cbn [getOpt lookup String.eqb Ascii.eqb Bool.eqb].
  cbn [firstPresent truthy]. unfold jor.
  destruct (truthy (getOpt (getOpt webhookData "customer") "name")),
    (truthy (getOpt (getOpt webhookData "customer") "email")); reflexivity.
Qed.

(** X14: a HelpScout payload that is not [null] is processed as the ticket
    built from its id, subject, customer and threads, with default
    options.  On that ticket the normaliser never raises, and the customer
    of every returned result is the name and the email address of the
    payload's [customer] object, each [''] when missing: top-level aliases
    of the payload are not consulted. *)
Theorem handleHelpScoutTicket_customer (P : Platform) (webhookData : value)
    (tr : trace) :
  nullish webhookData = false ->
  Agent.handleHelpScoutTicket P webhookData tr =
  Agent.processTicket P (helpScoutTicket webhookData) defaultOptions tr /\
  forall r tr',
    Agent.handleHelpScoutTicket P webhookData tr = (Return r, tr') ->
    customer (summary r) =
    {| name := jor (getOpt (getOpt webhookData "customer") "name") (VStr "");
       email := jor (getOpt (getOpt webhookData "customer") "email") (VStr "") |} /\
    source (summary r) = VStr "helpscout" /\
    used_ai r = true.
Proof.
  intros Hn. split; [now apply handleHelpScoutTicket_eq|].
  intros r tr' H. rewrite (handleHelpScoutTicket_eq P webhookData tr Hn) in H.
  pose proof (PipelineFacts.used_ai_eq P _ _ _ _ _ H) as Hused.
  apply PipelineFacts.processTicket_Return_iff in H.
  pose proof H as Hsrc.
  apply PipelineFacts.pipelineSteps_Return_inv in H.
  destruct H as (cust & ? & ? & ? & ? & ? & ? & ? & ? & ? & H).
  destruct H as (Hcust & _ & _ & _ & _ & _ & _ & _ & _ & _ & _ & _ & _ & Hsum & _).
  rewrite helpScoutTicket_customer in Hcust. injection Hcust as <-.
  split; [exact Hsum|]. split; [|exact Hused].
  unfold Agent.pipelineSteps in Hsrc. cbv zeta in Hsrc.
  repeat (apply bind_Return_inv in Hsrc; destruct Hsrc as (? & ? & _ & Hsrc);
          cbv beta in Hsrc).
  apply ret_inv in Hsrc as [<- _]. reflexivity.
Qed.

Lemma handleHelpScoutTicket_customer_witness :
  Agent.handleHelpScoutTicket (Demo.platform true (VStr "Hello Ana"))
    (VObj [("id", VNum 7); ("subject", VStr "Help");
           ("customer", VObj [("email", VStr "a@x.com")]);
           ("customer_name", VStr "not read")]) [] =
  Agent.processTicket (Demo.platform true (VStr "Hello Ana"))
    (helpScoutTicket
       (VObj [("id", VNum 7); ("subject", VStr "Help");
              ("customer", VObj [("email", VStr "a@x.com")]);
              ("customer_name", VStr "not read")])) defaultOptions [].
Proof.
  apply (handleHelpScoutTicket_customer (Demo.platform true (VStr "Hello Ana"))
           (VObj [("id", VNum 7); ("subject", VStr "Help");
                  ("customer", VObj [("email", VStr "a@x.com")]);
                  ("customer_name", VStr "not read")]) []).
  reflexivity.
Defined.

(** X15: the HelpScout route never raises: it answers [200 OK] when the
    handler returned and [500 Error processing ticket] when it raised.  On
    a payload that is not [null], whose id, subject, customer name,
    customer email and threads have a text (the empty payload [{}]
    included), it answers [200] whatever the providers answer. *)
Theorem postWebhookHelpScout_answers (P : Platform) (req : Request) (tr : trace) :
  ((exists r tr',
      Agent.handleHelpScoutTicket P (body req) tr = (Return r, tr') /\
      Agent.postWebhookHelpScout P req tr = (Return (Send 200 "OK"), tr')) \/
   (exists e tr',
      Agent.handleHelpScoutTicket P (body req) tr = (Throw e, tr') /\
      Agent.postWebhookHelpScout P req tr =
      (Return (Send 500 "Error processing ticket"), tr'))) /\
  (nullish (body req) = false ->
   printable (getOpt (body req) "id") = true ->
   printable (getOpt (body req) "subject") = true ->
   printable (getOpt (getOpt (body req) "customer") "name") = true ->
   printable (getOpt (getOpt (body req) "customer") "email") = true ->
   printableMessages (jor (getOpt (body req) "threads") (VArr [])) = true ->
   exists tr', Agent.postWebhookHelpScout P req tr = (Return (Send 200 "OK"), tr')).
Proof.
  split.
  - unfold Agent.postWebhookHelpScout, tryCatch, bind, ret.
    destruct (Agent.handleHelpScoutTicket P (body req) tr) as [[r|e] tr'] eqn:H.
    + left. now exists r, tr'.
    + right. now exists e, tr'.
  - intros Hn Hid Hsubject Hname Hemail Hthreads.
    destruct (TraceFacts.pipelineSteps_returns P (helpScoutTicket (body req))
                defaultOptions _ tr eq_refl (helpScoutTicket_customer P (body req)))
      as (r & tr' & Hsteps).
    + unfold printableCustomer. cbn [name email].
      rewrite !printable_jor by reflexivity. now rewrite Hname, Hemail.
    + unfold printableTicket, helpScoutTicket.
      cbn [getOpt lookup String.eqb Ascii.eqb Bool.eqb printable].
      now rewrite Hid, Hsubject, Hthreads.
    + reflexivity.
    + apply PipelineFacts.processTicket_Return_iff in Hsteps.
      rewrite <- (handleHelpScoutTicket_eq P (body req) tr Hn) in Hsteps.
      exists tr'. unfold Agent.postWebhookHelpScout, tryCatch, bind, ret.
      now rewrite Hsteps.
Qed.

Lemma postWebhookHelpScout_answers_witness :
  exists tr',
    Agent.postWebhookHelpScout (Demo.platform false VNull)
      {| body := VObj []; headers := Demo.noHeaders |} [] =
    (Return (Send 200 "OK"), tr').
Proof.
  apply (proj2 (postWebhookHelpScout_answers (Demo.platform false VNull)
                  {| body := VObj []; headers := Demo.noHeaders |} []));
    reflexivity.
Defined.

(** ** The body extractor *)

Lemma scan_skips (fromBase64 : value -> outcome string) (before rest : list value) :
  (forall p, In p before -> nullish p = false /\ plainPart p = false) ->
  (fix scan (l : list value) : outcome string :=
     match l with
     | [] => Return "No content available"
     | part :: rest =>
         let? mimeType := get part "mimeType" in
         if isText mimeType "text/plain" &&
            truthy (getOpt (getOpt part "body") "data")
         then fromBase64 (getOpt (getOpt part "body") "data")
         else scan rest
     end) (before ++ rest)%list =
  (fix scan (l : list value) : outcome string :=
     match l with
     | [] => Return "No content available"
     | part :: rest =>
         let? mimeType := get part "mimeType" in
         if isText mimeType "text/plain" &&
            truthy (getOpt (getOpt part "body") "data")
         then fromBase64 (getOpt (getOpt part "body") "data")
         else scan rest
     end) rest.
Proof.
  induction before as [|p before IH]; intros Hbefore; [reflexivity|].
  destruct (Hbefore p (or_introl eq_refl)) as [Hn Hp].
  cbn [app]. rewrite (get_not_nullish p _ Hn). cbn [obind].
  unfold plainPart in Hp. rewrite Hp.
  apply IH. intros q Hq. apply Hbefore. now right.
Qed.

(** X16: when the payload has parts, the body is the decoded data of the
    first part that is [text/plain] and carries data; the parts before it
    (HTML parts, plain parts without data) and every part after it are
    ignored. *)
Theorem extractEmailBody_first_plain_part (fromBase64 : value -> outcome string)
    (payload part : value) (before after : list value) :
  getOpt payload "parts" = VArr (before ++ part :: after) ->
  (forall p, In p before -> nullish p = false /\ plainPart p = false) ->
  nullish part = false ->
  plainPart part = true ->
  Agent.extractEmailBody fromBase64 payload =
  fromBase64 (getOpt (getOpt part "body") "data").
Proof.
  intros Hparts Hbefore Hn Hp. unfold Agent.extractEmailBody.
  rewrite Hparts. cbn [truthy iterate obind].
  rewrite (scan_skips fromBase64 before (part :: after) Hbefore).
  rewrite (get_not_nullish part _ Hn). cbn [obind].
  unfold plainPart in Hp. now rewrite Hp.
Qed.

Lemma extractEmailBody_first_plain_part_witness :
  Agent.extractEmailBody (fun data => toString Demo.string_of_Z data)
    (VObj [("parts",
            VArr [VObj [("mimeType", VStr "text/html");
                        ("body", VObj [("data", VStr "PGI+")])];
                  VObj [("mimeType", VStr "text/plain");
                        ("body", VObj [("data", VStr "SGVsbG8=")])];
                  VObj [("mimeType", VStr "text/plain");
                        ("body", VObj [("data", VStr "QnllIQ==")])]])]) =
  Return "SGVsbG8=".
Proof.
  apply (extractEmailBody_first_plain_part (fun data => toString Demo.string_of_Z data)
           (VObj [("parts",
                   VArr [VObj [("mimeType", VStr "text/html");
                               ("body", VObj [("data", VStr "PGI+")])];
                         VObj [("mimeType", VStr "text/plain");
                               ("body", VObj [("data", VStr "SGVsbG8=")])];
                         VObj [("mimeType", VStr "text/plain");
                               ("body", VObj [("data", VStr "QnllIQ==")])]])])
           (VObj [("mimeType", VStr "text/plain");
                  ("body", VObj [("data", VStr "SGVsbG8=")])])
           [VObj [("mimeType", VStr "text/html");
                  ("body", VObj [("data", VStr "PGI+")])]]
           [VObj [("mimeType", VStr "text/plain");
                  ("body", VObj [("data", VStr "QnllIQ==")])]]).
  - reflexivity.
  - intros p [<-|[]]. split; reflexivity.
  - reflexivity.
  - reflexivity.
Defined.

(** X17: when the payload has a parts array (an empty one included) and no
    part of it is [text/plain] with data, the extractor answers
    ["No content available"] without decoding anything: the top-level body
    is not consulted, whatever it holds.  Without parts, the top-level body
    data is decoded when present, and the same sentinel answered
    otherwise. *)
Theorem extractEmailBody_sentinel (fromBase64 : value -> outcome string)
    (payload : value) :
  (forall parts,
     getOpt payload "parts" = VArr parts ->
     (forall p, In p parts -> nullish p = false /\ plainPart p = false) ->
     Agent.extractEmailBody fromBase64 payload = Return "No content available") /\
  (truthy (getOpt payload "parts") = false ->
   Agent.extractEmailBody fromBase64 payload =
   if truthy (getOpt (getOpt payload "body") "data")
   then fromBase64 (getOpt (getOpt payload "body") "data")
   else Return "No content available").
Proof.
  split.
  - intros parts Hparts Hnone. unfold Agent.extractEmailBody.
    rewrite Hparts. cbn [truthy iterate obind].
    rewrite <- (app_nil_r parts).
    now rewrite (scan_skips fromBase64 parts [] Hnone).
  - intros Hfalsy. unfold Agent.extractEmailBody. now rewrite Hfalsy.
Qed.

Lemma extractEmailBody_sentinel_witness :
  Agent.extractEmailBody (fun data => toString Demo.string_of_Z data)
    (VObj [("parts",
            VArr [VObj [("mimeType", VStr "text/html");
                        ("body", VObj [("data", VStr "PGI+")])]]);
           ("body", VObj [("data", VStr "SGVsbG8=")])]) =
  Return "No content available".
Proof.
  apply (proj1 (extractEmailBody_sentinel (fun data => toString Demo.string_of_Z data)
                  (VObj [("parts",
                          VArr [VObj [("mimeType", VStr "text/html");
                                      ("body", VObj [("data", VStr "PGI+")])]]);
                         ("body", VObj [("data", VStr "SGVsbG8=")])]))
           [VObj [("mimeType", VStr "text/html");
                  ("body", VObj [("data", VStr "PGI+")])]]).
  - reflexivity.
  - intros p [<-|[]]. split; reflexivity.
Defined.

(** ** The customer lines of a notification *)

Lemma template_Lit (num : Z -> string) (a : string) (rest : list piece) (s : string) :
  template num (Lit a :: rest) = Return s ->
  exists r, template num rest = Return r /\ s = a ++ r.
Proof.
  cbn [template]. destruct (template num rest) as [r|e]; [|discriminate].
  intros [= <-]. now exists r.
Qed.

Lemma template_Sub (num : Z -> string) (v : value) (rest : list piece) (s : string) :
  template num (Sub (Return v) :: rest) = Return s ->
  exists t r, toString num v = Return t /\ template num rest = Return r /\ s = t ++ r.
Proof.
  cbn [template obind]. destruct (toString num v) as [t|e]; [|discriminate].
  cbn [obind]. destruct (template num rest) as [r|e]; [|discriminate].
  intros [= <-]. now exists t, r.
Qed.

(** The customer lines, from the name and the email address as texts. *)
Lemma customerLines_eq (P : Platform) (cust : Customer) (n e : string) :
  toString (Number_toString P) (name cust) = Return n ->
  toString (Number_toString P) (email cust) = Return e ->
  Agent.customerLine P cust =
  Return (if truthy (name cust) then "*Customer:* " ++ n
          else if truthy (email cust) then "*Customer:* " ++ e
          else "*Customer:* Unknown customer") /\
  Agent.emailLine P cust =
  Return (if truthy (email cust) then nl ++ "*Email:* " ++ e else "").
Proof.
  intros Hn He. unfold Agent.customerLine, Agent.emailLine.
  destruct (truthy (name cust)), (truthy (email cust));
    cbn [template obind]; rewrite ?Hn, ?He; cbn [obind];
    rewrite ?append_empty_r; split; reflexivity.
Qed.

(** The first block of the notification of a ticket. *)
Lemma message_first_block (P : Platform) (ticket : value) (cl el text : string)
    (blocks : list block) :
  Agent.message P ticket cl el None = Return (text, blocks) ->
  exists id subject source second,
    toString (Number_toString P) (getOpt ticket "id") = Return id /\
    toString (Number_toString P) (getOpt ticket "subject") = Return subject /\
    toString (Number_toString P) (getOpt ticket "source") = Return source /\
    blocks =
    [SectionBlock
       ("*New Support Ticket*" ++ nl ++
        "*Ticket ID:* " ++ id ++ nl ++
        cl ++ el ++ nl ++
        "*Subject:* " ++ subject ++ nl ++
        "*Source:* " ++ source);
     second].
Proof.
  unfold Agent.message.
  destruct (Agent.customerMessage P ticket) as [excerpt|e0]; [|discriminate].
  cbn [obind].
  destruct (template _ _) as [text0|e1]; [|discriminate]. cbn [obind].
  destruct (template _ _) as [block|e2] eqn:Hblock; [|discriminate]. cbn [obind].
  destruct (template _ [Lit ("*Customer Message:*" ++ nl); _]) as [shown|e3];
    [|discriminate].
  cbn [obind].
  intros H. apply Return_inj in H. injection H as _ <-.
  apply template_Lit in Hblock as (r1 & Hblock & ->).
  apply template_Sub in Hblock as (id & r2 & Hid & Hblock & ->).
  apply template_Lit in Hblock as (r3 & Hblock & ->).
  apply template_Sub in Hblock as (cl' & r4 & Hcl & Hblock & ->).
  apply template_Sub in Hblock as (el' & r5 & Hel & Hblock & ->).
  apply template_Lit in Hblock as (r6 & Hblock & ->).
  apply template_Sub in Hblock as (subject & r7 & Hsubject & Hblock & ->).
  apply template_Lit in Hblock as (r8 & Hblock & ->).
  apply template_Sub in Hblock as (source & r9 & Hsource & Hblock & ->).
  cbn [template] in Hblock. apply Return_inj in Hblock. subst r9.
  cbn [toString] in Hcl, Hel. apply Return_inj in Hcl, Hel. subst cl' el'.
  exists id, subject, source, (SectionBlock shown).
  rewrite append_empty_r. repeat split; auto.
Qed.

(** X12: the customer line of a notification names the customer by the
    normalised name, or by the email address when the name is empty, or as
    [Unknown customer] when both are empty, and the email line is there
    exactly when the email address is not empty.  When the id, the
    subject, the source and the first message of the ticket have a text,
    the notification of the ticket is posted, and its first block carries
    these lines between the id and the subject. *)
Theorem notification_names_customer (P : Platform) (ticket : value) (cust : Customer)
    (response : value) (tr : trace) :
  printableCustomer cust = true ->
  exists n e cl el,
    toString (Number_toString P) (name cust) = Return n /\
    toString (Number_toString P) (email cust) = Return e /\
    Agent.customerLine P cust = Return cl /\
    Agent.emailLine P cust = Return el /\
    cl = (if truthy (name cust) then "*Customer:* " ++ n
          else if truthy (email cust) then "*Customer:* " ++ e
          else "*Customer:* Unknown customer") /\
    el = (if truthy (email cust) then nl ++ "*Email:* " ++ e else "") /\
    (printable (getOpt ticket "id") = true ->
     printable (getOpt ticket "subject") = true ->
     printable (getOpt ticket "source") = true ->
     printable (firstMessage ticket) = true ->
     exists text id subject source second rest,
       toString (Number_toString P) (getOpt ticket "id") = Return id /\
       toString (Number_toString P) (getOpt ticket "subject") = Return subject /\
       toString (Number_toString P) (getOpt ticket "source") = Return source /\
       snd (Agent.notifySlackChannel P ticket cust response None tr) =
       (tr ++ SlackPost (env P "SLACK_SUPPORT_CHANNEL_ID") None text
                [SectionBlock
                   ("*New Support Ticket*" ++ nl ++
                    "*Ticket ID:* " ++ id ++ nl ++
                    cl ++ el ++ nl ++
                    "*Subject:* " ++ subject ++ nl ++
                    "*Source:* " ++ source);
                 second]
              :: rest)%list).
Proof.
  intros Hcust. pose proof Hcust as Hp. unfold printableCustomer in Hp.
  apply andb_prop in Hp as [Hname Hemail].
  destruct (toString_printable (Number_toString P) _ Hname) as [n Hn].
  destruct (toString_printable (Number_toString P) _ Hemail) as [e He].
  destruct (customerLines_eq P cust n e Hn He) as [Hcl Hel].
  exists n, e. do 2 eexists.
  split; [exact Hn|]. split; [exact He|]. split; [exact Hcl|]. split; [exact Hel|].
  split; [reflexivity|]. split; [reflexivity|].
  intros Hid Hsubject Hsource Hfirst.
  destruct (notifySlackChannel_cases P ticket cust response None tr Hcust)
    as (cl & el & Hcl' & Hel' & [[Hmsg _]|(text & blocks & result & Hmsg & Hposts)]).
  - rewrite returns_message, Hid, Hsubject, Hsource, Hfirst in Hmsg. discriminate.
  - rewrite Hcl in Hcl'. rewrite Hel in Hel'.
    apply Return_inj in Hcl', Hel'. subst cl el.
    destruct (message_first_block P _ _ _ _ _ Hmsg)
      as (id & subject & source & second & Hi & Hs & Hso & ->).
    exists text, id, subject, source, second. cbv zeta in Hposts.
    destruct Hposts as [[Hrun _]|(post & ts & fullText & _ & _ & _ & _ & _ & Hrun & _)];
      rewrite Hrun; cbn [snd]; eexists; repeat split; eauto.
Qed.

Lemma notification_names_customer_witness :
  exists n e cl el,
    toString Demo.string_of_Z (VStr "") = Return n /\
    toString Demo.string_of_Z (VStr "") = Return e /\
    Agent.customerLine (Demo.platform true VNull) {| name := VStr ""; email := VStr "" |} =
    Return cl /\
    Agent.emailLine (Demo.platform true VNull) {| name := VStr ""; email := VStr "" |} =
    Return el /\
    cl = "*Customer:* Unknown customer" /\ el = "".
Proof.
  destruct (notification_names_customer (Demo.platform true VNull) scenarioTicket
              {| name := VStr ""; email := VStr "" |} VNull [] eq_refl)
    as (n & e & cl & el & Hn & He & Hcl & Hel & Hc & Hl & _).
  exists n, e, cl, el. repeat split; assumption.
Defined.

End IntakeFacts.
(* ================================================================== *)
(** * [n8n customer support agent.js]: resolution and notification *)
(* ================================================================== *)

Module N8nFacts.
Import JS Effects Data Spec Props JSFacts MonadFacts StepFacts TraceFacts.
#[local] Open Scope list_scope.

Section N8nSteps.

Variable P : Platform.

(** ** Whether the texts can be built *)

Lemma pieceBuilds_nested (ticket : value) (k : string) :
  pieceBuilds (Sub (let? customer := get ticket "customer" in
                    Return (getOpt customer k))) =
  negb (nullish ticket) && printable (getOpt (getOpt ticket "customer") k).
Proof. destruct ticket; reflexivity. Qed.

Lemma returns_n8n_prompt (ticket context : value) :
  returns (N8n.prompt P ticket context) =
  negb (nullish ticket) && printableNested ticket &&
  printable (getOpt ticket "subject") && printableMessages (getOpt ticket "messages").
Proof.
  unfold N8n.prompt. rewrite returns_template.
  cbn [forallb]. rewrite pieceBuilds_messageBodies, !pieceBuilds_nested.
  unfold printableNested.
  destruct (nullish ticket) eqn:Hn.
  { destruct ticket; try discriminate; reflexivity. }
  rewrite !(get_not_nullish ticket _ Hn).
  cbn [pieceBuilds negb andb printable].
  bools.
Qed.









(** ** Response resolution *)

Lemma n8n_generateAIResponse_cases (ticket context : value) (tr : trace) :
  (exists e,
     N8n.prompt P ticket context = Throw e /\
     N8n.generateAIResponse P ticket context tr = (Throw e, tr)) \/
  (exists prompt v,
     N8n.prompt P ticket context = Return prompt /\
     N8n.generateAIResponse P ticket context tr = (Return v, tr ++ [Completion prompt]) /\
     truthy v = true /\
     (forall e, respond P tr (Completion prompt) = Throw e -> v = VStr N8n.fallbackAI) /\
     (forall completion,
        respond P tr (Completion prompt) = Return completion ->
        v = if nullish completion then VStr N8n.fallbackAI
            else jor (getOpt (getOpt (getOpt0 (getOpt completion "choices")) "message")
                        "content")
                     (VStr N8n.fallbackAI))).
Proof.
  unfold N8n.generateAIResponse. unfold bind at 1, lift at 1.
  destruct (N8n.prompt P ticket context) as [prompt|e]; [right|left; now exists e].
  exists prompt. unfold tryCatch, bind, call, lift, ret. cbn [fst snd].
  destruct (respond P tr (Completion prompt)) as [completion|e1] eqn:Hr.
  - destruct (nullish completion) eqn:Hn.
    + exists (VStr N8n.fallbackAI).
      split; [reflexivity|]. split; [now destruct completion|].
      split; [reflexivity|]. split; [discriminate|].
      intros c [= <-]. now rewrite Hn.
    + rewrite (get_not_nullish completion _ Hn).
      eexists. split; [reflexivity|]. split; [reflexivity|]. split.
      * unfold jor at 1.
        destruct (truthy (jor _ (VStr ""))) eqn:Ht; [exact Ht|reflexivity].
      * split; [discriminate|]. intros c [= <-]. rewrite Hn.
        unfold jor.
        destruct (truthy (getOpt (getOpt (getOpt0 (getOpt completion "choices"))
                                    "message") "content")) eqn:Ht;
          [now rewrite Ht|reflexivity].
  - exists (VStr N8n.fallbackAI). split; [reflexivity|]. split; [reflexivity|].
    split; [reflexivity|]. split; [reflexivity|discriminate].
Qed.

(** X18: in [n8n customer support agent.js] the resolved response is the
    draft when one is supplied and a fixed sentence when [skipAI] is set,
    without any call.  Otherwise the prompt is built first, which raises
    before any call when the ticket is [null] or a field of it has no
    text; then one completion request is made and the response is the
    content of the first choice of the answer, with a second fixed
    sentence in its place when that content is empty or missing, when the
    answer is [null] and when the provider rejects.  A resolved response
    is never empty. *)
Theorem n8n_resolveResponse_never_empty (ticket context : value)
    (opts : PipelineOptions) (tr : trace) :
  (truthy (draftText opts) = true ->
   N8n.resolveResponse P ticket context opts tr = (Return (draftText opts), tr)) /\
  (truthy (draftText opts) = false -> skipAI opts = true ->
   N8n.resolveResponse P ticket context opts tr = (Return (VStr N8n.fallbackSkipAI), tr)) /\
  (truthy (draftText opts) = false -> skipAI opts = false ->
   (exists e,
      N8n.prompt P ticket context = Throw e /\
      N8n.resolveResponse P ticket context opts tr = (Throw e, tr)) \/
   (exists prompt v,
      N8n.prompt P ticket context = Return prompt /\
      N8n.resolveResponse P ticket context opts tr =
      (Return v, tr ++ [Completion prompt]) /\
      (forall e, respond P tr (Completion prompt) = Throw e -> v = VStr N8n.fallbackAI) /\
      (forall completion,
         respond P tr (Completion prompt) = Return completion ->
         v = if nullish completion then VStr N8n.fallbackAI
             else jor (getOpt (getOpt (getOpt0 (getOpt completion "choices")) "message")
                         "content")
                      (VStr N8n.fallbackAI)))) /\
  returns (N8n.prompt P ticket context) =
  negb (nullish ticket) && printableNested ticket &&
  printable (getOpt ticket "subject") && printableMessages (getOpt ticket "messages") /\
  (forall v tr',
     N8n.resolveResponse P ticket context opts tr = (Return v, tr') -> truthy v = true).
Proof.
  unfold N8n.resolveResponse. split; [|split; [|split; [|split]]].
  - intros Hd. now rewrite Hd.
  - intros Hd Hs. now rewrite Hd, Hs.
  - intros Hd Hs. rewrite Hd, Hs. cbn [negb].
    destruct (n8n_generateAIResponse_cases ticket context tr)
      as [(e & Hp & He)|(prompt & v & Hp & Hgen & _ & Hrej & Hans)].
    + left. now exists e.
    + right. now exists prompt, v.
  - apply returns_n8n_prompt.
  - intros v tr'. destruct (truthy (draftText opts)) eqn:Hd; cbn [negb].
    + intros H. apply ret_inv in H as [<- _]. exact Hd.
    + destruct (skipAI opts); cbn [negb]; intros H.
      * apply ret_inv in H as [<- _]. reflexivity.
      * destruct (n8n_generateAIResponse_cases ticket context tr)
          as [(e & _ & He)|(prompt & v0 & _ & Hgen & Ht & _)]; [congruence|].
        rewrite Hgen in H. now injection H as <- _.
Qed.

(** ** The notifier can raise *)









End N8nSteps.

Lemma n8n_resolveResponse_never_empty_witness :
  exists v tr',
    N8n.resolveResponse (Demo.platform false VNull) scenarioTicket VNull defaultOptions [] =
    (Return v, tr') /\
    truthy v = true /\ v = VStr N8n.fallbackAI.
Proof.
  eexists. eexists.
  assert (H : forall v tr',
             N8n.resolveResponse (Demo.platform false VNull) scenarioTicket VNull
               defaultOptions [] = (Return v, tr') ->
             v = VStr N8n.fallbackAI ->
             N8n.resolveResponse (Demo.platform false VNull) scenarioTicket VNull
               defaultOptions [] = (Return v, tr') /\
             truthy v = true /\ v = VStr N8n.fallbackAI).
  { intros v tr' Hrun Hv. split; [exact Hrun|]. split; [|exact Hv].
    apply (proj2 (proj2 (proj2 (proj2
             (n8n_resolveResponse_never_empty (Demo.platform false VNull) scenarioTicket
                VNull defaultOptions [])))) v tr' Hrun). }
  apply H; vm_compute; reflexivity.
Defined.


End N8nFacts.
(* ================================================================== *)
(** * [server.js]: posting to the chat *)
(* ================================================================== *)

Module ServerFacts.
Import JS Props ServerProps.
#[local] Open Scope list_scope.

(** The bearer line of a request. *)
Lemma authorization_eq (R : Server.Runtime) :
  truthy (Server.env R "SLACK_BOT_TOKEN") = true ->
  template (Server.Number_toString R)
    [Lit "Bearer "; Sub (Return (Server.env R "SLACK_BOT_TOKEN"))] =
  Return ("Bearer " ++ envText R "SLACK_BOT_TOKEN")%string.
Proof.
  unfold Server.env, envText.
  destruct (Server.process_env R "SLACK_BOT_TOKEN"); [|discriminate].
  intros _. cbn [template obind toString]. now rewrite JSFacts.append_empty_r.
Qed.

Lemma postToSlack_cases (R : Server.Runtime) (text channel : value)
    (log : list Server.Fetch) :
  (truthy (Server.env R "SLACK_BOT_TOKEN") && truthy (channelOf R channel) = false /\
   Server.postToSlack R text channel log = (Throw missing, log)) \/
  (truthy (Server.env R "SLACK_BOT_TOKEN") && truthy (channelOf R channel) = true /\
   let request := requestOf R text (channelOf R channel) in
   Server.postToSlack R text channel log =
   (match Server.fetchJson R log request with
    | Throw e => Throw e
    | Return data =>
        match get data "ok" with
        | Throw e => Throw e
        | Return ok =>
            if truthy ok then Return data
            else Throw (ApiError ("Slack error: " ++ Server.JSON_stringify R data)%string)
        end
    end, log ++ [request])).
Proof.
  unfold Server.postToSlack. fold (channelOf R channel). cbv zeta.
  destruct (truthy (Server.env R "SLACK_BOT_TOKEN")) eqn:Ht; cbn [negb orb andb];
    [|left; now split].
  destruct (truthy (channelOf R channel)); cbn [negb]; [|left; now split].
  right. split; [reflexivity|].
  unfold Server.bind, Server.lift, Server.throw, Server.ret, requestOf.
  rewrite (authorization_eq R Ht).
  destruct (Server.fetchJson R log _) as [data|e]; [|reflexivity].
  destruct (get data "ok") as [ok|e]; [|reflexivity].
  destruct (truthy ok); reflexivity.
Qed.

(** Without a token or a channel nothing is requested. *)
Lemma postToSlack_missing (R : Server.Runtime) (text channel : value)
    (log : list Server.Fetch) :
  truthy (Server.env R "SLACK_BOT_TOKEN") = false \/
  truthy (channelOf R channel) = false ->
  Server.postToSlack R text channel log = (Throw missing, log).
Proof.
  intros Hm.
  destruct (postToSlack_cases R text channel log) as [[_ H]|[Hc _]]; [exact H|].
  destruct Hm as [Ht|Hch]; [rewrite Ht in Hc|rewrite Hch, andb_false_r in Hc];
    discriminate.
Qed.

(** X20: [postToSlack] makes no request unless both the bot token and a
    channel are there: it raises the [Missing ...] error first.  With both,
    it makes exactly one request, carrying the token as bearer, and returns
    the answer of the chat exactly when its [ok] field is truthy; an answer
    whose [ok] is falsy is raised as a [Slack error]. *)
Theorem postToSlack_contract (R : Server.Runtime) (text channel : value)
    (log : list Server.Fetch) :
  (truthy (Server.env R "SLACK_BOT_TOKEN") = false \/
   truthy (channelOf R channel) = false ->
   Server.postToSlack R text channel log = (Throw missing, log)) /\
  (truthy (Server.env R "SLACK_BOT_TOKEN") = true ->
   truthy (channelOf R channel) = true ->
   let request := requestOf R text (channelOf R channel) in
   snd (Server.postToSlack R text channel log) = log ++ [request] /\
   (forall data,
      Server.postToSlack R text channel log = (Return data, log ++ [request]) <->
      Server.fetchJson R log request = Return data /\
      truthy (getOpt data "ok") = true) /\
   (forall data,
      Server.fetchJson R log request = Return data ->
      nullish data = false ->
      truthy (getOpt data "ok") = false ->
      Server.postToSlack R text channel log =
      (Throw (ApiError ("Slack error: " ++ Server.JSON_stringify R data)%string),
       log ++ [request]))).
Proof.
  destruct (postToSlack_cases R text channel log) as [[Hc H]|[Hc H]]; cbv zeta in *.
  - split; [now intros _|].
    intros Ht Hch. rewrite Ht, Hch in Hc. discriminate.
  - split.
    + intros [Ht|Hch]; [rewrite Ht in Hc|rewrite Hch, andb_false_r in Hc]; discriminate.
    + intros _ _. rewrite H. cbn [snd]. split; [reflexivity|]. split.
      * intros data. split.
        -- intros Heq. injection Heq as Heq.
           destruct (Server.fetchJson R log _) as [data0|e]; [|discriminate].
           destruct (get data0 "ok") as [ok|e] eqn:Hok; [|discriminate].
           destruct (truthy ok) eqn:Htr; [|discriminate].
           injection Heq as <-. split; [reflexivity|].
           assert (Hn : nullish data0 = false)
             by (destruct data0; try reflexivity; discriminate Hok).
           rewrite (JSFacts.get_not_nullish data0 _ Hn) in Hok.
           injection Hok as <-. exact Htr.
        -- intros [Hf Hok]. rewrite Hf.
           assert (Hn : nullish data = false)
             by (destruct data; try reflexivity; discriminate Hok).
           rewrite (JSFacts.get_not_nullish data _ Hn), Hok. reflexivity.
      * intros data Hf Hn Hok. rewrite Hf.
        rewrite (JSFacts.get_not_nullish data _ Hn), Hok. reflexivity.
Qed.

Lemma postToSlack_contract_witness :
  Server.postToSlack (DemoServer.runtime false (Return (VObj [("ok", VBool true)])))
    (VStr "hello") VUndefined [] = (Throw missing, []).
Proof.
  apply (proj1 (postToSlack_contract
                  (DemoServer.runtime false (Return (VObj [("ok", VBool true)])))
                  (VStr "hello") VUndefined [])).
  left. reflexivity.
Defined.

(** A chat answer that was returned is not [null]. *)
Lemma postToSlack_returned (R : Server.Runtime) (text channel : value)
    (log log' : list Server.Fetch) (data : value) :
  Server.postToSlack R text channel log = (Return data, log') -> nullish data = false.
Proof.
  intros H.
  destruct (postToSlack_cases R text channel log) as [[_ Hrun]|[_ Hrun]];
    cbv zeta in Hrun; rewrite Hrun in H; [discriminate|].
  injection H as H _.
  destruct (Server.fetchJson R log _) as [data0|e]; [|discriminate].
  destruct (get data0 "ok") as [ok|e] eqn:Hok; [|discriminate].
  destruct (truthy ok); [|discriminate]. injection H as <-.
  destruct data0; try reflexivity; discriminate Hok.
Qed.

(** The text [/cmocreate] posts. *)
Lemma cmoCreate_text (R : Server.Runtime) (taskType content : value) :
  (forall t c,
     toString (Server.Number_toString R) taskType = Return t ->
     toString (Server.Number_toString R) content = Return c ->
     template (Server.Number_toString R)
       [Lit "New *"; Sub (Return taskType);
        Lit ("* received:" ++ String "010"%char ""); Sub (Return content)] =
     Return ("New *" ++ t ++ "* received:" ++ String "010"%char c)%string) /\
  (printable taskType && printable content = false ->
   template (Server.Number_toString R)
     [Lit "New *"; Sub (Return taskType);
      Lit ("* received:" ++ String "010"%char ""); Sub (Return content)] =
   Throw (TypeError "Cannot convert object to primitive value")).
Proof.
  split.
  - intros t c Ht Hc. cbn [template obind]. rewrite Ht, Hc. cbn [obind].
    now rewrite JSFacts.append_empty_r.
  - intros Hp. cbn [template obind].
    pose proof (JSFacts.toString_spec (Server.Number_toString R) taskType) as H1.
    pose proof (JSFacts.toString_spec (Server.Number_toString R) content) as H2.
    destruct (toString _ taskType) as [t|e1] eqn:Et; cbn [obind].
    + rewrite H1 in Hp. cbn [andb] in Hp.
      destruct (toString _ content) as [c|e2] eqn:Ec; cbn [obind]; [congruence|].
      now rewrite (JSFacts.toString_error _ _ _ Ec).
    + now rewrite (JSFacts.toString_error _ _ _ Et).
Qed.

(** X21: the [/cmocreate] route never raises.  The text it posts names the task type and the content, with
    ['post'] and ['(sin contenido)'] in place of the ones that are
    missing; when one of the two has no text it answers [500] without any
    request.  Otherwise it answers [200 {ok: true, received: body}] when
    [postToSlack] returned, and [500 {ok: false, error}] with the message
    of the error when it raised. *)
Theorem postCmoCreate_answers (R : Server.Runtime) (body : value)
    (log : list Server.Fetch) :
  let taskType := Server.withDefault (jor body (VObj [])) "taskType" "post" in
  let content := Server.withDefault (jor body (VObj [])) "content" "(sin contenido)" in
  (printable taskType && printable content = false ->
   Server.postCmoCreate R body log =
   (Return (Server.Json 500
              (VObj [("ok", VBool false);
                     ("error", VStr "Cannot convert object to primitive value")])),
    log)) /\
  (forall t c,
     toString (Server.Number_toString R) taskType = Return t ->
     toString (Server.Number_toString R) content = Return c ->
     let text := VStr ("New *" ++ t ++ "* received:" ++ String "010"%char c)%string in
     (forall data log',
        Server.postToSlack R text VUndefined log = (Return data, log') ->
        Server.postCmoCreate R body log =
        (Return (Server.Json 200 (VObj [("ok", VBool true); ("received", body)])), log')) /\
     (forall e log',
        Server.postToSlack R text VUndefined log = (Throw e, log') ->
        Server.postCmoCreate R body log =
        (Return (Server.Json 500
                   (VObj [("ok", VBool false); ("error", VStr (Server.message e))])),
         log')) /\
     (truthy (Server.env R "SLACK_BOT_TOKEN") = false ->
      Server.postCmoCreate R body log =
      (Return (Server.Json 500
                 (VObj [("ok", VBool false);
                        ("error",
                         VStr "Missing SLACK_BOT_TOKEN or SLACK_SUPPORT_CHANNEL_ID")])),
       log))).
Proof.
  intros taskType content.
  destruct (cmoCreate_text R taskType content) as [Hbuilt Hraise].
  split.
  - intros Hp. unfold Server.postCmoCreate, Server.tryCatch. cbv zeta.
    unfold Server.bind at 1, Server.lift at 1.
    fold taskType content. now rewrite (Hraise Hp).
  - intros t c Ht Hc text.
    assert (Hroute : Server.postCmoCreate R body log =
                     match Server.postToSlack R text VUndefined log with
                     | (Return _, log') =>
                         (Return (Server.Json 200
                                    (VObj [("ok", VBool true); ("received", body)])), log')
                     | (Throw e, log') =>
                         (Return (Server.Json 500
                                    (VObj [("ok", VBool false);
                                           ("error", VStr (Server.message e))])), log')
                     end).
    { unfold Server.postCmoCreate, Server.tryCatch. cbv zeta.
      unfold Server.bind at 1, Server.lift at 1.
      fold taskType content. rewrite (Hbuilt t c Ht Hc). fold text.
      unfold Server.bind, Server.ret.
      now destruct (Server.postToSlack R text VUndefined log) as [[data|e] log']. }
    split; [|split].
    + intros data log' H. now rewrite Hroute, H.
    + intros e log' H. now rewrite Hroute, H.
    + intros Hm. rewrite Hroute.
      now rewrite (postToSlack_missing R text VUndefined log (or_introl Hm)).
Qed.

Lemma postCmoCreate_answers_witness :
  Server.postCmoCreate (DemoServer.runtime true (Return (VObj [("ok", VBool true)])))
    (VObj [("content", VStr "Launch")]) [] =
  (Return (Server.Json 200
             (VObj [("ok", VBool true); ("received", VObj [("content", VStr "Launch")])])),
   [requestOf (DemoServer.runtime true (Return (VObj [("ok", VBool true)])))
      (VStr ("New *post* received:" ++ String "010"%char "Launch")%string)
      (VStr "C1234567890")]).
Proof.
  apply (proj1 (proj2 (postCmoCreate_answers
                         (DemoServer.runtime true (Return (VObj [("ok", VBool true)])))
                         (VObj [("content", VStr "Launch")]) [])
                  "post"%string "Launch"%string eq_refl eq_refl)
           (VObj [("ok", VBool true)])).
  reflexivity.
Defined.

(** X22: the [/test/slack] route never raises.  The text it posts is the
    one of the request, or a [Server alive] line with the time when the
    request has none.  When [postToSlack] returned the answer of the chat,
    the route answers [200] with the channel and the timestamp of that
    answer ([ts], else [message.ts]); when [postToSlack] raised, it answers
    [500 {ok: false, error}] with the message of the error, and without
    any request when the bot token is missing. *)
Theorem postTestSlack_answers (R : Server.Runtime) (body : value)
    (log : list Server.Fetch) :
  let text :=
    jor (getOpt body "text")
        (VStr ("Server alive ✅ " ++ Server.toISOString R log)%string) in
  (forall data log',
     Server.postToSlack R text VUndefined log = (Return data, log') ->
     Server.postTestSlack R body log =
     (Return (Server.Json 200
                (VObj [("ok", VBool true);
                       ("channel", getOpt data "channel");
                       ("ts", jor (getOpt data "ts")
                                  (getOpt (getOpt data "message") "ts"))])),
      log')) /\
  (forall e log',
     Server.postToSlack R text VUndefined log = (Throw e, log') ->
     Server.postTestSlack R body log =
     (Return (Server.Json 500
                (VObj [("ok", VBool false); ("error", VStr (Server.message e))])), log')) /\
  (truthy (Server.env R "SLACK_BOT_TOKEN") = false ->
   Server.postTestSlack R body log =
   (Return (Server.Json 500
              (VObj [("ok", VBool false);
                     ("error", VStr "Missing SLACK_BOT_TOKEN or SLACK_SUPPORT_CHANNEL_ID")])),
    log)).
Proof.
  intros text.
  assert (Hroute : Server.postTestSlack R body log =
                   match Server.postToSlack R text VUndefined log with
                   | (Return data, log') =>
                       match
                         (let? channel := get data "channel" in
                          let? ts := get data "ts" |||
                                     (let? m := get data "message" in
                                      Return (getOpt m "ts")) in
                          Return (Server.Json 200
                                    (VObj [("ok", VBool true); ("channel", channel);
                                           ("ts", ts)])))
                       with
                       | Return answer => (Return answer, log')
                       | Throw e =>
                           (Return (Server.Json 500
                                      (VObj [("ok", VBool false);
                                             ("error", VStr (Server.message e))])), log')
                       end
                   | (Throw e, log') =>
                       (Return (Server.Json 500
                                  (VObj [("ok", VBool false);
                                         ("error", VStr (Server.message e))])), log')
                   end).
  { unfold Server.postTestSlack, Server.tryCatch. unfold Server.bind at 1.
    assert (Htext : Return (getOpt body "text") |||
                      (let? alive :=
                         template (Server.Number_toString R)
                           [Lit "Server alive ✅ ";
                            Sub (Return (VStr (Server.toISOString R log)))] in
                       Return (VStr alive)) = Return text).
    { unfold text, jor, orElse. cbn [obind template toString].
      rewrite JSFacts.append_empty_r. now destruct (truthy (getOpt body "text")). }
    rewrite Htext.
    unfold Server.bind, Server.lift, Server.ret.
    destruct (Server.postToSlack R text VUndefined log) as [[data|e] log'];
      [|reflexivity].
    destruct (get data "channel") as [channel|e1]; cbn [obind]; [|reflexivity].
    destruct (get data "ts" ||| _) as [ts|e2]; reflexivity. }
  split; [|split].
  - intros data log' H. rewrite Hroute, H.
    pose proof (postToSlack_returned R _ _ _ _ _ H) as Hn.
    rewrite !(JSFacts.get_not_nullish data _ Hn). cbn [obind].
    unfold orElse, jor. cbn [obind].
    now destruct (truthy (getOpt data "ts")).
  - intros e log' H. now rewrite Hroute, H.
  - intros Hm. rewrite Hroute.
    now rewrite (postToSlack_missing R text VUndefined log (or_introl Hm)).
Qed.

Lemma postTestSlack_answers_witness :
  Server.postTestSlack
    (DemoServer.runtime true
       (Return (VObj [("ok", VBool true); ("channel", VStr "C1234567890");
                      ("message", VObj [("ts", VStr "1700000000.000100")])])))
    (VObj [("text", VStr "ping")]) [] =
  (Return (Server.Json 200
             (VObj [("ok", VBool true); ("channel", VStr "C1234567890");
                    ("ts", VStr "1700000000.000100")])),
   [requestOf
      (DemoServer.runtime true
         (Return (VObj [("ok", VBool true); ("channel", VStr "C1234567890");
                        ("message", VObj [("ts", VStr "1700000000.000100")])])))
      (VStr "ping") (VStr "C1234567890")]).
Proof.
  apply (proj1 (postTestSlack_answers
                  (DemoServer.runtime true
                     (Return (VObj [("ok", VBool true); ("channel", VStr "C1234567890");
                                    ("message",
                                     VObj [("ts", VStr "1700000000.000100")])])))
                  (VObj [("text", VStr "ping")]) [])
           (VObj [("ok", VBool true); ("channel", VStr "C1234567890");
                  ("message", VObj [("ts", VStr "1700000000.000100")])])).
  reflexivity.
Defined.

End ServerFacts.
